(** * Property-listing extraction pipeline

    A shallow embedding of the three copies of the listing extraction
    pipeline of the repository:

    - [Cli]    : the collection script [load-properties.js];
    - [Mcp]    : the MCP collection script [load-properties-mcp.js];
    - [Lambda] : [RealtyDataService.collectProperties] of the Lambda service.

    Texts are [string]s whose characters stand for code units in the Latin-1
    range.  JavaScript numbers that hold integers are [Z]; a number parsed by
    [parseFloat] from a decimal literal is kept as that decimal ([Number]).
    The rendered page and its listing nodes are read through their query
    functions.  The clock and [Math.random] are explicit inputs ([Ambient]).
    A call that can throw has a [Completion] as its result: the two scripts
    build their address patterns from the city with [new RegExp], which
    throws on a city that is not a well-formed piece of pattern. *)

From Stdlib Require Import ZArith Ascii String List Lia Bool.
From stdpp Require Import base list strings gmap.

Open Scope string_scope.
Open Scope Z_scope.

(** ** Code units and text primitives *)

Definition code (c : ascii) : Z := Z.of_N (N_of_ascii c).

(** [\d] *)
Definition isDigit (c : ascii) : bool := (48 <=? code c) && (code c <=? 57).

(** [\s], and the characters removed by [trim]: TAB, LF, VT, FF, CR, SP, NBSP. *)
Definition isSpace (c : ascii) : bool :=
  ((9 <=? code c) && (code c <=? 13)) || (code c =? 32) || (code c =? 160).

Definition isUpper (c : ascii) : bool := (65 <=? code c) && (code c <=? 90).

(** Upper-case letters of the Latin-1 supplement: U+00C0..U+00DE but U+00D7. *)
Definition isUpperLatin1 (c : ascii) : bool :=
  (192 <=? code c) && (code c <=? 222) && negb (code c =? 215).

Definition shift32 (c : ascii) : ascii := ascii_of_N (Z.to_N (code c + 32)).

(** One code unit of [String.prototype.toLowerCase]. *)
Definition lowerChar (c : ascii) : ascii :=
  if isUpper c || isUpperLatin1 c then shift32 c else c.

(** Case folding of the [i] flag against an ASCII pattern character. *)
Definition foldAscii (c : ascii) : ascii := if isUpper c then shift32 c else c.

Fixpoint mapChars (f : ascii -> ascii) (s : string) : string :=
  match s with
  | EmptyString => EmptyString
  | String c s' => String (f c) (mapChars f s')
  end.

Definition toLowerCase (s : string) : string := mapChars lowerChar s.

(** [s.replace(/[...]/g, '')] for a character class: drop its members. *)
Fixpoint dropChars (p : ascii -> bool) (s : string) : string :=
  match s with
  | EmptyString => EmptyString
  | String c s' => if p c then dropChars p s' else String c (dropChars p s')
  end.

Fixpoint anyChar (p : ascii -> bool) (s : string) : bool :=
  match s with
  | EmptyString => false
  | String c s' => p c || anyChar p s'
  end.

(** The first character of [s] is in the class [p]. *)
Definition headIs (p : ascii -> bool) (s : string) : bool :=
  match s with
  | String c _ => p c
  | EmptyString => false
  end.

Fixpoint allChars (p : ascii -> bool) (s : string) : bool :=
  match s with
  | EmptyString => true
  | String c s' => p c && allChars p s'
  end.

Fixpoint startsWith (s p : string) {struct p} : bool :=
  match p with
  | EmptyString => true
  | String c p' =>
      match s with
      | EmptyString => false
      | String d s' => Ascii.eqb c d && startsWith s' p'
      end
  end.

Fixpoint includes (s sub : string) : bool :=
  startsWith s sub ||
  match s with
  | EmptyString => false
  | String _ s' => includes s' sub
  end.

Fixpoint skipSpaces (s : string) : string :=
  match s with
  | String c s' => if isSpace c then skipSpaces s' else s
  | EmptyString => EmptyString
  end.

Fixpoint takeChars (n : nat) (s : string) : string :=
  match n, s with
  | S n', String c s' => String c (takeChars n' s')
  | _, _ => EmptyString
  end.

Fixpoint skipChars (n : nat) (s : string) : string :=
  match n, s with
  | S n', String _ s' => skipChars n' s'
  | _, _ => s
  end.

Definition trim (s : string) : string :=
  String.rev (skipSpaces (String.rev (skipSpaces s))).

(** JavaScript truthiness of a string. *)
Definition truthy (s : string) : bool :=
  match s with EmptyString => false | _ => true end.

(** [a || b] on strings. *)
Definition orElse (a b : string) : string := if truthy a then a else b.

(** ** Numbers *)

Definition digitValue (radix : Z) (c : ascii) : option Z :=
  let v :=
    if isDigit c then code c - 48
    else if (97 <=? code c) && (code c <=? 122) then code c - 87
    else if isUpper c then code c - 55
    else 99 in
  if v <? radix then Some v else None.

Fixpoint digitsPrefix (radix : Z) (acc : option Z) (s : string) : option Z :=
  match s with
  | EmptyString => acc
  | String c s' =>
      match digitValue radix c with
      | Some v => digitsPrefix radix (Some (radix * default 0 acc + v)) s'
      | None => acc
      end
  end.

(** [parseInt(s)] without a radix argument; [None] is [NaN].  The result is
    the exact integer: against the literals it is compared with here the
    double that JavaScript computes orders the same way. *)
Definition parseInt (s : string) : option Z :=
  let s0 := skipSpaces s in
  let '(negative, s1) :=
    match s0 with
    | String "-" t => (true, t)
    | String "+" t => (false, t)
    | _ => (false, s0)
    end in
  let '(radix, s2) :=
    if startsWith s1 "0x" || startsWith s1 "0X" then (16, skipChars 2 s1)
    else (10, s1) in
  match digitsPrefix radix None s2 with
  | Some n => Some (if negative then - n else n)
  | None => None
  end.

Definition digitChar (d : Z) : ascii := ascii_of_N (Z.to_N (48 + d)).

Fixpoint showDigits (fuel : nat) (n : Z) (acc : string) : string :=
  match fuel with
  | O => acc
  | S fuel' =>
      let acc' := String (digitChar (n mod 10)) acc in
      if n <? 10 then acc' else showDigits fuel' (n / 10) acc'
  end.

(** [String(n)] for an integer. *)
Definition showZ (n : Z) : string :=
  if n <? 0 then "-" +:+ showDigits (Z.to_nat (Z.log2 (- n)) + 1) (- n) ""
  else showDigits (Z.to_nat (Z.log2 n) + 1) n "".

(** ** Regular expressions

    A backtracking matcher with the priorities of the JavaScript engine:
    alternatives left to right, greedy repetition, leftmost start. *)

Inductive regex : Type :=
| Eps : regex
| Chr : (ascii -> bool) -> regex
| Seq : regex -> regex -> regex
| Alt : regex -> regex -> regex
| Star : regex -> regex
| Eos : regex.

(** Greedy repetition of [step]: one more round first, stopping second; a
    round that consumes nothing is not taken. *)
Fixpoint starLoop {A : Type} (step : string -> (string -> option A) -> option A)
    (k : string -> option A) (fuel : nat) (s : string) : option A :=
  match fuel with
  | O => k s
  | S fuel' =>
      match step s (fun s' =>
              if (String.length s' <? String.length s)%nat
              then starLoop step k fuel' s' else None) with
      | Some x => Some x
      | None => k s
      end
  end.

(** [run r s k]: match [r] at the front of [s] and hand what is left to [k];
    when [k] fails the next way of matching [r] is tried. *)
Fixpoint run {A : Type} (r : regex) (s : string) (k : string -> option A) : option A :=
  match r with
  | Eps => k s
  | Chr p =>
      match s with
      | String c s' => if p c then k s' else None
      | EmptyString => None
      end
  | Seq a b => run a s (fun s' => run b s' k)
  | Alt a b =>
      match run a s k with
      | Some x => Some x
      | None => run b s k
      end
  | Star a => starLoop (run a) k (String.length s) s
  | Eos =>
      match s with
      | EmptyString => k s
      | String _ _ => None
      end
  end.

(** The text between a start position and what is left after it. *)
Definition consumed (from rest : string) : string :=
  takeChars (String.length from - String.length rest) from.

(** Try every start position, left to right. *)
Fixpoint leftmost {A : Type} (m : string -> option A) (s : string) : option A :=
  match m s with
  | Some x => Some x
  | None =>
      match s with
      | EmptyString => None
      | String _ s' => leftmost m s'
      end
  end.

(** [s.match(/r/g)[0]], or [s.match(/r/)[0]]: the first match. *)
Definition firstMatch (r : regex) (s : string) : option string :=
  leftmost (fun from => run r from (fun rest => Some (consumed from rest))) s.

(** [s.match(/(g)r/)[1]]: capture group 1 of the first match. *)
Definition firstGroup (g r : regex) (s : string) : option string :=
  leftmost (fun from =>
    run g from (fun mid => run r mid (fun _ => Some (consumed from mid)))) s.

Definition Plus (r : regex) : regex := Seq r (Star r).
Definition Opt (r : regex) : regex := Alt r Eps.

Fixpoint Exactly (n : nat) (r : regex) : regex :=
  match n with
  | O => Eps
  | S n' => Seq r (Exactly n' r)
  end.

Fixpoint UpTo (n : nat) (r : regex) : regex :=
  match n with
  | O => Eps
  | S n' => Opt (Seq r (UpTo n' r))
  end.

(** [r{lo,hi}] *)
Definition Between (lo hi : nat) (r : regex) : regex :=
  Seq (Exactly lo r) (UpTo (hi - lo) r).

Definition only (c : ascii) : ascii -> bool := Ascii.eqb c.

(** A literal under the [i] flag. *)
Fixpoint Lit (s : string) : regex :=
  match s with
  | EmptyString => Eps
  | String c s' => Seq (Chr (fun d => Ascii.eqb (foldAscii d) (foldAscii c))) (Lit s')
  end.

Fixpoint AnyOf (rs : list regex) : regex :=
  match rs with
  | [] => Chr (fun _ => false)
  | [r] => r
  | r :: rs' => Alt r (AnyOf rs')
  end.

Definition digit : regex := Chr isDigit.
Definition space : regex := Chr isSpace.

(** A number read by [parseFloat] from a literal [\d+(?:\.\d+)?], kept as the
    decimal [digits / 10 ^ places] with no trailing zero in the fraction.
    This is the double JavaScript holds whenever the literal has at most 15
    significant digits; rounding of longer literals is not modelled, nor is
    the exponent form in which values below 1e-6 are printed. *)
Record Number : Type := { digits : Z; places : nat }.

Definition ofInt (n : Z) : Number := {| digits := n; places := 0 |}.

Fixpoint readDigits (s : string) (acc : Z) (count : nat) : Z * nat * string :=
  match s with
  | String c s' =>
      if isDigit c then readDigits s' (10 * acc + (code c - 48)) (S count)
      else (acc, count, s)
  | EmptyString => (acc, count, s)
  end.

Fixpoint normalize (fuel : nat) (d : Z) (p : nat) : Number :=
  match fuel, p with
  | S fuel', S p' =>
      if d mod 10 =? 0 then normalize fuel' (d / 10) p'
      else {| digits := d; places := p |}
  | _, _ => {| digits := d; places := p |}
  end.

(** [parseFloat(s)] on an unsigned literal without exponent; [None] is [NaN]. *)
Definition parseFloat (s : string) : option Number :=
  let '(whole, count, rest) := readDigits s 0 0 in
  match count with
  | O => None
  | S _ =>
      match rest with
      | String "." frac =>
          let '(all, fcount, _) := readDigits frac whole 0 in
          Some (normalize fcount all fcount)
      | _ => Some (ofInt whole)
      end
  end.

(** [lo <= x && x <= hi] for integer bounds. *)
Definition within (lo hi : Z) (x : Number) : bool :=
  (lo * 10 ^ Z.of_nat (places x) <=? digits x) &&
  (digits x <=? hi * 10 ^ Z.of_nat (places x)).

Fixpoint padDigits (width : nat) (n : Z) (acc : string) : string :=
  match width with
  | O => acc
  | S width' => padDigits width' (n / 10) (String (digitChar (n mod 10)) acc)
  end.

(** [String(x)] *)
Definition showNumber (x : Number) : string :=
  let scale := 10 ^ Z.of_nat (places x) in
  match places x with
  | O => showZ (digits x)
  | S _ => showZ (digits x / scale) +:+ "." +:+ padDigits (places x) (digits x mod scale) ""
  end.

(** ** The patterns of the field parsers *)

Definition priceChar : regex := Chr (fun c => isDigit c || only "," c).
Definition dollar : regex := Chr (only "$").

(** [/\$[\d,]+/g], [/\$\s*[\d,]+/g], [/[\d,]+\s*\$/g] *)
Definition pricePatterns : list regex :=
  [ Seq dollar (Plus priceChar);
    Seq dollar (Seq (Star space) (Plus priceChar));
    Seq (Plus priceChar) (Seq (Star space) dollar) ].

(** A pattern with one capture group in front: [(group)rest]. *)
Definition grouped : Type := (regex * regex)%type.

Definition matchGroup (p : grouped) (s : string) : option string :=
  firstGroup (fst p) (snd p) s.

(** [/(\d+)\s*(?:bed|bedroom|br|bds)/i], [/(\d+)\s*bd/i], [/(\d+)\s*b(?:\s|$)/i] *)
Definition bedPatterns : list grouped :=
  [ (Plus digit, Seq (Star space) (AnyOf [Lit "bed"; Lit "bedroom"; Lit "br"; Lit "bds"]));
    (Plus digit, Seq (Star space) (Lit "bd"));
    (Plus digit, Seq (Star space) (Seq (Lit "b") (Alt space Eos))) ].

Definition decimalLiteral : regex :=
  Seq (Plus digit) (Opt (Seq (Chr (only ".")) (Plus digit))).

(** [/(\d+(?:\.\d+)?)\s*(?:bath|bathroom|ba)/i], [/(\d+(?:\.\d+)?)\s*ba/i] *)
Definition bathPatterns : list grouped :=
  [ (decimalLiteral, Seq (Star space) (AnyOf [Lit "bath"; Lit "bathroom"; Lit "ba"]));
    (decimalLiteral, Seq (Star space) (Lit "ba")) ].

Definition groupedNumber : regex :=
  Seq (Between 1 3 digit) (Star (Seq (Chr (only ",")) (Exactly 3 digit))).

(** The group [\d{1,3}] followed by any number of [,\d{3}], then
    [\s*(?:sq\.?\s*ft|sqft|square\s*feet)] in the first pattern and [\s*sf]
    in the second, both with the [i] flag. *)
Definition sqftPatterns : list grouped :=
  [ (groupedNumber,
     Seq (Star space)
       (AnyOf [ Seq (Lit "sq") (Seq (Opt (Chr (only "."))) (Seq (Star space) (Lit "ft")));
                Lit "sqft";
                Seq (Lit "square") (Seq (Star space) (Lit "feet")) ]));
    (groupedNumber, Seq (Star space) (Lit "sf")) ].

Definition isAlpha (c : ascii) : bool :=
  isUpper c || ((97 <=? code c) && (code c <=? 122)).

(** [[A-Za-z\s]] *)
Definition alphaSpace : regex := Chr (fun c => isAlpha c || isSpace c).

Definition streetSuffix : regex :=
  AnyOf (map Lit
    [ "Street"; "St"; "Avenue"; "Ave"; "Road"; "Rd"; "Drive"; "Dr"; "Lane"; "Ln";
      "Boulevard"; "Blvd"; "Circle"; "Cir"; "Court"; "Ct"; "Place"; "Pl"; "Way" ]).

(** The three address patterns, up to the city alternative that closes them:
    [(\d+\s+[A-Za-z\s]+(?:Street|...|Way))\s+(?:city)],
    [(\d+\s+[A-Za-z\s]+)\s+(?:city)],
    [(\d{1,5}\s+[A-Za-z\s]{3,30})\s+(?:city)], all with the [i] flag. *)
Definition addressPatterns (city : regex) : list grouped :=
  [ (Seq (Plus digit) (Seq (Plus space) (Seq (Plus alphaSpace) streetSuffix)),
     Seq (Plus space) city);
    (Seq (Plus digit) (Seq (Plus space) (Plus alphaSpace)), Seq (Plus space) city);
    (Seq (Between 1 5 digit) (Seq (Plus space) (Between 3 30 alphaSpace)),
     Seq (Plus space) city) ].

(** ** The rendered page *)

Record Element : Type := {
  elementText : string;                      (* textContent *)
  getAttribute : string -> option string
}.

Record ListingNode : Type := {
  querySelector : string -> option Element;
  textContent : string
}.

Record Page : Type := {
  querySelectorAll : string -> list ListingNode
}.

(** ** Selector cascades

    Selectors are only keys of [querySelector]; the attribute values that the
    source writes in double quotes are written in single quotes here. *)

Definition priceSelectors : list string :=
  [ ".listing-price"; ".price"; "[class*='price']"; ".listing-card-price";
    ".property-price"; "[data-testid*='price']"; "span[class*='price']";
    "div[class*='price']" ].

Definition addressSelectors : list string :=
  [ ".listing-address"; ".address"; ".listing-card-address"; ".property-address";
    "h3"; "h4"; "h2"; "[class*='address']"; "[data-testid*='address']" ].

Definition imageSelectors : list string :=
  [ ".listing-image img"; ".property-image img"; ".listing-card img";
    "img[src*='listing']"; "img[src*='property']"; "img[src*='realty']";
    "img[alt*='property']"; "img[alt*='listing']"; "img" ].

Definition linkSelectors : list string :=
  [ "a[href*='/home-listings/']"; "a[href*='/property/']"; "a[href*='/listing/']";
    "a[href*='/realty/']"; "a[href*='/home/']"; "a" ].

(** [extractText]; [accept] is the extra test the Lambda copy puts on the text. *)
Fixpoint extractTextIf (accept : string -> bool) (listing : ListingNode)
    (selectors : list string) : string :=
  match selectors with
  | [] => ""
  | sel :: rest =>
      match querySelector listing sel with
      | Some element =>
          let text := trim (elementText element) in
          if truthy text && accept text then text
          else extractTextIf accept listing rest
      | None => extractTextIf accept listing rest
      end
  end.

Definition extractText : ListingNode -> list string -> string :=
  extractTextIf (fun _ => true).

Fixpoint extractAttribute (listing : ListingNode) (selectors : list string)
    (attribute : string) : string :=
  match selectors with
  | [] => ""
  | sel :: rest =>
      match querySelector listing sel with
      | Some element =>
          match getAttribute element attribute with
          | Some attr => if truthy attr then attr else extractAttribute listing rest attribute
          | None => extractAttribute listing rest attribute
          end
      | None => extractAttribute listing rest attribute
      end
  end.

Definition origin : string := "https://www.realty.com".

Definition normalizeImageUrl (imageUrl : string) : string :=
  if truthy imageUrl && negb (startsWith imageUrl "http") && negb (startsWith imageUrl "data:")
  then
    if startsWith imageUrl "//" then "https:" +:+ imageUrl
    else if startsWith imageUrl "/" then origin +:+ imageUrl
    else imageUrl
  else imageUrl.

Definition extractImageUrl (listing : ListingNode) : string :=
  normalizeImageUrl
    (orElse (extractAttribute listing imageSelectors "src")
       (orElse (extractAttribute listing imageSelectors "data-src")
          (orElse (extractAttribute listing imageSelectors "data-lazy-src")
             (extractAttribute listing imageSelectors "data-original")))).

(** The absolute form of a non-empty [href]. *)
Definition absolutize (propertyUrl : string) : string :=
  if startsWith propertyUrl "http" then propertyUrl
  else if startsWith propertyUrl "/" then origin +:+ propertyUrl
  else origin +:+ "/" +:+ propertyUrl.

Definition denyList : list string :=
  [ "mailto:"; "tel:"; "javascript:"; "#"; "agent"; "contact" ].

Definition denied (propertyUrl : string) : bool :=
  existsb (includes propertyUrl) denyList.

(** ** Field parsers shared by the copies *)

Definition invalidPriceIndicators : list string :=
  [ "price available"; "price not available"; "call for price";
    "contact for price"; "price upon request"; "tbd"; "n/a";
    "coming soon"; "off market"; "sold" ].

Definition hasInvalidIndicator (text : string) : bool :=
  existsb (includes (toLowerCase text)) invalidPriceIndicators.

(** [x.replace(/[\$,]/g, '')] *)
Definition stripCurrency (price : string) : string :=
  dropChars (fun c => only "$" c || only "," c) price.

(** [parseInt(price.replace(/[\$,]/g, ''))] *)
Definition numericPrice (price : string) : option Z := parseInt (stripCurrency price).

(** [n > 10000 && n < 10000000]; both comparisons are false on [NaN]. *)
Definition plausible (n : option Z) : bool :=
  match n with
  | Some n => (10000 <? n) && (n <? 10000000)
  | None => false
  end.

(** The loop over [pricePatterns]: only [matches[0]] of a pattern is looked at. *)
Fixpoint scanPrice (patterns : list regex) (corpus : string) : option string :=
  match patterns with
  | [] => None
  | pattern :: rest =>
      match firstMatch pattern corpus with
      | Some m =>
          let price := dropChars isSpace m in
          if plausible (numericPrice price) then Some price
          else scanPrice rest corpus
      | None => scanPrice rest corpus
      end
  end.

(** The loop of [parseBeds] and [parseSqft]: first capture that parses into
    [lo..hi]; [clean] is applied to the capture before [parseInt]. *)
Fixpoint scanInt (lo hi : Z) (clean : string -> string) (patterns : list grouped)
    (corpus : string) : option Z :=
  match patterns with
  | [] => None
  | pattern :: rest =>
      match matchGroup pattern corpus with
      | Some capture =>
          match parseInt (clean capture) with
          | Some n => if (lo <=? n) && (n <=? hi) then Some n
                      else scanInt lo hi clean rest corpus
          | None => scanInt lo hi clean rest corpus
          end
      | None => scanInt lo hi clean rest corpus
      end
  end.

(** The loop of [parseBaths]. *)
Fixpoint scanNumber (lo hi : Z) (patterns : list grouped) (corpus : string)
    : option Number :=
  match patterns with
  | [] => None
  | pattern :: rest =>
      match matchGroup pattern corpus with
      | Some capture =>
          match parseFloat capture with
          | Some x => if within lo hi x then Some x else scanNumber lo hi rest corpus
          | None => scanNumber lo hi rest corpus
          end
      | None => scanNumber lo hi rest corpus
      end
  end.

(** The loop of [parseAddress] over the first capture group of each pattern. *)
Fixpoint firstAddress (captures : list (option string)) (cityName stateName : string)
    : string :=
  match captures with
  | [] => ""
  | capture :: rest =>
      match capture with
      | Some group =>
          let address := trim group in
          if truthy group && (5 <? String.length address)%nat
             && (String.length address <? 50)%nat && anyChar isDigit address
          then address +:+ ", " +:+ cityName +:+ ", " +:+ stateName
          else firstAddress rest cityName stateName
      | None => firstAddress rest cityName stateName
      end
  end.

(** ** Completions

    A call returns a value or throws. *)
Inductive Completion (A : Type) : Type :=
| Returned : A -> Completion A
| Thrown : Completion A.

Arguments Returned {A} _.
Arguments Thrown {A}.

(** [array.map(callback)] from position [index] on, for a callback that may
    throw: the first throw ends the map. *)
Fixpoint mapFrom {A B : Type} (callback : nat -> A -> Completion B) (index : nat)
    (array : list A) : Completion (list B) :=
  match array with
  | [] => Returned []
  | element :: rest =>
      match callback index element with
      | Returned value =>
          match mapFrom callback (S index) rest with
          | Returned values => Returned (value :: values)
          | Thrown => Thrown
          end
      | Thrown => Thrown
      end
  end.

(** Whether the three [new RegExp] calls of [parseAddress] succeed for a
    city; [addressRegExp] is the constructor, see [Cli.Extraction]. *)
Definition builds (addressRegExp : nat -> string -> option (string -> option string))
    (cityName : string) : bool :=
  match addressRegExp 0%nat cityName, addressRegExp 1%nat cityName,
        addressRegExp 2%nat cityName with
  | Some _, Some _, Some _ => true
  | _, _, _ => false
  end.

(** A city text with an opening parenthesis and no closing parenthesis,
    bracket or backslash: interpolated into [(?:${cityName})] it leaves a
    group of the pattern open. *)
Definition unclosedGroup (cityName : string) : bool :=
  anyChar (only "(") cityName
  && negb (anyChar (fun c => only ")" c || only "[" c || (code c =? 92)) cityName).

(** The constructor [new RegExp] on the cities of the examples: a city with
    an unclosed group makes it throw a SyntaxError; a city of letters and
    spaces stands for itself in the pattern. *)
Definition literalCity (i : nat) (cityName : string) : option (string -> option string) :=
  if unclosedGroup cityName then None
  else
    match nth_error (addressPatterns (Lit cityName)) i with
    | Some pattern => Some (fun text => matchGroup pattern text)
    | None => None
    end.

(** ** Derived attributes *)

Definition priceRangeOf (priceNum : option Z) : string :=
  match priceNum with
  | Some n =>
      if 0 <? n then
        if n <? 200000 then "Under $200K"
        else if n <? 400000 then "$200K - $400K"
        else if n <? 600000 then "$400K - $600K"
        else "Over $600K"
      else "Unknown"
  | None => "Unknown"
  end.

(** [n || fallback] on a number: [NaN] and [0] are falsy. *)
Definition orNumber (n : option Z) (fallback : Z) : Z :=
  match n with
  | Some v => if v =? 0 then fallback else v
  | None => fallback
  end.

Definition propertyTypeOf (beds : option Z) : string :=
  match beds with
  | Some 1 => "Condo/Apartment"
  | Some 2 => "Townhouse/Condo"
  | _ => "Single Family Home"
  end.

(** ** The clock and the random source

    [random1..3] are the successive results of [Math.random()], each read as
    the fraction [(draw mod 2^53) / 2^53] of the unit interval. *)
Record Ambient : Type := {
  dateNow : Z;              (* Date.now() *)
  isoString : string;       (* new Date().toISOString() *)
  isoString' : string;      (* a second reading, taken later *)
  random1 : Z;
  random2 : Z;
  random3 : Z;
  randomSuffix : string     (* Math.random().toString(36).substr(2, 9) *)
}.

(** [Math.floor(Math.random() * n)] *)
Definition floorRandom (draw n : Z) : Z := (draw mod 2 ^ 53) * n / 2 ^ 53.

(** [array[i]], read in a template. *)
Definition pick (i : Z) (array : list string) : string :=
  nth (Z.to_nat i) array "undefined".

Definition streetNames : list string :=
  [ "Main"; "Oak"; "Maple"; "Cedar"; "Pine"; "Elm"; "Park";
    "North"; "South"; "East"; "West" ].

Definition streetTypes : list string :=
  [ "St"; "Ave"; "Rd"; "Dr"; "Ln"; "Blvd"; "Ct"; "Pl" ].

Definition synthesizeAddress (amb : Ambient) (cityName stateName : string) : string :=
  let streetNumber := floorRandom (random1 amb) 9999 + 1 in
  let streetName := pick (floorRandom (random2 amb) (Z.of_nat (length streetNames))) streetNames in
  let streetType := pick (floorRandom (random3 amb) (Z.of_nat (length streetTypes))) streetTypes in
  showZ streetNumber +:+ " " +:+ streetName +:+ " " +:+ streetType
    +:+ ", " +:+ cityName +:+ ", " +:+ stateName.

(** ** Locating the listings *)

Definition propertySelectors : list string :=
  [ ".listing-card"; "[data-testid='property-card']"; "[data-testid='listing-card']";
    ".property-card"; ".search-result-item"; "[class*='listing']";
    "[class*='property']"; "[class*='card']"; "div[class*='result']" ].

Definition fallbackSelectors : list string :=
  [ "[class*='card']"; "div[class*='result']"; "[class*='listing']"; "[class*='property']" ].

(** The loop that fills [selectorResults]. *)
Fixpoint testSelectors (page : Page) (selectors : list string)
    (selectorResults : gmap string nat) : gmap string nat :=
  match selectors with
  | [] => selectorResults
  | selector :: rest =>
      let elements := length (querySelectorAll page selector) in
      testSelectors page rest
        (if (0 <? elements)%nat then <[selector := elements]> selectorResults
         else selectorResults)
  end.

Fixpoint firstFallback (selectorResults : gmap string nat) (selectors : list string)
    : option (string * nat) :=
  match selectors with
  | [] => None
  | selector :: rest =>
      match selectorResults !! selector with
      | Some count => if (0 <? count)%nat then Some (selector, count)
                      else firstFallback selectorResults rest
      | None => firstFallback selectorResults rest
      end
  end.

(** [(bestSelector, propertyCount)] *)
Definition locate (page : Page) : string * nat :=
  let selectorResults := testSelectors page propertySelectors ∅ in
  let bestSelector := ".listing-card" in
  let propertyCount := default 0%nat (selectorResults !! bestSelector) in
  if (propertyCount =? 0)%nat then
    match firstFallback selectorResults fallbackSelectors with
    | Some found => found
    | None => (bestSelector, propertyCount)
    end
  else (bestSelector, propertyCount).

(** [array.slice(0, end)] for an integer [end]: a negative [end] counts from
    the back of the array. *)
Definition sliceTo {A : Type} (finish : Z) (array : list A) : list A :=
  if finish <? 0 then take (Z.to_nat (Z.of_nat (length array) + finish)) array
  else take (Z.to_nat finish) array.

(** ** The collection script *)

Module Cli.

Record PropertyRecord : Type := {
  objectID : string;
  address : string;
  price : string;
  beds : Z;
  baths : Number;
  sqft : Z;
  description : string;
  imageUrl : string;
  propertyUrl : string;
  city : string;
  state : string;
  priceRange : string;
  propertyType : string;
  collectedAt : string
}.

(** What the selector cascades read from one listing. *)
Record RawFields : Type := {
  priceText : string;
  addressText : string;
  rawImageUrl : string;
  rawPropertyUrl : string;
  fullText : string
}.

(** What the field parsers make of it. *)
Record ParsedFields : Type := {
  parsedBeds : Z;
  parsedBaths : Number;
  parsedSqft : Z;
  parsedPrice : option string;          (* [None] is [null] *)
  extractedAddress : string
}.

Definition normalizePropertyUrl (href : string) : string :=
  if truthy href then
    let propertyUrl := absolutize href in
    if denied propertyUrl then "" else propertyUrl
  else href.

Definition rawFields (listing : ListingNode) : RawFields :=
  {| priceText := extractText listing priceSelectors;
     addressText := extractText listing addressSelectors;
     rawImageUrl := extractImageUrl listing;
     rawPropertyUrl := normalizePropertyUrl (extractAttribute listing linkSelectors "href");
     fullText := textContent listing |}.

(** The parsers are closures over [fullText]; it is their first argument here. *)
Definition parsePrice (fullText text : string) : option string :=
  if hasInvalidIndicator text then None
  else scanPrice pricePatterns (text +:+ " " +:+ fullText).

Definition parseBeds (fullText text : string) : Z :=
  default 3 (scanInt 1 10 (fun capture => capture) bedPatterns (text +:+ " " +:+ fullText)).

Definition parseBaths (fullText text : string) : Number :=
  default (ofInt 2) (scanNumber 1 10 bathPatterns (text +:+ " " +:+ fullText)).

Definition parseSqft (fullText text : string) : Z :=
  default 1500 (scanInt 500 10000 (dropChars (only ",")) sqftPatterns (text +:+ " " +:+ fullText)).

Definition describe (beds : Z) (baths : Number) (sqft : Z)
    (propertyType cityName stateName priceRange price : string) : string :=
  "Beautiful " +:+ showZ beds +:+ " bed, " +:+ showNumber baths +:+ " bath "
    +:+ toLowerCase propertyType +:+ " in " +:+ cityName +:+ ", " +:+ stateName
    +:+ ". Features modern amenities and great location. " +:+ priceRange
    +:+ " price range. " +:+ showZ beds +:+ " bedroom " +:+ showNumber baths
    +:+ " bathroom home with " +:+ showZ sqft +:+ " square feet. Property type: "
    +:+ propertyType +:+ ". Located in " +:+ cityName +:+ " " +:+ stateName +:+ ". "
    +:+ price +:+ " house home property real estate.".

(** [finalAddress] needs the synthesized fallback. *)
Definition needsFallback (finalAddress : string) : bool :=
  negb (truthy finalAddress) || (String.length finalAddress <? 10)%nat.

(** The part of the map callback after the parsers: price gate, address
    fallback, derived attributes, record. *)
Definition finalize (amb : Ambient) (raw : RawFields) (parsed : ParsedFields)
    (cityName stateName : string) (index : nat) : option PropertyRecord :=
  match parsedPrice parsed with
  | None => None
  | Some price =>
      if negb (truthy price) then None
      else
        let finalAddress := orElse (extractedAddress parsed) (addressText raw) in
        let finalAddress :=
          if needsFallback finalAddress then synthesizeAddress amb cityName stateName
          else finalAddress in
        let priceNum := orNumber (numericPrice price) 250000 in
        let priceRange := priceRangeOf (Some priceNum) in
        let propertyType := propertyTypeOf (Some (parsedBeds parsed)) in
        Some {|
          objectID := "property_" +:+ showZ (dateNow amb) +:+ "_" +:+ showZ (Z.of_nat index);
          address := finalAddress;
          price := price;
          beds := parsedBeds parsed;
          baths := parsedBaths parsed;
          sqft := parsedSqft parsed;
          description :=
            describe (parsedBeds parsed) (parsedBaths parsed) (parsedSqft parsed)
              propertyType cityName stateName priceRange price;
          imageUrl := orElse (rawImageUrl raw) "";
          propertyUrl := orElse (rawPropertyUrl raw) "";
          city := cityName;
          state := stateName;
          priceRange := priceRange;
          propertyType := propertyType;
          collectedAt := isoString amb
        |}
  end.

Definition parseFields (raw : RawFields) (extractedAddress : string) : ParsedFields :=
  {| parsedBeds := parseBeds (fullText raw) (fullText raw);
     parsedBaths := parseBaths (fullText raw) (fullText raw);
     parsedSqft := parseSqft (fullText raw) (fullText raw);
     parsedPrice := parsePrice (fullText raw) (priceText raw);
     extractedAddress := extractedAddress |}.

Section Extraction.

(** [addressRegExp i cityName]: what [new RegExp] makes of template [i] of
    [addressPatterns] around the interpolated [cityName].  [None]: the
    constructor throws a SyntaxError, as it does when the city text is not
    a well-formed piece of pattern.  [Some pattern]: the pattern, as the
    function from a text to capture group 1 of [text.match(pattern)], with
    [None] when there is no match or the group took no part in it. *)
Variable addressRegExp : nat -> string -> option (string -> option string).

(** The three patterns are built on every call, before any of them is
    matched.  They are matched against [fullText]; the argument [text] is
    not looked at. *)
Definition parseAddress (fullText cityName stateName text : string) : Completion string :=
  match addressRegExp 0%nat cityName, addressRegExp 1%nat cityName,
        addressRegExp 2%nat cityName with
  | Some pattern0, Some pattern1, Some pattern2 =>
      Returned
        (firstAddress (map (fun pattern => pattern fullText) [pattern0; pattern1; pattern2])
           cityName stateName)
  | _, _, _ => Thrown
  end.

(** The callback of [propertyListings.map]: [parseAddress] is called before
    the price gate, so its throw leaves the callback whatever the listing
    holds. *)
Definition extract (amb : Ambient) (listing : ListingNode)
    (cityName stateName : string) (index : nat) : Completion (option PropertyRecord) :=
  let raw := rawFields listing in
  match parseAddress (fullText raw) cityName stateName (fullText raw) with
  | Returned extractedAddress =>
      Returned (finalize amb raw (parseFields raw extractedAddress) cityName stateName index)
  | Thrown => Thrown
  end.

(** The listings the callback is mapped over. *)
Definition propertyListings (page : Page) (maxProps : Z) : list ListingNode :=
  sliceTo maxProps (querySelectorAll page (fst (locate page))).

(** [collectProperties(city, state, maxProperties)] on a loaded page;
    [amb i] is what the clock and the random source give during the
    callback on listing [i].  [None] entries are the [null]s of the
    callback.  A throw of the callback is caught by [collectProperties],
    which then returns the empty array. *)
Definition collectProperties (amb : nat -> Ambient) (page : Page)
    (city state : string) (maxProperties : Z) : list (option PropertyRecord) :=
  if (snd (locate page) =? 0)%nat then []
  else
    match mapFrom (fun index listing => extract (amb index) listing city state index) 0
            (propertyListings page maxProperties) with
    | Returned properties => properties
    | Thrown => []
    end.

End Extraction.

End Cli.

(** ** The MCP collection script *)

Module Mcp.

Record PropertyRecord : Type := {
  objectID : string;
  address : string;
  price : string;
  priceNumeric : option Z;       (* [None] is [NaN] *)
  beds : string;
  baths : string;
  sqft : option Z;               (* [None] is the string [N/A] *)
  description : string;
  imageUrl : string;
  propertyUrl : string;
  city : string;
  state : string;
  priceRange : string;
  propertyType : string;
  timestamp : string;
  collectedAt : string;
  source : string
}.

(** No deny-list in this copy. *)
Definition normalizePropertyUrl (href : string) : string :=
  if truthy href then absolutize href else href.

Definition parsePrice (fullText text : string) : option string :=
  if hasInvalidIndicator text then None
  else scanPrice pricePatterns (text +:+ " " +:+ fullText).

Definition parseBeds (fullText text : string) : string :=
  match scanInt 0 10 (fun capture => capture) bedPatterns (text +:+ " " +:+ fullText) with
  | Some beds => showZ beds
  | None => "N/A"
  end.

(** [/(\d+(?:\.\d+)?)\s*(?:bath|bathroom|ba|baths)/i], [/(\d+(?:\.\d+)?)\s*ba/i] *)
Definition bathPatterns : list grouped :=
  [ (decimalLiteral,
     Seq (Star space) (AnyOf [Lit "bath"; Lit "bathroom"; Lit "ba"; Lit "baths"]));
    (decimalLiteral, Seq (Star space) (Lit "ba")) ].

Definition parseBaths (fullText text : string) : string :=
  match scanNumber 0 20 bathPatterns (text +:+ " " +:+ fullText) with
  | Some baths => showNumber baths
  | None => "N/A"
  end.

Definition parseSqft (fullText text : string) : option Z :=
  scanInt 500 10000 (dropChars (only ",")) sqftPatterns (text +:+ " " +:+ fullText).

Definition showSqft (sqft : option Z) : string :=
  match sqft with
  | Some n => showZ n
  | None => "N/A"
  end.

Definition describe (beds baths : string) (sqft : option Z)
    (propertyType cityName stateName priceRange price : string) : string :=
  "Beautiful " +:+ beds +:+ " bed, " +:+ baths +:+ " bath "
    +:+ toLowerCase propertyType +:+ " in " +:+ cityName +:+ ", " +:+ stateName
    +:+ ". Features modern amenities and great location. " +:+ priceRange
    +:+ " price range. " +:+ beds +:+ " bedroom " +:+ baths
    +:+ " bathroom home with " +:+ showSqft sqft +:+ " square feet. Property type: "
    +:+ propertyType +:+ ". Located in " +:+ cityName +:+ " " +:+ stateName +:+ ". "
    +:+ price +:+ " house home property real estate.".

Record Candidate : Type := {
  candidatePrice : option string;      (* [None] is [null] *)
  candidateAddress : string;
  candidateImageUrl : string;
  candidatePropertyUrl : string;
  candidateBeds : string;
  candidateBaths : string;
  candidateSqft : option Z
}.

(** [!price], and likewise for the other three values. *)
Definition missing (value : option string) : bool :=
  match value with
  | Some text => negb (truthy text)
  | None => true
  end.

(** The acceptance test and the record built after it. *)
Definition accept (amb : Ambient) (c : Candidate) (cityName stateName : string)
    : option PropertyRecord :=
  if missing (candidatePrice c) || negb (truthy (candidateAddress c))
     || negb (truthy (candidateImageUrl c)) || negb (truthy (candidatePropertyUrl c))
  then None
  else
    let price := default "" (candidatePrice c) in
    let numericPrice := numericPrice price in
    let priceRange := priceRangeOf numericPrice in
    let propertyType := propertyTypeOf (parseInt (candidateBeds c)) in
    Some {|
      objectID := "property_" +:+ showZ (dateNow amb) +:+ "_" +:+ randomSuffix amb;
      address := candidateAddress c;
      price := price;
      priceNumeric := numericPrice;
      beds := candidateBeds c;
      baths := candidateBaths c;
      sqft := candidateSqft c;
      description :=
        describe (candidateBeds c) (candidateBaths c) (candidateSqft c)
          propertyType cityName stateName priceRange price;
      imageUrl := candidateImageUrl c;
      propertyUrl := candidatePropertyUrl c;
      city := cityName;
      state := stateName;
      priceRange := priceRange;
      propertyType := propertyType;
      timestamp := isoString amb;
      collectedAt := isoString' amb;
      source := "realty.com"
    |}.

(** The values the callback holds when it reaches its acceptance test;
    [parsedAddress] is what [parseAddress] returned. *)
Definition candidate (listing : ListingNode) (cityName stateName parsedAddress : string)
    : Candidate :=
  let priceText := extractText listing priceSelectors in
  let addressText := extractText listing addressSelectors in
  let fullText := textContent listing in
  {| candidatePrice := parsePrice fullText (priceText +:+ " " +:+ fullText);
     candidateAddress := orElse parsedAddress addressText;
     candidateImageUrl := extractImageUrl listing;
     candidatePropertyUrl :=
       normalizePropertyUrl (extractAttribute listing linkSelectors "href");
     candidateBeds := parseBeds fullText fullText;
     candidateBaths := parseBaths fullText fullText;
     candidateSqft := parseSqft fullText fullText |}.

Section Extraction.

(** As in [Cli.Extraction]. *)
Variable addressRegExp : nat -> string -> option (string -> option string).

Definition parseAddress (fullText cityName stateName text : string) : Completion string :=
  match addressRegExp 0%nat cityName, addressRegExp 1%nat cityName,
        addressRegExp 2%nat cityName with
  | Some pattern0, Some pattern1, Some pattern2 =>
      Returned
        (firstAddress (map (fun pattern => pattern fullText) [pattern0; pattern1; pattern2])
           cityName stateName)
  | _, _, _ => Thrown
  end.

(** The callback of [propertyListings.map]: [parseAddress] is called before
    the acceptance test. *)
Definition extract (amb : Ambient) (listing : ListingNode)
    (cityName stateName : string) (index : nat) : Completion (option PropertyRecord) :=
  let addressText := extractText listing addressSelectors in
  let fullText := textContent listing in
  match parseAddress fullText cityName stateName (addressText +:+ " " +:+ fullText) with
  | Returned parsedAddress =>
      Returned (accept amb (candidate listing cityName stateName parsedAddress)
                  cityName stateName)
  | Thrown => Thrown
  end.

Definition propertyListings (page : Page) (maxProps : Z) : list ListingNode :=
  sliceTo maxProps (querySelectorAll page (fst (locate page))).

Definition notNull (property : option PropertyRecord) : bool :=
  match property with
  | Some _ => true
  | None => false
  end.

(** [collectProperties(city, state, maxProperties)] on a loaded page: the
    mapped callback, then [.filter(property => property !== null)].  A throw
    of the callback is caught by [collectProperties], which then returns
    the empty array. *)
Definition collectProperties (amb : nat -> Ambient) (page : Page)
    (city state : string) (maxProperties : Z) : list (option PropertyRecord) :=
  if (snd (locate page) =? 0)%nat then []
  else
    match mapFrom (fun index listing => extract (amb index) listing city state index) 0
            (propertyListings page maxProperties) with
    | Returned properties => List.filter notNull properties
    | Thrown => []
    end.

End Extraction.

End Mcp.

(** ** The Lambda service *)

Module Lambda.

Record Property : Type := {
  id : string;
  address : string;
  price : string;
  beds : Z;
  baths : Number;
  sqft : Z;
  description : string;
  imageUrl : string;
  propertyUrl : string;
  city : string;
  state : string;
  priceRange : string;
  propertyType : string;
  collectedAt : string
}.

Definition extractText : ListingNode -> list string -> string :=
  extractTextIf (fun text => negb (includes text "Eddie Staats") && negb (includes text "Agent")).

Definition normalizePropertyUrl (href : string) : string :=
  if truthy href then
    let propertyUrl := absolutize href in
    if denied propertyUrl then "" else propertyUrl
  else href.

(** No indicator list in this copy, and a placeholder instead of [null]. *)
Definition parsePrice (fullText text : string) : string :=
  default "Price not available" (scanPrice pricePatterns (text +:+ " " +:+ fullText)).

(** The patterns are regular-expression literals here, so the text
    [${cityName}] in them is not interpolated: it is the end-of-input
    assertion followed by the characters [{cityName}]. *)
Definition cityAlternative : regex := Alt (Lit "Parma") (Seq Eos (Lit "{cityName}")).

Definition parseAddress (fullText cityName stateName text : string) : string :=
  firstAddress (map (fun pattern => matchGroup pattern fullText) (addressPatterns cityAlternative))
    cityName stateName.

Definition parseBeds (fullText text : string) : Z :=
  default 3 (scanInt 1 10 (fun capture => capture) bedPatterns (text +:+ " " +:+ fullText)).

Definition parseBaths (fullText text : string) : Number :=
  default (ofInt 2) (scanNumber 1 10 bathPatterns (text +:+ " " +:+ fullText)).

Definition parseSqft (fullText text : string) : Z :=
  default 1500 (scanInt 500 10000 (dropChars (only ",")) sqftPatterns (text +:+ " " +:+ fullText)).

Definition needsFallback (finalAddress : string) : bool :=
  negb (truthy finalAddress) || includes finalAddress "Eddie"
  || includes finalAddress "Agent" || (String.length finalAddress <? 10)%nat.

(** The callback of [propertyListings.map]. *)
Definition extract (amb : Ambient) (listing : ListingNode)
    (cityName stateName : string) (index : nat) : Property :=
  let priceText := extractText listing priceSelectors in
  let addressText := extractText listing addressSelectors in
  let imageUrl := extractImageUrl listing in
  let propertyUrl := normalizePropertyUrl (extractAttribute listing linkSelectors "href") in
  let fullText := textContent listing in
  let beds := parseBeds fullText fullText in
  let baths := parseBaths fullText fullText in
  let sqft := parseSqft fullText fullText in
  let price := parsePrice fullText priceText in
  let extractedAddress := parseAddress fullText cityName stateName fullText in
  let finalAddress := orElse extractedAddress addressText in
  let finalAddress :=
    if needsFallback finalAddress then synthesizeAddress amb cityName stateName
    else finalAddress in
  let priceNum := orNumber (numericPrice price) 250000 in
  let priceRange := priceRangeOf (Some priceNum) in
  let propertyType := propertyTypeOf (Some beds) in
  {| id := "property_" +:+ showZ (dateNow amb) +:+ "_" +:+ showZ (Z.of_nat index);
     address := finalAddress;
     price := price;
     beds := beds;
     baths := baths;
     sqft := sqft;
     description :=
       "Beautiful " +:+ showZ beds +:+ " bed, " +:+ showNumber baths +:+ " bath "
         +:+ toLowerCase propertyType +:+ " in " +:+ cityName +:+ ", " +:+ stateName
         +:+ ". Features modern amenities and great location.";
     imageUrl := orElse imageUrl "";
     propertyUrl := orElse propertyUrl "";
     city := cityName;
     state := stateName;
     priceRange := priceRange;
     propertyType := propertyType;
     collectedAt := isoString amb |}.

(** The listings the callback is mapped over: [.slice(0, 20)]. *)
Definition propertyListings (page : Page) : list ListingNode :=
  sliceTo 20 (querySelectorAll page (fst (locate page))).

(** [collectProperties(city, state, maxProperties = 20)] on a loaded page, on
    an attempt in which no page operation fails. *)
Definition collectProperties (amb : nat -> Ambient) (page : Page)
    (city state : string) (maxProperties : Z) : list Property :=
  if (snd (locate page) =? 0)%nat then []
  else imap (fun index listing => extract (amb index) listing city state index)
         (propertyListings page).

End Lambda.

(** ** The rest of the collection script *)

Module CliScript.

(** [p.imageUrl && p.imageUrl.trim() !== ''] *)
Definition hasImage (imageUrl : string) : bool :=
  truthy imageUrl && negb (String.eqb (trim imageUrl) "").

(** [p.price && p.price !== 'Price not available'] *)
Definition hasValidPrice (price : string) : bool :=
  truthy price && negb (String.eqb price "Price not available").

(** [indexProperties(properties)]: the array handed to [saveObjects], or
    [None] when the function returns without indexing. *)
Definition indexProperties (properties : list (option Cli.PropertyRecord))
    : option (list Cli.PropertyRecord) :=
  if (length properties =? 0)%nat then None
  else
    let validProperties := omap (fun p => p) properties in
    let propertiesWithImages :=
      List.filter (fun p => hasImage (Cli.imageUrl p)) validProperties in
    let propertiesWithValidPrices :=
      List.filter (fun p => hasValidPrice (Cli.price p)) propertiesWithImages in
    if (length propertiesWithValidPrices =? 0)%nat then None
    else Some propertiesWithValidPrices.

(** [None] is [null] or [undefined]. *)
Record Options : Type := {
  city : option string;
  state : option string;
  limit : Z;
  help : bool
}.

Definition initialOptions : Options :=
  {| city := None; state := None; limit := 20; help := false |}.

(** The loop of [parseArguments]: a flag with a value takes the next
    argument, whatever it is; at the end of the array that value is
    [undefined]. *)
Fixpoint parseLoop (args : list string) (options : Options) : Options :=
  match args with
  | [] => options
  | arg :: rest =>
      if String.eqb arg "--city" then
        match rest with
        | value :: rest' =>
            parseLoop rest'
              {| city := Some value; state := state options;
                 limit := limit options; help := help options |}
        | [] =>
            {| city := None; state := state options;
               limit := limit options; help := help options |}
        end
      else if String.eqb arg "--state" then
        match rest with
        | value :: rest' =>
            parseLoop rest'
              {| city := city options; state := Some value;
                 limit := limit options; help := help options |}
        | [] =>
            {| city := city options; state := None;
               limit := limit options; help := help options |}
        end
      else if String.eqb arg "--limit" then
        match rest with
        | value :: rest' =>
            parseLoop rest'
              {| city := city options; state := state options;
                 limit := orNumber (parseInt value) 20; help := help options |}
        | [] =>
            {| city := city options; state := state options;
               limit := 20; help := help options |}
        end
      else if String.eqb arg "--help" || String.eqb arg "-h" then
        parseLoop rest
          {| city := city options; state := state options;
             limit := limit options; help := true |}
      else parseLoop rest options
  end.

(** [parseArguments()] on [process.argv.slice(2)]. *)
Definition parseArguments (args : list string) : Options :=
  parseLoop args initialOptions.

(** What [main] does with the options. *)
Inductive Action : Type :=
| ShowHelp : Action
| UsageError : Action                          (* [process.exit(1)] *)
| Collect : string -> string -> Z -> Action.   (* [collectProperties(city, state, limit)] *)

Definition main (args : list string) : Action :=
  let options := parseArguments args in
  if help options then ShowHelp
  else
    match city options, state options with
    | Some cityName, Some stateName =>
        if truthy cityName && truthy stateName
        then Collect cityName stateName (limit options)
        else UsageError
    | _, _ => UsageError
    end.

End CliScript.

(** ** The rest of the MCP script *)

Module McpScript.

(** [indexPropertiesViaMCP(properties)]: the array handed to the indexing
    subprocess, or [None] when the function returns without indexing. *)
Definition indexPropertiesViaMCP (properties : list (option Mcp.PropertyRecord))
    : option (list Mcp.PropertyRecord) :=
  if (length properties =? 0)%nat then None
  else
    let validProperties := omap (fun p => p) properties in
    let propertiesWithImages :=
      List.filter (fun p => CliScript.hasImage (Mcp.imageUrl p)) validProperties in
    let propertiesWithValidPrices :=
      List.filter (fun p => CliScript.hasValidPrice (Mcp.price p)) propertiesWithImages in
    if (length propertiesWithValidPrices =? 0)%nat then None
    else Some propertiesWithValidPrices.

Record Options : Type := {
  city : string;
  state : string;
  limit : option Z          (* [None] is [NaN] *)
}.

Definition initialOptions : Options :=
  {| city := "Houston"; state := "TX"; limit := Some 5 |}.

(** The loop of [parseArguments]: a flag takes the next argument only when
    there is a non-empty one; [None] is [process.exit(0)] at [--help]. *)
Fixpoint parseLoop (args : list string) (options : Options) : option Options :=
  match args with
  | [] => Some options
  | arg :: rest =>
      if String.eqb arg "--city" then
        match rest with
        | value :: rest' =>
            if truthy value
            then parseLoop rest' {| city := value; state := state options; limit := limit options |}
            else parseLoop rest options
        | [] => Some options
        end
      else if String.eqb arg "--state" then
        match rest with
        | value :: rest' =>
            if truthy value
            then parseLoop rest' {| city := city options; state := value; limit := limit options |}
            else parseLoop rest options
        | [] => Some options
        end
      else if String.eqb arg "--limit" then
        match rest with
        | value :: rest' =>
            if truthy value
            then parseLoop rest'
                   {| city := city options; state := state options; limit := parseInt value |}
            else parseLoop rest options
        | [] => Some options
        end
      else if String.eqb arg "--help" then None
      else parseLoop rest options
  end.

Definition parseArguments (args : list string) : option Options :=
  parseLoop args initialOptions.

(** [collector.collectProperties(options.city, options.state, options.limit)]
    in [main]; [slice(0, NaN)] is [slice(0, 0)]. *)
Definition collect (addressRegExp : nat -> string -> option (string -> option string))
    (amb : nat -> Ambient) (page : Page) (options : Options)
    : list (option Mcp.PropertyRecord) :=
  Mcp.collectProperties addressRegExp amb page (city options) (state options)
    (default 0 (limit options)).

End McpScript.

(** ** The request handler of the Lambda service *)

Module Handler.

(** A character matched by [[,\s]]. *)
Definition isSeparator (c : ascii) : bool := only "," c || isSpace c.

(** [location.split(/[,\s]+/)]: the pieces between the maximal runs of
    separators; a run at either end of the text leaves an empty piece
    there.  [piece] is the text read since the last run. *)
Fixpoint splitRuns (s : string) (piece : string) (inRun : bool) : list string :=
  match s with
  | EmptyString => [piece]
  | String c s' =>
      if isSeparator c then
        if inRun then splitRuns s' piece true
        else piece :: splitRuns s' "" true
      else splitRuns s' (piece +:+ String c "") false
  end.

Definition split (location : string) : list string := splitRuns location "" false.

(** [parts.join(' ')] *)
Fixpoint join (parts : list string) : string :=
  match parts with
  | [] => ""
  | [part] => part
  | part :: rest => part +:+ " " +:+ join rest
  end.

Definition given (value : option string) : bool :=
  match value with
  | Some text => truthy text
  | None => false
  end.

Inductive Outcome : Type :=
| LocationIncomplete : Outcome           (* 400, location without city and state *)
| CityStateRequired : Outcome            (* 400, city and state are required *)
| CollectFor : string -> string -> Outcome.   (* [collectProperties(city, state)] *)

(** The part of the [/properties/collect] route that settles city and state
    from the fields [city], [state] and [location] of the request body, for
    a body whose fields are strings or missing. *)
Definition resolve (city state location : option string) : Outcome :=
  let finish (city state : option string) : Outcome :=
    match city, state with
    | Some cityName, Some stateName =>
        if truthy cityName && truthy stateName then CollectFor cityName stateName
        else CityStateRequired
    | _, _ => CityStateRequired
    end in
  if given location && negb (given city) && negb (given state) then
    let locationParts :=
      List.filter (fun part => (0 <? String.length part)%nat) (split (default "" location)) in
    if (2 <=? length locationParts)%nat then
      finish (Some (join (removelast locationParts))) (Some (List.last locationParts ""))
    else LocationIncomplete
  else finish city state.

(** [realtyService.collectProperties(city, state)]: the route passes no
    count, so [maxProperties] has its default. *)
Definition collect (amb : nat -> Ambient) (page : Page) (city state : string)
    : list Lambda.Property :=
  Lambda.collectProperties amb page city state 20.

End Handler.

(** ** The indexing service *)

Module Algolia.

(** An object of [algoliaProperties]: the property with its [id] copied
    into [objectID]. *)
Record IndexObject : Type := {
  objectID : string;
  property : Lambda.Property
}.

(** The array handed to [saveObjects] by [indexProperties(properties)]. *)
Definition algoliaProperties (properties : list Lambda.Property) : list IndexObject :=
  map (fun property => {| objectID := Lambda.id property; property := property |}) properties.

End Algolia.

(** ** Sample pages *)

Fixpoint assoc {A : Type} (table : list (string * A)) (key : string) : option A :=
  match table with
  | [] => None
  | (k, v) :: rest => if String.eqb k key then Some v else assoc rest key
  end.

Definition sampleElement (text : string) (attributes : list (string * string)) : Element :=
  {| elementText := text; getAttribute := assoc attributes |}.

Definition sampleNode (children : list (string * Element)) (text : string) : ListingNode :=
  {| querySelector := assoc children; textContent := text |}.

Definition samplePage (table : list (string * list ListingNode)) : Page :=
  {| querySelectorAll := fun selector => default [] (assoc table selector) |}.

Definition noon : Ambient :=
  {| dateNow := 1730000000000;
     isoString := "2024-10-27T03:33:20.000Z";
     isoString' := "2024-10-27T03:33:20.000Z";
     random1 := 2 ^ 52; random2 := 0; random3 := 2 ^ 53 - 1;
     randomSuffix := "k3j9x0q1z" |}.

Definition later : Ambient :=
  {| dateNow := 1730000000417;
     isoString := "2024-10-27T03:33:20.417Z";
     isoString' := "2024-10-27T03:33:20.418Z";
     random1 := 2 ^ 50; random2 := 2 ^ 52; random3 := 0;
     randomSuffix := "p07wq2m4a" |}.

(** A complete listing: an image inside a link, and a price in its text only. *)
Definition listed : ListingNode :=
  sampleNode
    [ ("img", sampleElement "" [("src", "//cdn.site.com/a.jpg")]);
      ("a", sampleElement "" [("href", "/property/12")]) ]
    "Nice home $325,000 3 bed 2.5 bath 1,850 sqft 123 Main St Columbus OH".

(** A listing with every detail but a price. *)
Definition unpriced : ListingNode :=
  sampleNode
    [ ("img", sampleElement "" [("src", "/b.jpg")]);
      ("a", sampleElement "" [("href", "/listing/7")]);
      ("h3", sampleElement "77 Oak Avenue, Columbus" []) ]
    "77 Oak Avenue, Columbus 2 bed, 1 bath, 1000 sqft".

(** A priced listing whose text says it was sold, with a short heading. *)
Definition resold : ListingNode :=
  sampleNode
    [ (".price", sampleElement "$325,000" []);
      ("h3", sampleElement "Lot 4" []);
      ("img", sampleElement "" [("data-src", "https://cdn.site.com/c.jpg")]);
      ("a", sampleElement "" [("href", "mailto:agent@example.com")]) ]
    "Lot 4 SOLD $325,000 4 bds 3 ba 2,400 sf".

(** A complete listing whose only link is a mail link. *)
Definition mailed : ListingNode :=
  sampleNode
    [ ("img", sampleElement "" [("src", "https://cdn.site.com/d.jpg")]);
      ("a", sampleElement "" [("href", "mailto:agent@example.com")]) ]
    "Ranch $289,900 3 bed 2 bath 1,400 sqft 9 Elm Court Columbus OH".

(** A listing that names two amounts in its text. *)
Definition reduced : ListingNode :=
  sampleNode [] "Was $1,250,000 now $325,000".

Definition sampleResults : Page :=
  samplePage [ ("[class*='card']", [listed; unpriced; resold]) ].

Definition twentyListings : Page :=
  samplePage [ (".listing-card", repeat listed 20) ].

(** ** Further sample data, and notions used in the statements *)

(** The values [priceRange] takes besides [Unknown]. *)
Definition priceBuckets : list string :=
  [ "Under $200K"; "$200K - $400K"; "$400K - $600K"; "Over $600K" ].

(** A page whose listings match only a selector that is tested but never taken. *)
Definition unanchored : Page :=
  samplePage [ ("[data-testid='property-card']", [listed; mailed]) ].

(** A listing whose figures are all outside the accepted ranges. *)
Definition mansion : ListingNode :=
  sampleNode
    [ ("img", sampleElement "" [("src", "https://cdn.site.com/m.jpg")]);
      ("a", sampleElement "" [("href", "/property/99")]) ]
    "Estate $2,400,000 12 bed 11 bath 12,500 sqft 1 Hill Road Columbus OH".

(** Every character class of the pattern lies within [p]. *)
Fixpoint classesWithin (p : ascii -> bool) (r : regex) : Prop :=
  match r with
  | Eps | Eos => True
  | Chr q => forall c, q c = true -> p c = true
  | Seq a b | Alt a b => classesWithin p a /\ classesWithin p b
  | Star a => classesWithin p a
  end.

(** The characters of a price text. *)
Definition isPriceChar (c : ascii) : bool := isDigit c || only "," c || only "$" c.

(** A text spelled as words, each followed by a run of separators. *)
Fixpoint interleave (pieces : list (string * string)) : string :=
  match pieces with
  | [] => ""
  | (word, separators) :: rest => word +:+ separators +:+ interleave rest
  end.

(** A word and the separators after it, as [interleave] takes them. *)
Definition wellFormed (piece : string * string) : Prop :=
  fst piece <> "" /\ anyChar Handler.isSeparator (fst piece) = false /\
  snd piece <> "" /\ allChars Handler.isSeparator (snd piece) = true.

(** A listing whose address element is blank under the first selector that
    finds one and padded under the next. *)
Definition padded : ListingNode :=
  sampleNode
    [ (".address", sampleElement "   " []);
      ("h3", sampleElement "  41 Birch Lane   " []) ]
    "41 Birch Lane $210,000".

(** * Properties *)

(** ** Texts *)

#[local] Arguments String.append !s1 s2 : simpl nomatch.

Lemma length_append (a b : string) :
  String.length (a +:+ b) = (String.length a + String.length b)%nat.
Proof. induction a as [|c a IH]; simpl; [reflexivity | now rewrite IH]. Qed.

Lemma append_assoc (a b c : string) : (a +:+ b) +:+ c = a +:+ (b +:+ c).
Proof. induction a as [|x a IH]; simpl; [reflexivity | now rewrite IH]. Qed.

Lemma mapChars_append (f : ascii -> ascii) (a b : string) :
  mapChars f (a +:+ b) = mapChars f a +:+ mapChars f b.
Proof. induction a as [|c a IH]; simpl; [reflexivity | now rewrite IH]. Qed.

Lemma anyChar_append (p : ascii -> bool) (a b : string) :
  anyChar p (a +:+ b) = anyChar p a || anyChar p b.
Proof.
  induction a as [|c a IH]; simpl; [reflexivity |].
  now rewrite IH, orb_assoc.
Qed.

Lemma startsWith_append (p rest : string) : startsWith (p +:+ rest) p = true.
Proof.
  induction p as [|c p IH]; simpl; [reflexivity |].
  now rewrite Ascii.eqb_refl, IH.
Qed.

Lemma includes_here (s sub : string) :
  startsWith s sub = true -> includes s sub = true.
Proof. intros H. destruct s; simpl; rewrite H; reflexivity. Qed.

Lemma includes_append (pre sub post : string) :
  includes (pre +:+ sub +:+ post) sub = true.
Proof.
  induction pre as [|c pre IH]; simpl.
  - apply includes_here, startsWith_append.
  - rewrite IH. apply orb_true_r.
Qed.

Lemma startsWith_split (s p : string) :
  startsWith s p = true -> exists rest, s = p +:+ rest.
Proof.
  revert s. induction p as [|c p IH]; intros s H; simpl in *.
  - now exists s.
  - destruct s as [|d s]; [discriminate |].
    apply andb_true_iff in H as [Hc Hp].
    apply Ascii.eqb_eq in Hc. subst d.
    destruct (IH _ Hp) as [rest ->]. now exists rest.
Qed.

Lemma includes_split (s sub : string) :
  includes s sub = true -> exists pre post, s = pre +:+ sub +:+ post.
Proof.
  induction s as [|c s IH]; simpl; intros H.
  - rewrite orb_false_r in H. destruct (startsWith_split _ _ H) as [rest E].
    now exists "", rest.
  - apply orb_true_iff in H as [H | H].
    + destruct (startsWith_split _ _ H) as [rest E]. now exists "", rest.
    + destruct (IH H) as (pre & post & ->). now exists (String c pre), post.
Qed.

Lemma truthy_true (s : string) : truthy s = true -> s <> "".
Proof. destruct s; [discriminate | intros _ H; discriminate H]. Qed.

(** ** The price parser *)

Lemma indicator_found (pre word post indicator : string) :
  In indicator invalidPriceIndicators ->
  toLowerCase word = indicator ->
  hasInvalidIndicator (pre +:+ word +:+ post) = true.
Proof.
  intros Hin Hlow. unfold hasInvalidIndicator.
  apply existsb_exists. exists indicator. split; [assumption |].
  unfold toLowerCase in *. rewrite !mapChars_append, Hlow.
  apply includes_append.
Qed.

Lemma scanPrice_plausible (patterns : list regex) (corpus price : string) :
  scanPrice patterns corpus = Some price ->
  plausible (numericPrice price) = true.
Proof.
  induction patterns as [|pattern rest IH]; simpl; [discriminate |].
  destruct (firstMatch pattern corpus) as [m|]; [| exact IH].
  destruct (plausible (numericPrice (dropChars isSpace m))) eqn:E; [| exact IH].
  intros [= <-]. exact E.
Qed.

Lemma plausible_range (n : option Z) :
  plausible n = true -> exists v, n = Some v /\ 10000 < v < 10000000.
Proof.
  destruct n as [v|]; simpl; [| discriminate].
  intros H. apply andb_true_iff in H as [H1 H2].
  exists v. split; [reflexivity | lia].
Qed.

Lemma scanPrice_next (pattern : regex) (rest : list regex) (corpus m : string) :
  firstMatch pattern corpus = Some m ->
  plausible (numericPrice (dropChars isSpace m)) = false ->
  scanPrice (pattern :: rest) corpus = scanPrice rest corpus.
Proof. intros Hm Hp. simpl. now rewrite Hm, Hp. Qed.

Lemma parsePrice_plausible (fullText text price : string) :
  Cli.parsePrice fullText text = Some price ->
  exists n, numericPrice price = Some n /\ 10000 < n < 10000000.
Proof.
  unfold Cli.parsePrice.
  destruct (hasInvalidIndicator text); [discriminate |].
  intros H. apply plausible_range. eapply scanPrice_plausible. exact H.
Qed.

(** C3. A price returned by the parser has, once [$] and commas are
    stripped, a numeric value strictly between 10000 and 10000000.  The
    parser is the cascade over the three patterns: a pattern whose match has
    a value outside that interval hands over to the rest of the cascade, and
    the empty cascade gives absent. *)
Theorem parsed_price_in_range :
  (forall fullText text price,
     Cli.parsePrice fullText text = Some price ->
     exists n, numericPrice price = Some n /\ 10000 < n < 10000000) /\
  (forall fullText text,
     hasInvalidIndicator text = false ->
     Cli.parsePrice fullText text = scanPrice pricePatterns (text +:+ " " +:+ fullText)) /\
  (forall pattern rest corpus m,
     firstMatch pattern corpus = Some m ->
     plausible (numericPrice (dropChars isSpace m)) = false ->
     scanPrice (pattern :: rest) corpus = scanPrice rest corpus) /\
  (forall corpus, scanPrice [] corpus = None).
Proof.
  split; [| split; [| split]].
  - apply parsePrice_plausible.
  - intros fullText text H. unfold Cli.parsePrice. now rewrite H.
  - apply scanPrice_next.
  - reflexivity.
Qed.

Lemma parsed_price_in_range_witness :
  (exists n, numericPrice "$325,000" = Some n /\ 10000 < n < 10000000) /\
  Cli.parsePrice "$500 down" "" = scanPrice (tl pricePatterns) " $500 down".
Proof.
  destruct parsed_price_in_range as (Hrange & Hscan & Hnext & _). split.
  - apply (Hrange (textContent listed) "" "$325,000"). reflexivity.
  - rewrite Hscan by reflexivity.
    apply (Hnext _ _ " $500 down" "$500"); reflexivity.
Defined.

(** C2 (as amended). A text handed to the price parser that contains one of
    the fixed phrases, in any letter case, makes the parser of the collection
    script and of the MCP script return absent.  The MCP script hands over
    the price text joined with the full text, so there a phrase anywhere in
    the listing gives an absent price. *)
Theorem invalid_indicator_rejects (fullText pre word post indicator : string) :
  In indicator invalidPriceIndicators ->
  toLowerCase word = indicator ->
  Cli.parsePrice fullText (pre +:+ word +:+ post) = None /\
  Mcp.parsePrice fullText (pre +:+ word +:+ post) = None /\
  (forall listing cityName stateName parsedAddress,
     extractText listing priceSelectors +:+ " " +:+ textContent listing
       = pre +:+ word +:+ post ->
     Mcp.candidatePrice (Mcp.candidate listing cityName stateName parsedAddress) = None).
Proof.
  intros Hin Hlow.
  pose proof (indicator_found pre word post indicator Hin Hlow) as Hfound.
  repeat split.
  - unfold Cli.parsePrice. now rewrite Hfound.
  - unfold Mcp.parsePrice. now rewrite Hfound.
  - intros listing cityName stateName parsedAddress Hjoin.
    unfold Mcp.candidate. cbn [Mcp.candidatePrice].
    unfold Mcp.parsePrice. now rewrite Hjoin, Hfound.
Qed.

Lemma invalid_indicator_rejects_witness :
  Cli.parsePrice "3 bed" "Call For Price" = None /\
  Mcp.candidatePrice (Mcp.candidate resold "Columbus" "OH" "") = None.
Proof.
  split.
  - apply (invalid_indicator_rejects "3 bed" "" "Call For Price" "" "call for price").
    + simpl. tauto.
    + reflexivity.
  - apply (invalid_indicator_rejects (textContent resold) "$325,000 Lot 4 " "SOLD"
             " $325,000 4 bds 3 ba 2,400 sf" "sold").
    + simpl. tauto.
    + reflexivity.
    + reflexivity.
Defined.

(** C2, as stated, fails: the collection script looks for the phrases in the
    price text only, and the Lambda service not at all.  For a listing whose
    full text says SOLD both return the price. *)
Lemma sold_listing_keeps_price :
  includes
    (toLowerCase (extractText resold priceSelectors +:+ " " +:+ textContent resold))
    "sold" = true /\
  Cli.parsePrice (textContent resold) (extractText resold priceSelectors) = Some "$325,000" /\
  Lambda.parsePrice (textContent resold) (Lambda.extractText resold priceSelectors) = "$325,000".
Proof. repeat split; reflexivity. Qed.

(** ** The price gate *)

(** The address parser throws exactly when one of its three patterns cannot
    be built, whatever the texts are. *)
Lemma cli_parseAddress_cases (addressRegExp : nat -> string -> option (string -> option string))
    (fullText cityName stateName text : string) :
  (builds addressRegExp cityName = true /\
   exists address,
     Cli.parseAddress addressRegExp fullText cityName stateName text = Returned address) \/
  (builds addressRegExp cityName = false /\
   Cli.parseAddress addressRegExp fullText cityName stateName text = Thrown).
Proof.
  unfold builds, Cli.parseAddress.
  destruct (addressRegExp 0%nat cityName); [| now right].
  destruct (addressRegExp 1%nat cityName); [| now right].
  destruct (addressRegExp 2%nat cityName); [| now right].
  left. split; [reflexivity | eexists; reflexivity].
Qed.

Lemma mcp_parseAddress_cases (addressRegExp : nat -> string -> option (string -> option string))
    (fullText cityName stateName text : string) :
  (builds addressRegExp cityName = true /\
   exists address,
     Mcp.parseAddress addressRegExp fullText cityName stateName text = Returned address) \/
  (builds addressRegExp cityName = false /\
   Mcp.parseAddress addressRegExp fullText cityName stateName text = Thrown).
Proof. exact (cli_parseAddress_cases addressRegExp fullText cityName stateName text). Qed.

(** The callback of the collection script: a throw when the patterns cannot
    be built, and otherwise what the validator makes of the parsed fields. *)
Lemma cli_extract_cases (addressRegExp : nat -> string -> option (string -> option string))
    (amb : Ambient) (listing : ListingNode) (cityName stateName : string) (index : nat) :
  (builds addressRegExp cityName = true /\
   exists address,
     Cli.extract addressRegExp amb listing cityName stateName index
       = Returned (Cli.finalize amb (Cli.rawFields listing)
                     (Cli.parseFields (Cli.rawFields listing) address)
                     cityName stateName index)) \/
  (builds addressRegExp cityName = false /\
   Cli.extract addressRegExp amb listing cityName stateName index = Thrown).
Proof.
  unfold Cli.extract.
  destruct (cli_parseAddress_cases addressRegExp (Cli.fullText (Cli.rawFields listing))
              cityName stateName (Cli.fullText (Cli.rawFields listing)))
    as [[Hb [address ->]] | [Hb ->]].
  - left. split; [exact Hb | now exists address].
  - now right.
Qed.

(** Likewise for the MCP script. *)
Lemma mcp_extract_cases (addressRegExp : nat -> string -> option (string -> option string))
    (amb : Ambient) (listing : ListingNode) (cityName stateName : string) (index : nat) :
  (builds addressRegExp cityName = true /\
   exists address,
     Mcp.extract addressRegExp amb listing cityName stateName index
       = Returned (Mcp.accept amb (Mcp.candidate listing cityName stateName address)
                     cityName stateName)) \/
  (builds addressRegExp cityName = false /\
   Mcp.extract addressRegExp amb listing cityName stateName index = Thrown).
Proof.
  unfold Mcp.extract.
  destruct (mcp_parseAddress_cases addressRegExp (textContent listing) cityName stateName
              (extractText listing addressSelectors +:+ " " +:+ textContent listing))
    as [[Hb [address ->]] | [Hb ->]].
  - left. split; [exact Hb | now exists address].
  - now right.
Qed.

Lemma cli_extract_returned (addressRegExp : nat -> string -> option (string -> option string))
    (amb : Ambient) (listing : ListingNode) (cityName stateName : string) (index : nat)
    (value : option Cli.PropertyRecord) :
  Cli.extract addressRegExp amb listing cityName stateName index = Returned value ->
  builds addressRegExp cityName = true /\
  exists address,
    value = Cli.finalize amb (Cli.rawFields listing)
              (Cli.parseFields (Cli.rawFields listing) address) cityName stateName index.
Proof.
  destruct (cli_extract_cases addressRegExp amb listing cityName stateName index)
    as [[Hb [address ->]] | [_ ->]]; [| discriminate].
  intros [= <-]. split; [exact Hb | now exists address].
Qed.

Lemma mcp_extract_returned (addressRegExp : nat -> string -> option (string -> option string))
    (amb : Ambient) (listing : ListingNode) (cityName stateName : string) (index : nat)
    (value : option Mcp.PropertyRecord) :
  Mcp.extract addressRegExp amb listing cityName stateName index = Returned value ->
  builds addressRegExp cityName = true /\
  exists address,
    value = Mcp.accept amb (Mcp.candidate listing cityName stateName address)
              cityName stateName.
Proof.
  destruct (mcp_extract_cases addressRegExp amb listing cityName stateName index)
    as [[Hb [address ->]] | [_ ->]]; [| discriminate].
  intros [= <-]. split; [exact Hb | now exists address].
Qed.

(** Unfold the validator of the collection script down to its price gate. *)
Ltac open_cli_callback :=
  unfold Cli.finalize, Cli.parseFields, Cli.rawFields;
  cbn [Cli.parsedPrice Cli.fullText Cli.priceText].

(** Likewise for the MCP script. *)
Ltac open_mcp_callback :=
  unfold Mcp.accept, Mcp.candidate;
  cbn [Mcp.candidatePrice].

(** C1 (as amended). In the collection script and in the MCP script a listing
    for which the price parser returns absent yields no record, whatever its
    other fields are: the callback returns [null], or throws when the address
    patterns cannot be built for the city.  The Lambda service has no such
    gate: when no pattern finds a plausible price it emits the record with a
    placeholder price. *)
Theorem absent_price_rejected
    (addressRegExp : nat -> string -> option (string -> option string))
    (amb : Ambient) (listing : ListingNode) (cityName stateName : string) (index : nat) :
  (Cli.parsePrice (textContent listing) (extractText listing priceSelectors) = None ->
   Cli.extract addressRegExp amb listing cityName stateName index
     = if builds addressRegExp cityName then Returned None else Thrown) /\
  (Mcp.parsePrice (textContent listing)
     (extractText listing priceSelectors +:+ " " +:+ textContent listing) = None ->
   Mcp.extract addressRegExp amb listing cityName stateName index
     = if builds addressRegExp cityName then Returned None else Thrown) /\
  (scanPrice pricePatterns
     (Lambda.extractText listing priceSelectors +:+ " " +:+ textContent listing) = None ->
   Lambda.price (Lambda.extract amb listing cityName stateName index)
     = "Price not available").
Proof.
  split; [| split]; intros H.
  - destruct (cli_extract_cases addressRegExp amb listing cityName stateName index)
      as [[-> [address ->]] | [-> ->]]; [| reflexivity].
    open_cli_callback. now rewrite H.
  - destruct (mcp_extract_cases addressRegExp amb listing cityName stateName index)
      as [[-> [address ->]] | [-> ->]]; [| reflexivity].
    open_mcp_callback. now rewrite H.
  - unfold Lambda.extract. cbn [Lambda.price]. unfold Lambda.parsePrice. now rewrite H.
Qed.

Lemma absent_price_rejected_witness :
  Cli.extract literalCity noon unpriced "Columbus" "OH" 1 = Returned None /\
  Mcp.extract literalCity noon unpriced "Columbus" "OH" 1 = Returned None /\
  Lambda.price (Lambda.extract noon unpriced "Columbus" "OH" 1) = "Price not available".
Proof.
  destruct (absent_price_rejected literalCity noon unpriced "Columbus" "OH" 1)
    as (Hcli & Hmcp & Hlambda).
  split; [apply Hcli | split; [apply Hmcp | apply Hlambda]]; reflexivity.
Defined.

(** C1, as stated for every listing, fails on the Lambda service: no price
    can be found for the listing, and a record is emitted with a placeholder. *)
Lemma lambda_emits_unpriced :
  scanPrice pricePatterns
    (Lambda.extractText unpriced priceSelectors +:+ " " +:+ textContent unpriced) = None /\
  Lambda.price (Lambda.extract noon unpriced "Columbus" "OH" 1) = "Price not available" /\
  Lambda.beds (Lambda.extract noon unpriced "Columbus" "OH" 1) = 2.
Proof. repeat split; reflexivity. Qed.

(** ** Property URLs *)

Lemma denied_found (url pre marker post : string) :
  In marker denyList -> url = pre +:+ marker +:+ post -> denied url = true.
Proof.
  intros Hin ->. unfold denied. apply existsb_exists.
  exists marker. split; [assumption | apply includes_append].
Qed.

(** In the collection script and in the Lambda service a property URL whose
    absolute form contains [mailto:], [tel:], [javascript:], [#], [agent] or
    [contact] becomes the empty string. *)
Lemma denied_url_discarded (href pre marker post : string) :
  In marker denyList ->
  absolutize href = pre +:+ marker +:+ post ->
  Cli.normalizePropertyUrl href = "" /\ Lambda.normalizePropertyUrl href = "".
Proof.
  intros Hin Habs.
  pose proof (denied_found _ _ _ _ Hin Habs) as Hdenied.
  unfold Cli.normalizePropertyUrl, Lambda.normalizePropertyUrl.
  destruct href as [|c href]; [split; reflexivity |].
  cbn [truthy]. rewrite Hdenied. split; reflexivity.
Qed.

Lemma mailto_discarded :
  Cli.normalizePropertyUrl "mailto:agent@example.com" = "" /\
  Lambda.normalizePropertyUrl "mailto:agent@example.com" = "".
Proof.
  apply (denied_url_discarded "mailto:agent@example.com" "https://www.realty.com/"
           "mailto:" "agent@example.com").
  - simpl. tauto.
  - reflexivity.
Qed.

(** C9 fails on the MCP script, which absolutizes the link and filters
    nothing: the link [mailto:agent@example.com] is kept, and the listing is
    emitted with it as its property URL, where the collection script gives
    the empty string. *)
Theorem mcp_keeps_mailto :
  includes (absolutize "mailto:agent@example.com") "mailto:" = true /\
  Mcp.normalizePropertyUrl "mailto:agent@example.com"
    = "https://www.realty.com/mailto:agent@example.com" /\
  (exists r, Mcp.extract literalCity noon mailed "Columbus" "OH" 0 = Returned (Some r) /\
             Mcp.propertyUrl r = "https://www.realty.com/mailto:agent@example.com") /\
  (exists r, Cli.extract literalCity noon mailed "Columbus" "OH" 0 = Returned (Some r) /\
             Cli.propertyUrl r = "").
Proof.
  split; [reflexivity |]. split; [reflexivity |].
  split; eexists; (split; [vm_compute; reflexivity | reflexivity]).
Qed.

(** ** Locating and truncating *)

Lemma testSelectors_sound (page : Page) (selectors : list string)
    (acc : gmap string nat) (selector : string) (n : nat) :
  testSelectors page selectors acc !! selector = Some n ->
  acc !! selector = Some n \/
  (n = length (querySelectorAll page selector) /\ (0 < n)%nat).
Proof.
  revert acc. induction selectors as [|s rest IH]; intros acc H; simpl in H.
  - now left.
  - apply IH in H as [H | H]; [| now right].
    destruct (0 <? length (querySelectorAll page s))%nat eqn:E; [| now left].
    destruct (decide (s = selector)) as [-> | Hne].
    + rewrite lookup_insert_eq in H. injection H as <-.
      right. split; [reflexivity | now apply Nat.ltb_lt].
    + rewrite lookup_insert_ne in H by assumption. now left.
Qed.

Lemma testSelectors_keep (page : Page) (selectors : list string)
    (acc : gmap string nat) (selector : string) :
  acc !! selector = Some (length (querySelectorAll page selector)) ->
  testSelectors page selectors acc !! selector
    = Some (length (querySelectorAll page selector)).
Proof.
  revert acc. induction selectors as [|s rest IH]; intros acc H; simpl.
  - assumption.
  - apply IH.
    destruct (0 <? length (querySelectorAll page s))%nat; [| assumption].
    destruct (decide (s = selector)) as [-> | Hne].
    + apply lookup_insert_eq.
    + now rewrite lookup_insert_ne.
Qed.

Lemma testSelectors_complete (page : Page) (selectors : list string)
    (acc : gmap string nat) (selector : string) :
  In selector selectors ->
  (0 < length (querySelectorAll page selector))%nat ->
  testSelectors page selectors acc !! selector
    = Some (length (querySelectorAll page selector)).
Proof.
  revert acc. induction selectors as [|s rest IH]; intros acc Hin Hpos; simpl.
  - destruct Hin.
  - destruct Hin as [-> | Hin]; [| now apply IH].
    apply testSelectors_keep.
    apply Nat.ltb_lt in Hpos. rewrite Hpos. apply lookup_insert_eq.
Qed.

Lemma firstFallback_sound (results : gmap string nat) (selectors : list string)
    (selector : string) (count : nat) :
  firstFallback results selectors = Some (selector, count) ->
  results !! selector = Some count.
Proof.
  induction selectors as [|s rest IH]; simpl; [discriminate |].
  destruct (results !! s) as [n|] eqn:E; [| exact IH].
  destruct (0 <? n)%nat; [| exact IH].
  intros [= <- <-]. exact E.
Qed.

(** The count on which [collectProperties] decides is the number of nodes the
    chosen selector finds. *)
Lemma locate_count (page : Page) :
  snd (locate page) = length (querySelectorAll page (fst (locate page))).
Proof.
  unfold locate.
  set (results := testSelectors page propertySelectors ∅).
  remember (firstFallback results fallbackSelectors) as fallback eqn:F.
  symmetry in F.
  destruct (results !! ".listing-card") as [n|] eqn:E; simpl.
  - apply testSelectors_sound in E as [E | [-> Hpos]].
    + rewrite lookup_empty in E. discriminate.
    + destruct (Nat.eqb_spec (length (querySelectorAll page ".listing-card")) 0);
        [lia | reflexivity].
  - destruct fallback as [[selector count]|]; simpl.
    + apply firstFallback_sound in F.
      apply testSelectors_sound in F as [F | [-> _]]; [| reflexivity].
      rewrite lookup_empty in F. discriminate.
    + destruct (length (querySelectorAll page ".listing-card")) as [|k] eqn:L;
        [reflexivity |].
      assert (results !! ".listing-card"
              = Some (length (querySelectorAll page ".listing-card"))) as C.
      { apply testSelectors_complete; [simpl; tauto | lia]. }
      rewrite E in C. discriminate.
Qed.

Lemma sliceTo_nil {A : Type} (finish : Z) : sliceTo finish (@nil A) = [].
Proof. unfold sliceTo. destruct (finish <? 0); now rewrite take_nil. Qed.

Lemma sliceTo_take {A : Type} (finish : Z) (array : list A) :
  0 <= finish -> sliceTo finish array = take (Z.to_nat finish) array.
Proof.
  intros H. unfold sliceTo.
  destruct (Z.ltb_spec finish 0); [lia | reflexivity].
Qed.

Lemma sliceTo_length {A : Type} (finish : Z) (array : list A) :
  0 <= finish -> Z.of_nat (length (sliceTo finish array)) <= finish.
Proof.
  intros H. rewrite sliceTo_take by assumption.
  rewrite length_take. lia.
Qed.

(** The map over a callback that returns on every element. *)
Lemma mapFrom_returned {A B : Type} (callback : nat -> A -> Completion B)
    (f : nat -> A -> B) (array : list A) :
  forall first,
    (forall i x, array !! i = Some x ->
                 callback (first + i)%nat x = Returned (f (first + i)%nat x)) ->
    mapFrom callback first array = Returned (imap (fun i => f (first + i)%nat) array).
Proof.
  induction array as [|x array IH]; intros first H; [reflexivity |].
  cbn [mapFrom]. rewrite imap_cons.
  pose proof (H 0%nat x eq_refl) as H0. rewrite Nat.add_0_r in H0. rewrite H0.
  rewrite (IH (S first)).
  - rewrite Nat.add_0_r. do 2 f_equal. apply imap_ext. intros i y _.
    cbn [compose]. now replace (first + S i)%nat with (S first + i)%nat by lia.
  - intros i y Hy. replace (S first + i)%nat with (first + S i)%nat by lia.
    now apply H.
Qed.

(** What a finished map holds: one value for each element, the one the
    callback returned on it. *)
Lemma mapFrom_lookup {A B : Type} (callback : nat -> A -> Completion B) (array : list A) :
  forall first values,
    mapFrom callback first array = Returned values ->
    length values = length array /\
    forall i y, values !! i = Some y ->
      exists x, array !! i = Some x /\ callback (first + i)%nat x = Returned y.
Proof.
  induction array as [|x array IH]; intros first values; cbn [mapFrom].
  - intros [= <-]. split; [reflexivity | intros i y H; destruct i; discriminate H].
  - destruct (callback first x) as [value|] eqn:E; [| discriminate].
    destruct (mapFrom callback (S first) array) as [rest|] eqn:M; [| discriminate].
    intros [= <-]. destruct (IH _ _ M) as [Hlen Hrest].
    split; [cbn [length]; now rewrite Hlen |].
    intros [|i] y Hy.
    + injection Hy as <-. exists x. split; [reflexivity | now rewrite Nat.add_0_r].
    + apply Hrest in Hy as (x' & Hx' & Hcall). exists x'. split; [exact Hx' |].
      now replace (first + S i)%nat with (S first + i)%nat by lia.
Qed.

(** A map over a callback that never throws is finished. *)
Lemma mapFrom_finished {A B : Type} (callback : nat -> A -> Completion B) (array : list A) :
  forall first,
    (forall i x, callback i x <> Thrown) ->
    exists values, mapFrom callback first array = Returned values.
Proof.
  induction array as [|x array IH]; intros first H; [now exists [] |].
  cbn [mapFrom]. destruct (callback first x) as [value|] eqn:E; [| now apply H in E].
  destruct (IH (S first) H) as [rest ->]. now eexists.
Qed.

(** A map over a callback that always throws is finished only on the empty
    array. *)
Lemma mapFrom_thrown {A B : Type} (callback : nat -> A -> Completion B) (array : list A)
    (first : nat) :
  (forall i x, callback i x = Thrown) ->
  mapFrom callback first array = match array with [] => Returned [] | _ => Thrown end.
Proof.
  intros H. destruct array as [|x array]; [reflexivity |]. cbn [mapFrom]. now rewrite H.
Qed.

Section Collected.

Variable addressRegExp : nat -> string -> option (string -> option string).
Variable ambs : nat -> Ambient.
Variable page : Page.
Variables city state : string.
Variable maxProperties : Z.

Lemma collect_guard {A : Type} (collected : list A) :
  length collected = length (sliceTo maxProperties (querySelectorAll page (fst (locate page)))) \/
  collected = [] ->
  (if (snd (locate page) =? 0)%nat then [] else collected) = collected.
Proof.
  rewrite locate_count.
  destruct (querySelectorAll page (fst (locate page))) as [|x l]; [| reflexivity].
  rewrite sliceTo_nil. intros [H | ->]; [| reflexivity].
  now destruct collected.
Qed.

Lemma cli_collect_all (f : nat -> ListingNode -> option Cli.PropertyRecord) :
  (forall index listing,
     Cli.propertyListings page maxProperties !! index = Some listing ->
     Cli.extract addressRegExp (ambs index) listing city state index
       = Returned (f index listing)) ->
  Cli.collectProperties addressRegExp ambs page city state maxProperties
  = imap f (Cli.propertyListings page maxProperties).
Proof.
  intros H. unfold Cli.collectProperties.
  rewrite (mapFrom_returned _ f) by exact H.
  apply collect_guard. left. now rewrite length_imap.
Qed.

Lemma mcp_collect_all (f : nat -> ListingNode -> option Mcp.PropertyRecord) :
  (forall index listing,
     Mcp.propertyListings page maxProperties !! index = Some listing ->
     Mcp.extract addressRegExp (ambs index) listing city state index
       = Returned (f index listing)) ->
  Mcp.collectProperties addressRegExp ambs page city state maxProperties
  = List.filter Mcp.notNull (imap f (Mcp.propertyListings page maxProperties)).
Proof.
  intros H. unfold Mcp.collectProperties.
  rewrite (mapFrom_returned _ f) by exact H.
  rewrite locate_count. unfold Mcp.propertyListings in *.
  destruct (querySelectorAll page (fst (locate page))) as [|x l]; [| reflexivity].
  now rewrite sliceTo_nil.
Qed.

(** When a pattern cannot be built both scripts return the empty array. *)
Lemma collect_thrown :
  builds addressRegExp city = false ->
  Cli.collectProperties addressRegExp ambs page city state maxProperties = [] /\
  Mcp.collectProperties addressRegExp ambs page city state maxProperties = [].
Proof.
  intros Hb. unfold Cli.collectProperties, Mcp.collectProperties. split.
  - destruct (_ =? _)%nat; [reflexivity |].
    rewrite mapFrom_thrown.
    + now destruct (Cli.propertyListings page maxProperties).
    + intros i x.
      destruct (cli_extract_cases addressRegExp (ambs i) x city state i)
        as [[Hb' _] | [_ H]]; [congruence | exact H].
  - destruct (_ =? _)%nat; [reflexivity |].
    rewrite mapFrom_thrown.
    + now destruct (Mcp.propertyListings page maxProperties).
    + intros i x.
      destruct (mcp_extract_cases addressRegExp (ambs i) x city state i)
        as [[Hb' _] | [_ H]]; [congruence | exact H].
Qed.

(** An entry of the batch of the collection script is what the callback
    returned on the listing at its position. *)
Lemma cli_collect_lookup (index : nat) (value : option Cli.PropertyRecord) :
  Cli.collectProperties addressRegExp ambs page city state maxProperties !! index
    = Some value ->
  exists listing,
    Cli.propertyListings page maxProperties !! index = Some listing /\
    Cli.extract addressRegExp (ambs index) listing city state index = Returned value.
Proof.
  unfold Cli.collectProperties.
  destruct (_ =? _)%nat; [discriminate |].
  destruct (mapFrom _ _ _) as [values|] eqn:M; [| discriminate].
  intros H. apply mapFrom_lookup in M as [_ M]. exact (M _ _ H).
Qed.

(** The batch of the collection script has one entry for each listing when
    the patterns can be built. *)
Lemma cli_collect_length :
  builds addressRegExp city = true ->
  length (Cli.collectProperties addressRegExp ambs page city state maxProperties)
    = length (Cli.propertyListings page maxProperties).
Proof.
  intros Hb. unfold Cli.collectProperties.
  destruct (mapFrom_finished
              (fun index listing =>
                 Cli.extract addressRegExp (ambs index) listing city state index)
              (Cli.propertyListings page maxProperties) 0) as [values M].
  { intros i x.
    destruct (cli_extract_cases addressRegExp (ambs i) x city state i)
      as [[_ [address ->]] | [Hb' _]]; [discriminate | congruence]. }
  rewrite M. apply mapFrom_lookup in M as [Hlen _].
  rewrite collect_guard by (left; exact Hlen). exact Hlen.
Qed.

(** A record of the batch of the MCP script is one the callback returned. *)
Lemma mcp_collect_in (r : Mcp.PropertyRecord) :
  In (Some r) (Mcp.collectProperties addressRegExp ambs page city state maxProperties) ->
  exists listing index,
    Mcp.extract addressRegExp (ambs index) listing city state index = Returned (Some r).
Proof.
  unfold Mcp.collectProperties.
  destruct (_ =? _)%nat; [intros [] |].
  destruct (mapFrom _ _ _) as [values|] eqn:M; [| intros []].
  intros H. apply filter_In in H as [H _].
  apply list_elem_of_In, list_elem_of_lookup in H as [index H].
  apply mapFrom_lookup in M as [_ M]. destruct (M _ _ H) as (listing & _ & E).
  now exists listing, index.
Qed.

Lemma mcp_collect_not_null :
  ~ In None (Mcp.collectProperties addressRegExp ambs page city state maxProperties).
Proof.
  unfold Mcp.collectProperties.
  destruct (_ =? _)%nat; [intros [] |].
  destruct (mapFrom _ _ _) as [values|]; [| intros []].
  intros H. apply filter_In in H as [_ H]. discriminate H.
Qed.

(** The collection script and the MCP script run the callback on the
    first [maxProperties] located nodes only. *)
Lemma requested_cap_respected :
  0 <= maxProperties ->
  Cli.propertyListings page maxProperties
    = take (Z.to_nat maxProperties) (querySelectorAll page (fst (locate page))) /\
  Mcp.propertyListings page maxProperties
    = take (Z.to_nat maxProperties) (querySelectorAll page (fst (locate page))) /\
  Z.of_nat (length (Cli.collectProperties addressRegExp ambs page city state maxProperties))
    <= maxProperties /\
  Z.of_nat (length (Mcp.collectProperties addressRegExp ambs page city state maxProperties))
    <= maxProperties.
Proof.
  intros H.
  pose proof (sliceTo_length maxProperties (querySelectorAll page (fst (locate page))) H)
    as Hcap.
  unfold Cli.propertyListings, Mcp.propertyListings.
  rewrite sliceTo_take by assumption. rewrite sliceTo_take in Hcap by assumption.
  repeat split.
  - unfold Cli.collectProperties, Cli.propertyListings.
    destruct (_ =? _)%nat; [cbn; lia |].
    destruct (mapFrom _ _ _) as [values|] eqn:M; [| cbn; lia].
    apply mapFrom_lookup in M as [-> _]. now rewrite sliceTo_take by assumption.
  - unfold Mcp.collectProperties, Mcp.propertyListings.
    destruct (_ =? _)%nat; [cbn; lia |].
    destruct (mapFrom _ _ _) as [values|] eqn:M; [| cbn; lia].
    apply mapFrom_lookup in M as [Hlen _]. rewrite sliceTo_take in Hlen by assumption.
    pose proof (List.filter_length_le Mcp.notNull values). lia.
Qed.

End Collected.

(** C5 (as amended). When the callback returns on every listing, the MCP
    script returns exactly its non-null results, in the order of the located
    nodes, and the collection script returns its result for every node in
    that order, [null] included.  The MCP script never returns a [null].
    The callback returns on every listing when the address patterns can be
    built for the city; when they cannot, it throws, the throw is caught, and
    both scripts return the empty array. *)
Theorem collected_in_dom_order
    (addressRegExp : nat -> string -> option (string -> option string))
    (ambs : nat -> Ambient) (page : Page) (city state : string) (maxProperties : Z) :
  (forall f,
     (forall index listing,
        Mcp.propertyListings page maxProperties !! index = Some listing ->
        Mcp.extract addressRegExp (ambs index) listing city state index
          = Returned (f index listing)) ->
     Mcp.collectProperties addressRegExp ambs page city state maxProperties
       = List.filter Mcp.notNull (imap f (Mcp.propertyListings page maxProperties))) /\
  ~ In None (Mcp.collectProperties addressRegExp ambs page city state maxProperties) /\
  (forall f,
     (forall index listing,
        Cli.propertyListings page maxProperties !! index = Some listing ->
        Cli.extract addressRegExp (ambs index) listing city state index
          = Returned (f index listing)) ->
     Cli.collectProperties addressRegExp ambs page city state maxProperties
       = imap f (Cli.propertyListings page maxProperties)) /\
  (builds addressRegExp city = true ->
   forall amb listing index,
     (exists value,
        Cli.extract addressRegExp amb listing city state index = Returned value) /\
     (exists value,
        Mcp.extract addressRegExp amb listing city state index = Returned value)) /\
  (builds addressRegExp city = false ->
   Cli.collectProperties addressRegExp ambs page city state maxProperties = [] /\
   Mcp.collectProperties addressRegExp ambs page city state maxProperties = []).
Proof.
  split; [apply mcp_collect_all |]. split; [apply mcp_collect_not_null |].
  split; [apply cli_collect_all |]. split; [| apply collect_thrown].
  intros Hb amb listing index. split.
  - destruct (cli_extract_cases addressRegExp amb listing city state index)
      as [[_ [address H]] | [Hb' _]]; [eauto | congruence].
  - destruct (mcp_extract_cases addressRegExp amb listing city state index)
      as [[_ [address H]] | [Hb' _]]; [eauto | congruence].
Qed.

Lemma collected_in_dom_order_witness :
  map (option_map Mcp.price)
    (Mcp.collectProperties literalCity (fun _ => noon) sampleResults "Columbus" "OH" 20)
    = [Some "$325,000"] /\
  map (option_map Cli.price)
    (Cli.collectProperties literalCity (fun _ => noon) sampleResults "Columbus" "OH" 20)
    = [Some "$325,000"; None; Some "$325,000"] /\
  Cli.collectProperties literalCity (fun _ => noon) sampleResults "Winston(Salem" "NC" 20 = [].
Proof.
  destruct (collected_in_dom_order literalCity (fun _ => noon) sampleResults "Columbus" "OH" 20)
    as (Hmcp & _ & Hcli & _).
  destruct (collected_in_dom_order literalCity (fun _ => noon) sampleResults
              "Winston(Salem" "NC" 20) as (_ & _ & _ & _ & Hthrown).
  split; [| split].
  - rewrite (Hmcp (fun index listing =>
               match Mcp.extract literalCity noon listing "Columbus" "OH" index with
               | Returned value => value
               | Thrown => None
               end)); [reflexivity |].
    intros index listing H.
    destruct (mcp_extract_cases literalCity noon listing "Columbus" "OH" index)
      as [[_ [address ->]] | [Hb _]]; [reflexivity | discriminate Hb].
  - rewrite (Hcli (fun index listing =>
               match Cli.extract literalCity noon listing "Columbus" "OH" index with
               | Returned value => value
               | Thrown => None
               end)); [reflexivity |].
    intros index listing H.
    destruct (cli_extract_cases literalCity noon listing "Columbus" "OH" index)
      as [[_ [address ->]] | [Hb _]]; [reflexivity | discriminate Hb].
  - apply Hthrown. reflexivity.
Defined.

(** C5, as stated, fails on the collection script: the rejected listing
    leaves a [null] in the returned list. *)
Lemma cli_returns_null :
  nth_error (Cli.collectProperties literalCity (fun _ => noon) sampleResults "Columbus" "OH" 20) 1
    = Some None /\
  In None (Cli.collectProperties literalCity (fun _ => noon) sampleResults "Columbus" "OH" 20).
Proof. split; [reflexivity | right; left; reflexivity]. Qed.

(** The Lambda service runs the callback on the first 20 located nodes,
    whatever count it is asked for. *)
Lemma lambda_cap_fixed (ambs : nat -> Ambient) (page : Page) (city state : string)
    (maxProperties : Z) :
  Lambda.collectProperties ambs page city state maxProperties
    = imap (fun index listing => Lambda.extract (ambs index) listing city state index)
        (take 20 (querySelectorAll page (fst (locate page)))) /\
  length (Lambda.collectProperties ambs page city state maxProperties)
    = Nat.min 20 (length (querySelectorAll page (fst (locate page)))).
Proof.
  assert (Lambda.collectProperties ambs page city state maxProperties
    = imap (fun index listing => Lambda.extract (ambs index) listing city state index)
        (take 20 (querySelectorAll page (fst (locate page))))) as H.
  { unfold Lambda.collectProperties, Lambda.propertyListings.
    rewrite locate_count.
    destruct (querySelectorAll page (fst (locate page))) as [|x l]; reflexivity. }
  split; [exact H |].
  rewrite H, length_imap, length_take. reflexivity.
Qed.

(** C6 (as amended). For a count that is not negative, the collection script
    and the MCP script run the callback on the first [maxProperties] located
    nodes, in their order, and return no more entries than that.  The Lambda
    service is called by its handler without a count: it runs the callback on
    the first 20 located nodes, the default of its unused parameter. *)
Theorem listings_truncated
    (addressRegExp : nat -> string -> option (string -> option string))
    (ambs : nat -> Ambient) (page : Page) (city state : string) (maxProperties : Z) :
  0 <= maxProperties ->
  Cli.propertyListings page maxProperties
    = take (Z.to_nat maxProperties) (querySelectorAll page (fst (locate page))) /\
  Mcp.propertyListings page maxProperties
    = take (Z.to_nat maxProperties) (querySelectorAll page (fst (locate page))) /\
  Z.of_nat (length (Cli.collectProperties addressRegExp ambs page city state maxProperties))
    <= maxProperties /\
  Z.of_nat (length (Mcp.collectProperties addressRegExp ambs page city state maxProperties))
    <= maxProperties /\
  Lambda.propertyListings page
    = take (Z.to_nat 20) (querySelectorAll page (fst (locate page))) /\
  Handler.collect ambs page city state
    = imap (fun index listing => Lambda.extract (ambs index) listing city state index)
        (take (Z.to_nat 20) (querySelectorAll page (fst (locate page)))) /\
  Z.of_nat (length (Handler.collect ambs page city state)) <= 20.
Proof.
  intros H.
  destruct (requested_cap_respected addressRegExp ambs page city state maxProperties H)
    as (Hcli & Hmcp & Hclen & Hmlen).
  destruct (lambda_cap_fixed ambs page city state 20) as [Hlambda Hlen].
  split; [exact Hcli |]. split; [exact Hmcp |]. split; [exact Hclen |].
  split; [exact Hmlen |]. split; [reflexivity |]. split; [exact Hlambda |].
  unfold Handler.collect. rewrite Hlen. lia.
Qed.

Lemma listings_truncated_witness :
  Cli.propertyListings twentyListings 5 = repeat listed 5 /\
  Z.of_nat (length (Cli.collectProperties literalCity (fun _ => noon) twentyListings
                      "Columbus" "OH" 5)) <= 5 /\
  Z.of_nat (length (Handler.collect (fun _ => noon) twentyListings "Columbus" "OH")) <= 20.
Proof.
  destruct (listings_truncated literalCity (fun _ => noon) twentyListings "Columbus" "OH" 5)
    as (Hcli & _ & Hlen & _ & _ & _ & Hlambda); [lia |].
  split; [rewrite Hcli; reflexivity |]. split; [exact Hlen | exact Hlambda].
Defined.

(** C6, as stated for every count, fails on the collection script: a
    negative count, which the command line passes on as it is, counts from
    the end of the located nodes, and the callback runs on more nodes than
    were asked for. *)
Lemma negative_count_exceeds :
  CliScript.main ["--city"; "Columbus"; "--state"; "OH"; "--limit"; "-1"]
    = CliScript.Collect "Columbus" "OH" (-1) /\
  Cli.propertyListings sampleResults (-1) = [listed; unpriced] /\
  map (option_map Cli.price)
    (Cli.collectProperties literalCity (fun _ => noon) sampleResults "Columbus" "OH" (-1))
    = [Some "$325,000"; None].
Proof. repeat split; reflexivity. Qed.

(** ** The acceptance test of the MCP script *)

Lemma mcp_accept_complete (amb : Ambient) (c : Mcp.Candidate) (cityName stateName : string)
    (r : Mcp.PropertyRecord) :
  Mcp.accept amb c cityName stateName = Some r ->
  Mcp.candidatePrice c = Some (Mcp.price r) /\ Mcp.price r <> "" /\
  Mcp.candidateAddress c = Mcp.address r /\ Mcp.address r <> "" /\
  Mcp.candidateImageUrl c = Mcp.imageUrl r /\ Mcp.imageUrl r <> "" /\
  Mcp.candidatePropertyUrl c = Mcp.propertyUrl r /\ Mcp.propertyUrl r <> "".
Proof.
  unfold Mcp.accept.
  destruct (Mcp.candidatePrice c) as [price|]; simpl; [| discriminate].
  destruct (truthy price) eqn:Hp; simpl; [| discriminate].
  destruct (truthy (Mcp.candidateAddress c)) eqn:Ha; simpl; [| discriminate].
  destruct (truthy (Mcp.candidateImageUrl c)) eqn:Hi; simpl; [| discriminate].
  destruct (truthy (Mcp.candidatePropertyUrl c)) eqn:Hu; simpl; [| discriminate].
  intros [= <-]. simpl.
  repeat split; try reflexivity; now apply truthy_true.
Qed.



(** ** The matcher *)

(** The matcher only looks at what its continuation returns. *)
Lemma run_ext {A : Type} (r : regex) :
  forall (s : string) (k1 k2 : string -> option A),
    (forall t, k1 t = k2 t) -> run r s k1 = run r s k2.
Proof.
  induction r as [| p | a IHa b IHb | a IHa b IHb | a IHa |]; intros s k1 k2 Hk; simpl.
  - apply Hk.
  - destruct s as [|c s]; [reflexivity |]. destruct (p c); [apply Hk | reflexivity].
  - apply IHa. intros t. now apply IHb.
  - rewrite (IHa s k1 k2 Hk), (IHb s k1 k2 Hk). reflexivity.
  - generalize (String.length s) as fuel. intros fuel. revert s.
    induction fuel as [|fuel IH]; intros s; simpl; [apply Hk |].
    rewrite (IHa s _ (fun s' =>
      if (String.length s' <? String.length s)%nat
      then starLoop (run a) k2 fuel s' else None)).
    + now rewrite Hk.
    + intros t. destruct (String.length t <? String.length s)%nat; [apply IH | reflexivity].
  - destruct s; [apply Hk | reflexivity].
Qed.

(** A continuation that always fails makes the match fail. *)
Lemma run_none {A : Type} (r : regex) :
  forall s : string, run r s (fun _ => @None A) = None.
Proof.
  induction r as [| p | a IHa b IHb | a IHa b IHb | a IHa |]; intros s; simpl.
  - reflexivity.
  - destruct s as [|c s]; [reflexivity |]. now destruct (p c).
  - rewrite (run_ext a s _ (fun _ => None)); [apply IHa | apply IHb].
  - now rewrite IHa, IHb.
  - generalize (String.length s) as fuel. intros fuel. revert s.
    induction fuel as [|fuel IH]; intros s; simpl; [reflexivity |].
    rewrite (run_ext a s _ (fun _ => None)); [now rewrite IHa |].
    intros t. destruct (String.length t <? String.length s)%nat; [apply IH | reflexivity].
  - now destruct s.
Qed.

(** The repetition never runs short of rounds: from the length of the text
    on, more fuel changes nothing. *)
Lemma starLoop_enough {A : Type} (a : regex) (k : string -> option A) :
  forall (fuel1 fuel2 : nat) (s : string),
    (String.length s <= fuel1)%nat -> (String.length s <= fuel2)%nat ->
    starLoop (run a) k fuel1 s = starLoop (run a) k fuel2 s.
Proof.
  assert (forall fuel s, String.length s = 0%nat ->
            starLoop (run a) k fuel s = k s) as Hempty.
  { intros [|fuel] s Hs; simpl; [reflexivity |].
    rewrite (run_ext a s _ (fun _ => None)); [now rewrite run_none |].
    intros t. rewrite Hs. reflexivity. }
  induction fuel1 as [|fuel1 IH]; intros fuel2 s H1 H2.
  - rewrite (Hempty fuel2 s) by lia. reflexivity.
  - destruct fuel2 as [|fuel2]; [now rewrite (Hempty (S fuel1) s) by lia |].
    simpl.
    rewrite (run_ext a s _ (fun s' =>
      if (String.length s' <? String.length s)%nat
      then starLoop (run a) k fuel2 s' else None)); [reflexivity |].
    intros t. destruct (Nat.ltb_spec (String.length t) (String.length s));
      [apply IH; lia | reflexivity].
Qed.

(** ** The first dollar amount of a text *)

Lemma takeChars_append (u rest : string) :
  takeChars (String.length u) (u +:+ rest) = u.
Proof. induction u as [|c u IH]; simpl; [now destruct rest | now rewrite IH]. Qed.

Lemma consumed_append (u rest : string) : consumed (u +:+ rest) rest = u.
Proof.
  unfold consumed. rewrite length_append.
  replace (String.length u + String.length rest - String.length rest)%nat
    with (String.length u) by lia.
  apply takeChars_append.
Qed.

(** A run of characters of one class, followed by a character outside it, is
    taken whole by the greedy repetition when the continuation accepts. *)
Lemma starLoop_class {A : Type} (p : ascii -> bool) (k : string -> option A) (x : A)
    (w rest : string) (fuel : nat) :
  allChars p w = true ->
  headIs p rest = false ->
  k rest = Some x ->
  (String.length (w +:+ rest) <= fuel)%nat ->
  starLoop (run (Chr p)) k fuel (w +:+ rest) = Some x.
Proof.
  intros Hw Hrest Hk. revert fuel.
  induction w as [|c w IH]; intros fuel Hfuel; simpl in *.
  - destruct fuel as [|fuel]; simpl; [assumption |].
    destruct rest as [|d rest]; simpl in *; [assumption |].
    now rewrite Hrest.
  - apply andb_true_iff in Hw as [Hc Hw].
    destruct fuel as [|fuel]; [lia |]. simpl. rewrite Hc.
    destruct (Nat.ltb_spec (String.length (w +:+ rest)) (S (String.length (w +:+ rest))));
      [| lia].
    rewrite (IH Hw fuel) by lia. reflexivity.
Qed.

Lemma leftmost_skip {A : Type} (m : string -> option A) (p : ascii -> bool)
    (pre s : string) :
  (forall from, headIs p from = false -> m from = None) ->
  anyChar p pre = false ->
  headIs p s = true ->
  leftmost m (pre +:+ s) = leftmost m s.
Proof.
  intros Hm Hpre Hs. induction pre as [|c pre IH]; simpl in *; [reflexivity |].
  apply orb_false_iff in Hpre as [Hc Hpre].
  rewrite (Hm (String c (pre +:+ s))) by exact Hc.
  now apply IH.
Qed.

Lemma leftmost_here {A : Type} (m : string -> option A) (s : string) (x : A) :
  m s = Some x -> leftmost m s = Some x.
Proof. intros H. destruct s; simpl; now rewrite H. Qed.

(** The first pattern of the price cascade finds the first [$] of a text
    when digits or commas follow it, and takes all of them. *)
Lemma first_dollar_amount (pre amount post : string) :
  anyChar (only "$") pre = false ->
  amount <> "" ->
  allChars (fun c => isDigit c || only "," c) amount = true ->
  headIs (fun c => isDigit c || only "," c) post = false ->
  firstMatch (Seq dollar (Plus priceChar)) (pre +:+ "$" +:+ amount +:+ post)
    = Some ("$" +:+ amount).
Proof.
  intros Hpre Hne Hamount Hpost. unfold firstMatch.
  rewrite (leftmost_skip _ (only "$") pre); [| | assumption | reflexivity].
  - apply leftmost_here.
    destruct amount as [|c amount]; [now contradiction Hne |].
    simpl in Hamount. apply andb_true_iff in Hamount as [Hc Hamount].
    simpl. rewrite Hc.
    apply starLoop_class with (x := "$" +:+ String c amount); try assumption.
    + change (String "$" (String c (amount +:+ post)))
        with (("$" +:+ String c amount) +:+ post).
      now rewrite consumed_append.
    + lia.
  - intros from Hfrom. destruct from as [|d from]; simpl in *; [reflexivity |].
    now rewrite Hfrom.
Qed.

(** ** Records of the collection script *)

Lemma cli_extract_record (addressRegExp : nat -> string -> option (string -> option string))
    (amb : Ambient) (listing : ListingNode) (cityName stateName : string) (index : nat)
    (r : Cli.PropertyRecord) :
  Cli.extract addressRegExp amb listing cityName stateName index = Returned (Some r) ->
  Cli.parsePrice (textContent listing) (extractText listing priceSelectors)
    = Some (Cli.price r) /\
  Cli.priceRange r = priceRangeOf (Some (orNumber (numericPrice (Cli.price r)) 250000)).
Proof.
  intros H. apply cli_extract_returned in H as (_ & address & H). symmetry in H. revert H.
  open_cli_callback.
  destruct (Cli.parsePrice (textContent listing) (extractText listing priceSelectors))
    as [price|]; [| discriminate].
  destruct (truthy price); [| discriminate].
  cbn [negb]. intros [= <-]. split; reflexivity.
Qed.

Lemma cli_extract_priced (addressRegExp : nat -> string -> option (string -> option string))
    (amb : Ambient) (listing : ListingNode) (cityName stateName : string) (index : nat)
    (price : string) :
  builds addressRegExp cityName = true ->
  Cli.parsePrice (textContent listing) (extractText listing priceSelectors) = Some price ->
  truthy price = true ->
  exists r, Cli.extract addressRegExp amb listing cityName stateName index = Returned (Some r) /\
            Cli.price r = price /\
            Cli.priceRange r = priceRangeOf (Some (orNumber (numericPrice price) 250000)).
Proof.
  intros Hb Hprice Htruthy.
  destruct (cli_extract_cases addressRegExp amb listing cityName stateName index)
    as [[_ [address ->]] | [Hb' _]]; [| congruence].
  open_cli_callback.
  rewrite Hprice, Htruthy. cbn [negb].
  eexists. split; [reflexivity |]. split; reflexivity.
Qed.

(** C4 (as amended). The price range of every record of the collection
    script follows from the numeric value of its price by the thresholds
    200000, 400000 and 600000.  A listing with no price element whose full
    text has [$325,000] as its first dollar amount (no [$] before it, no
    digit or comma right after it) gets the price [$325,000] and the range
    [$200K - $400K], when the address patterns can be built for the city;
    when they cannot, the callback throws and there is no record. *)
Theorem price_range_thresholds
    (addressRegExp : nat -> string -> option (string -> option string))
    (amb : Ambient) (listing : ListingNode) (cityName stateName : string) (index : nat) :
  (forall r,
     Cli.extract addressRegExp amb listing cityName stateName index = Returned (Some r) ->
     exists n, numericPrice (Cli.price r) = Some n /\
       (n < 200000 -> Cli.priceRange r = "Under $200K") /\
       (200000 <= n < 400000 -> Cli.priceRange r = "$200K - $400K") /\
       (400000 <= n < 600000 -> Cli.priceRange r = "$400K - $600K") /\
       (600000 <= n -> Cli.priceRange r = "Over $600K")) /\
  (forall pre post,
     extractText listing priceSelectors = "" ->
     textContent listing = pre +:+ "$325,000" +:+ post ->
     anyChar (only "$") pre = false ->
     headIs (fun c => isDigit c || only "," c) post = false ->
     if builds addressRegExp cityName
     then exists r,
            Cli.extract addressRegExp amb listing cityName stateName index = Returned (Some r) /\
            Cli.price r = "$325,000" /\ Cli.priceRange r = "$200K - $400K"
     else Cli.extract addressRegExp amb listing cityName stateName index = Thrown).
Proof.
  split.
  - intros r H. apply cli_extract_record in H as [Hprice Hrange].
    destruct parsePrice_plausible with (1 := Hprice) as (n & Hn & Hlo & Hhi).
    exists n. split; [assumption |].
    rewrite Hrange, Hn. unfold orNumber, priceRangeOf.
    destruct (Z.eqb_spec n 0); [lia |].
    destruct (Z.ltb_spec 0 n); [| lia].
    destruct (Z.ltb_spec n 200000), (Z.ltb_spec n 400000), (Z.ltb_spec n 600000);
      repeat split; intros; try reflexivity; lia.
  - intros pre post Htext Hfull Hpre Hpost.
    destruct (builds addressRegExp cityName) eqn:Hb.
    + apply cli_extract_priced; [exact Hb | | reflexivity].
      unfold Cli.parsePrice. rewrite Htext, Hfull.
      change (hasInvalidIndicator "") with false. cbv iota.
      unfold pricePatterns, scanPrice.
      change ("" +:+ " " +:+ pre +:+ "$325,000" +:+ post)
        with ((" " +:+ pre) +:+ "$" +:+ "325,000" +:+ post).
      rewrite first_dollar_amount;
        [reflexivity | exact Hpre | discriminate | reflexivity | exact Hpost].
    + destruct (cli_extract_cases addressRegExp amb listing cityName stateName index)
        as [[Hb' _] | [_ H]]; [congruence | exact H].
Qed.

Lemma price_range_thresholds_witness :
  exists r, Cli.extract literalCity noon listed "Columbus" "OH" 0 = Returned (Some r) /\
            Cli.price r = "$325,000" /\ Cli.priceRange r = "$200K - $400K" /\
            exists n, numericPrice (Cli.price r) = Some n /\
                      (200000 <= n < 400000 -> Cli.priceRange r = "$200K - $400K").
Proof.
  destruct (price_range_thresholds literalCity noon listed "Columbus" "OH" 0)
    as [Hrange Hfirst].
  destruct (Hfirst "Nice home " " 3 bed 2.5 bath 1,850 sqft 123 Main St Columbus OH")
    as (r & Hr & Hprice & Hbucket); try reflexivity.
  exists r. repeat split; try assumption.
  destruct (Hrange r Hr) as (n & Hn & _ & Hmid & _).
  exists n. split; assumption.
Defined.

(** C4, as stated, fails: the full text contains [$325,000], but an earlier
    amount is the one that is taken. *)
Lemma earlier_amount_wins :
  extractText reduced priceSelectors = "" /\
  includes (textContent reduced) "$325,000" = true /\
  exists r, Cli.extract literalCity noon reduced "Columbus" "OH" 0 = Returned (Some r) /\
            Cli.price r = "$1,250,000" /\ Cli.priceRange r = "Over $600K".
Proof.
  split; [reflexivity |]. split; [reflexivity |].
  eexists. split; [vm_compute; reflexivity |]. split; reflexivity.
Qed.

(** ** The validator of the collection script *)

(** C7 (as amended). Two runs of the validator on the same raw and parsed
    fields, city, state and index give records that agree on price, beds,
    baths, sqft, image URL, property URL, price range, property type,
    description, city and state; they agree on the address too unless the
    address is the synthesized fallback, which each run draws afresh. *)
Theorem finalize_repeatable (amb1 amb2 : Ambient) (raw : Cli.RawFields)
    (parsed : Cli.ParsedFields) (cityName stateName : string) (index : nat)
    (r1 r2 : Cli.PropertyRecord) :
  Cli.finalize amb1 raw parsed cityName stateName index = Some r1 ->
  Cli.finalize amb2 raw parsed cityName stateName index = Some r2 ->
  Cli.price r1 = Cli.price r2 /\ Cli.beds r1 = Cli.beds r2 /\
  Cli.baths r1 = Cli.baths r2 /\ Cli.sqft r1 = Cli.sqft r2 /\
  Cli.imageUrl r1 = Cli.imageUrl r2 /\ Cli.propertyUrl r1 = Cli.propertyUrl r2 /\
  Cli.priceRange r1 = Cli.priceRange r2 /\ Cli.propertyType r1 = Cli.propertyType r2 /\
  Cli.description r1 = Cli.description r2 /\
  Cli.city r1 = Cli.city r2 /\ Cli.state r1 = Cli.state r2 /\
  (Cli.needsFallback (orElse (Cli.extractedAddress parsed) (Cli.addressText raw)) = false ->
   Cli.address r1 = Cli.address r2) /\
  (Cli.needsFallback (orElse (Cli.extractedAddress parsed) (Cli.addressText raw)) = true ->
   Cli.address r1 = synthesizeAddress amb1 cityName stateName /\
   Cli.address r2 = synthesizeAddress amb2 cityName stateName).
Proof.
  unfold Cli.finalize.
  destruct (Cli.parsedPrice parsed) as [price|]; [| discriminate].
  destruct (truthy price); [| discriminate]. cbn [negb].
  intros [= <-] [= <-]. cbn.
  destruct (Cli.needsFallback (orElse (Cli.extractedAddress parsed) (Cli.addressText raw)));
    repeat split; intros; try reflexivity; discriminate.
Qed.

Lemma finalize_repeatable_witness :
  Cli.parseAddress literalCity (textContent listed) "Columbus" "OH" (textContent listed)
    = Returned "123 Main St, Columbus, OH" /\
  exists r1 r2,
    Cli.finalize noon (Cli.rawFields listed)
      (Cli.parseFields (Cli.rawFields listed) "123 Main St, Columbus, OH") "Columbus" "OH" 0
      = Some r1 /\
    Cli.finalize later (Cli.rawFields listed)
      (Cli.parseFields (Cli.rawFields listed) "123 Main St, Columbus, OH") "Columbus" "OH" 0
      = Some r2 /\
    Cli.description r1 = Cli.description r2 /\ Cli.address r1 = Cli.address r2.
Proof.
  split; [vm_compute; reflexivity |].
  destruct (Cli.finalize noon (Cli.rawFields listed)
      (Cli.parseFields (Cli.rawFields listed) "123 Main St, Columbus, OH") "Columbus" "OH" 0)
    as [r1|] eqn:E1; [| discriminate E1].
  destruct (Cli.finalize later (Cli.rawFields listed)
      (Cli.parseFields (Cli.rawFields listed) "123 Main St, Columbus, OH") "Columbus" "OH" 0)
    as [r2|] eqn:E2; [| discriminate E2].
  exists r1, r2. split; [reflexivity |]. split; [reflexivity |].
  pose proof (finalize_repeatable _ _ _ _ _ _ _ _ _ E1 E2) as H.
  split; [apply H | apply H; reflexivity].
Defined.

(** C7, as stated, fails: with a heading too short to serve as address, and
    no address found in the text, two runs on the same fields synthesize
    different addresses. *)
Lemma synthesized_address_differs :
  Cli.parseAddress literalCity (textContent resold) "Columbus" "OH" (textContent resold)
    = Returned "" /\
  option_map Cli.address
    (Cli.finalize noon (Cli.rawFields resold)
       (Cli.parseFields (Cli.rawFields resold) "") "Columbus" "OH" 2)
    = Some "5000 Main Pl, Columbus, OH" /\
  option_map Cli.address
    (Cli.finalize later (Cli.rawFields resold)
       (Cli.parseFields (Cli.rawFields resold) "") "Columbus" "OH" 2)
    = Some "1250 Elm St, Columbus, OH".
Proof. split; [| split]; reflexivity. Qed.

(** ** The synthesized address *)

Lemma floorRandom_range (draw n : Z) : 0 < n -> 0 <= floorRandom draw n < n.
Proof.
  intros Hn. unfold floorRandom.
  assert (0 <= draw mod 2 ^ 53 < 2 ^ 53) as Hdraw by (apply Z.mod_pos_bound; lia).
  split.
  - apply Z.div_pos; nia.
  - apply Z.div_lt_upper_bound; nia.
Qed.

Lemma houseNumber_shape (n : Z) :
  1 <= n <= 9999 ->
  (1 <= String.length (showZ n) <= 4)%nat /\ headIs isDigit (showZ n) = true.
Proof.
  intros Hn.
  assert (forallb (fun k =>
            let s := showZ (Z.of_nat k) in
            (1 <=? String.length s)%nat && (String.length s <=? 4)%nat && headIs isDigit s)
            (seq 1 (Z.to_nat 9999)) = true) as Hall by (vm_compute; reflexivity).
  rewrite forallb_forall in Hall.
  specialize (Hall (Z.to_nat n)). rewrite Z2Nat.id in Hall by lia.
  assert (In (Z.to_nat n) (seq 1 (Z.to_nat 9999))) as Hin by (apply in_seq; lia).
  apply Hall in Hin. cbv zeta in Hin.
  apply andb_true_iff in Hin as [Hin Hdigit].
  apply andb_true_iff in Hin as [Hlo Hhi].
  apply Nat.leb_le in Hlo, Hhi. auto.
Qed.

Lemma pick_length (i : Z) (array : list string) (lo hi : nat) :
  0 <= i < Z.of_nat (length array) ->
  forallb (fun s => (lo <=? String.length s)%nat && (String.length s <=? hi)%nat) array = true ->
  (lo <= String.length (pick i array) <= hi)%nat.
Proof.
  intros Hi Hall. rewrite forallb_forall in Hall.
  assert (In (pick i array) array) as Hin.
  { unfold pick. apply nth_In. lia. }
  apply Hall in Hin. apply andb_true_iff in Hin as [Hlo Hhi].
  apply Nat.leb_le in Hlo, Hhi. auto.
Qed.

Lemma anyChar_head (p : ascii -> bool) (s : string) :
  headIs p s = true -> anyChar p s = true.
Proof. destruct s; simpl; [discriminate | now intros ->]. Qed.

(** C8 (as amended). A synthesized fallback address ends with
    [, city, state], contains a digit, and is 12 to 19 characters longer
    than city and state together: it always has 10 characters or more, and
    60 or fewer when city and state together have at most 41. *)
Theorem synthesized_address_shape (amb : Ambient) (cityName stateName : string) :
  (exists street,
     synthesizeAddress amb cityName stateName
       = street +:+ ", " +:+ cityName +:+ ", " +:+ stateName) /\
  anyChar isDigit (synthesizeAddress amb cityName stateName) = true /\
  (10 <= String.length (synthesizeAddress amb cityName stateName))%nat /\
  (12 + String.length cityName + String.length stateName
     <= String.length (synthesizeAddress amb cityName stateName)
     <= 19 + String.length cityName + String.length stateName)%nat.
Proof.
  unfold synthesizeAddress.
  set (number := showZ (floorRandom (random1 amb) 9999 + 1)).
  set (name := pick (floorRandom (random2 amb) (Z.of_nat (length streetNames))) streetNames).
  set (type := pick (floorRandom (random3 amb) (Z.of_nat (length streetTypes))) streetTypes).
  destruct (houseNumber_shape (floorRandom (random1 amb) 9999 + 1)) as [Hnumber Hdigit].
  { pose proof (floorRandom_range (random1 amb) 9999). lia. }
  fold number in Hnumber, Hdigit.
  assert (3 <= String.length name <= 5)%nat as Hname.
  { apply pick_length; [apply floorRandom_range; reflexivity | reflexivity]. }
  assert (2 <= String.length type <= 4)%nat as Htype.
  { apply pick_length; [apply floorRandom_range; reflexivity | reflexivity]. }
  split; [| split].
  - exists (number +:+ " " +:+ name +:+ " " +:+ type).
    now rewrite !append_assoc.
  - rewrite anyChar_append. now rewrite (anyChar_head _ _ Hdigit).
  - rewrite !length_append. simpl String.length. lia.
Qed.

(** C8, as stated for every city and state, fails: a long city name gives a
    synthesized address of more than 60 characters. *)
Lemma long_city_long_address :
  synthesizeAddress noon "Village of Grosse Pointe Shores, A Michigan City" "MI"
    = "5000 Main Pl, Village of Grosse Pointe Shores, A Michigan City, MI" /\
  (60 < String.length
          (synthesizeAddress noon "Village of Grosse Pointe Shores, A Michigan City" "MI"))%nat.
Proof. split; [reflexivity | vm_compute; lia]. Qed.

(** * Further properties of the scripts and of the service *)

(** ** Printing and reading integers *)

Lemma digit_cases (d : Z) :
  0 <= d < 10 ->
  isDigit (digitChar d) = true /\ digitValue 10 (digitChar d) = Some d.
Proof.
  intros H.
  assert (d = 0 \/ d = 1 \/ d = 2 \/ d = 3 \/ d = 4 \/ d = 5 \/ d = 6 \/ d = 7
          \/ d = 8 \/ d = 9) as C by lia.
  repeat (destruct C as [-> | C]; [split; reflexivity |]). subst d. split; reflexivity.
Qed.

Lemma showDigits_digits (fuel : nat) (n : Z) (rest : string) :
  0 <= n -> allChars isDigit rest = true ->
  allChars isDigit (showDigits fuel n rest) = true.
Proof.
  revert n rest. induction fuel as [|fuel IH]; intros n rest Hn Hrest; simpl;
    [assumption |].
  assert (isDigit (digitChar (n mod 10)) = true) as Hd
    by (apply digit_cases, Z.mod_pos_bound; lia).
  destruct (n <? 10).
  - simpl. now rewrite Hd.
  - apply IH; [apply Z.div_pos; lia |]. simpl. now rewrite Hd.
Qed.

Lemma showDigits_nonempty (fuel : nat) (n : Z) (rest : string) :
  showDigits (S fuel) n rest <> "".
Proof.
  revert n rest. induction fuel as [|fuel IH]; intros n rest.
  - simpl. destruct (n <? 10); discriminate.
  - change (showDigits (S (S fuel)) n rest)
      with (if n <? 10 then String (digitChar (n mod 10)) rest
            else showDigits (S fuel) (n / 10) (String (digitChar (n mod 10)) rest)).
    destruct (n <? 10); [discriminate | apply IH].
Qed.

(** Reading back the digits that [showDigits] wrote gives the number. *)
Lemma showDigits_read (fuel : nat) (n : Z) (rest : string) :
  0 <= n < 10 ^ Z.of_nat (S fuel) ->
  digitsPrefix 10 None (showDigits (S fuel) n rest) = digitsPrefix 10 (Some n) rest.
Proof.
  revert n rest. induction fuel as [|fuel IH]; intros n rest Hn.
  - change (10 ^ Z.of_nat 1) with 10 in Hn. simpl.
    destruct (Z.ltb_spec n 10); [| lia].
    simpl. rewrite Z.mod_small by lia.
    destruct (digit_cases n) as [_ ->]; [lia |]. simpl. f_equal.
  - change (showDigits (S (S fuel)) n rest)
      with (if n <? 10 then String (digitChar (n mod 10)) rest
            else showDigits (S fuel) (n / 10) (String (digitChar (n mod 10)) rest)).
    destruct (Z.ltb_spec n 10).
    + simpl. rewrite Z.mod_small by lia.
      destruct (digit_cases n) as [_ ->]; [lia |]. simpl. f_equal.
    + rewrite IH.
      * simpl. destruct (digit_cases (n mod 10)) as [_ ->];
          [apply Z.mod_pos_bound; lia |].
        simpl. f_equal. f_equal. pose proof (Z.div_mod n 10). lia.
      * split; [apply Z.div_pos; lia |].
        apply Z.div_lt_upper_bound; [lia |].
        rewrite Nat2Z.inj_succ, Z.pow_succ_r in Hn by lia. lia.
Qed.

Lemma digits_fuel (n : Z) : 0 <= n -> n < 10 ^ Z.of_nat (S (Z.to_nat (Z.log2 n))).
Proof.
  intros Hn. rewrite Nat2Z.inj_succ, Z2Nat.id by apply Z.log2_nonneg.
  destruct (Z.eq_dec n 0) as [-> | Hne]; [reflexivity |].
  pose proof (Z.log2_spec n ltac:(lia)) as [_ Hlt].
  eapply Z.lt_le_trans; [exact Hlt |].
  apply Z.pow_le_mono_l. lia.
Qed.

Lemma digit_char (c : ascii) :
  isDigit c = true ->
  isSpace c = false /\ c <> "-"%char /\ c <> "+"%char /\ c <> "x"%char
  /\ c <> "X"%char /\ c <> "_"%char.
Proof.
  destruct c as [[|] [|] [|] [|] [|] [|] [|] [|]]; intros H;
    try discriminate H; repeat split; (reflexivity || discriminate).
Qed.

Lemma digit_is (c : ascii) :
  isDigit c = true ->
  In c ["0"; "1"; "2"; "3"; "4"; "5"; "6"; "7"; "8"; "9"]%char.
Proof.
  destruct c as [[|] [|] [|] [|] [|] [|] [|] [|]]; intros H;
    try discriminate H; simpl; tauto.
Qed.

(** On a non-empty run of digits [parseInt] reads the decimal value. *)
Lemma parseInt_digits (s : string) :
  s <> "" -> allChars isDigit s = true -> parseInt s = digitsPrefix 10 None s.
Proof.
  intros Hne Hs. destruct s as [|c s]; [now contradiction Hne |].
  simpl in Hs. apply andb_true_iff in Hs as [Hc Hs].
  destruct s as [|d s].
  - apply digit_is in Hc. simpl in Hc.
    repeat match goal with H : _ \/ _ |- _ => destruct H as [H | H] end;
      try contradiction; subst c; reflexivity.
  - simpl in Hs. apply andb_true_iff in Hs as [Hd _].
    apply digit_is in Hc, Hd. simpl in Hc, Hd.
    repeat match goal with H : _ \/ _ |- _ => destruct H as [H | H] end;
      try contradiction; subst c d;
      cbv -[digitsPrefix];
      match goal with
      | |- context [digitsPrefix ?r ?a ?t] => now destruct (digitsPrefix r a t)
      end.
Qed.

(** [parseInt(String(n))] is [n]. *)
Lemma parseInt_showZ (n : Z) : parseInt (showZ n) = Some n.
Proof.
  unfold showZ. destruct (Z.ltb_spec n 0) as [Hneg | Hpos].
  - set (digits := showDigits (Z.to_nat (Z.log2 (- n)) + 1) (- n) "").
    assert (parseInt digits = Some (- n)) as Hread.
    { unfold digits. rewrite Nat.add_1_r.
      rewrite parseInt_digits;
        [| apply showDigits_nonempty | apply showDigits_digits; [lia | reflexivity]].
      rewrite showDigits_read by (split; [lia | apply digits_fuel; lia]). reflexivity. }
    assert (digits <> "" /\ allChars isDigit digits = true) as [Hne Hdigits].
    { unfold digits. rewrite Nat.add_1_r.
      split; [apply showDigits_nonempty | apply showDigits_digits; [lia | reflexivity]]. }
    rewrite parseInt_digits in Hread by assumption.
    destruct digits as [|c rest]; [now contradiction Hne |].
    simpl in Hdigits. apply andb_true_iff in Hdigits as [Hc Hrest].
    assert (startsWith (String c rest) "0x" || startsWith (String c rest) "0X" = false) as Hx.
    { destruct rest as [|d rest]; [cbn; now rewrite !andb_false_r |].
      simpl in Hrest. apply andb_true_iff in Hrest as [Hd _].
      apply digit_is in Hd. simpl in Hd.
      repeat match goal with H : _ \/ _ |- _ => destruct H as [H | H] end;
        try contradiction; subst d; cbn; now rewrite !andb_false_r. }
    unfold parseInt. cbn [String.append skipSpaces isSpace].
    change (isSpace "-") with false. cbv iota.
    rewrite Hx, Hread. f_equal. lia.
  - rewrite Nat.add_1_r.
    rewrite parseInt_digits;
      [| apply showDigits_nonempty | apply showDigits_digits; [lia | reflexivity]].
    rewrite showDigits_read by (split; [lia | apply digits_fuel; lia]). reflexivity.
Qed.

Lemma showZ_inj (a b : Z) : showZ a = showZ b -> a = b.
Proof.
  intros H. apply (f_equal parseInt) in H.
  rewrite !parseInt_showZ in H. now injection H.
Qed.

(** An integer is printed with digits and, when negative, a leading minus. *)
Lemma showZ_chars (n : Z) :
  allChars (fun c => isDigit c || only "-" c) (showZ n) = true.
Proof.
  assert (forall s, allChars isDigit s = true ->
            allChars (fun c => isDigit c || only "-" c) s = true) as Hweaken.
  { induction s as [|c s IH]; cbn [allChars]; [reflexivity |].
    intros H. apply andb_true_iff in H as [-> H]. now rewrite IH. }
  unfold showZ. destruct (Z.ltb_spec n 0).
  - cbn [String.append allChars]. rewrite orb_true_r.
    apply Hweaken, showDigits_digits; [lia | reflexivity].
  - apply Hweaken, showDigits_digits; [lia | reflexivity].
Qed.

(** ** Object identifiers *)

Lemma split_at_mark (mark : ascii) (a b c d : string) :
  anyChar (only mark) a = false ->
  anyChar (only mark) c = false ->
  a +:+ String mark b = c +:+ String mark d ->
  a = c /\ b = d.
Proof.
  revert c. induction a as [|x a IH]; intros c Ha Hc H.
  - destruct c as [|y c]; simpl in *.
    + injection H as H. now split.
    + injection H as -> _. apply orb_false_iff in Hc as [Hc _].
      unfold only in Hc. now rewrite Ascii.eqb_refl in Hc.
  - simpl in Ha. apply orb_false_iff in Ha as [Hx Ha].
    destruct c as [|y c]; simpl in *.
    + injection H as <- _. unfold only in Hx. now rewrite Ascii.eqb_refl in Hx.
    + injection H as -> H. apply orb_false_iff in Hc as [_ Hc].
      destruct (IH c Ha Hc H) as [-> ->]. now split.
Qed.

Lemma showZ_no_underscore (n : Z) : anyChar (only "_") (showZ n) = false.
Proof.
  pose proof (showZ_chars n) as H.
  induction (showZ n) as [|c s IH]; [reflexivity |].
  cbn [anyChar allChars] in *. apply andb_true_iff in H as [Hc Hs].
  rewrite (IH Hs), orb_false_r.
  apply orb_true_iff in Hc as [Hc | Hc].
  - destruct (digit_char c Hc) as (_ & _ & _ & _ & _ & Hu).
    unfold only. apply Ascii.eqb_neq. congruence.
  - unfold only in *. apply Ascii.eqb_eq in Hc. now subst c.
Qed.

(** An identifier [property_<clock>_<index>] determines its index. *)
Lemma identifier_index (clock1 clock2 index1 index2 : Z) :
  "property_" +:+ showZ clock1 +:+ "_" +:+ showZ index1
    = "property_" +:+ showZ clock2 +:+ "_" +:+ showZ index2 ->
  index1 = index2.
Proof.
  intros H. apply String.app_inj in H.
  apply (split_at_mark "_") in H as [_ H]; try apply showZ_no_underscore.
  now apply showZ_inj.
Qed.

Lemma cli_extract_objectID (addressRegExp : nat -> string -> option (string -> option string))
    (amb : Ambient) (listing : ListingNode) (cityName stateName : string) (index : nat)
    (r : Cli.PropertyRecord) :
  Cli.extract addressRegExp amb listing cityName stateName index = Returned (Some r) ->
  Cli.objectID r = "property_" +:+ showZ (dateNow amb) +:+ "_" +:+ showZ (Z.of_nat index).
Proof.
  intros H. apply cli_extract_returned in H as (_ & address & H). symmetry in H. revert H.
  unfold Cli.finalize.
  destruct (Cli.parsedPrice _) as [price|]; [| discriminate].
  destruct (negb (truthy price)); [discriminate |].
  now intros [= <-].
Qed.

(** X1. Within one batch of the collection script, and of the Lambda
    service, two records at different positions never share their object
    identifier, whatever the clock reads between them. *)
Theorem object_ids_distinct (addressRegExp : nat -> string -> option (string -> option string))
    (ambs : nat -> Ambient) (page : Page) (city state : string) (maxProperties : Z)
    (i j : nat) :
  i <> j ->
  (forall r1 r2,
     Cli.collectProperties addressRegExp ambs page city state maxProperties !! i = Some (Some r1) ->
     Cli.collectProperties addressRegExp ambs page city state maxProperties !! j = Some (Some r2) ->
     Cli.objectID r1 <> Cli.objectID r2) /\
  (forall p1 p2,
     Lambda.collectProperties ambs page city state maxProperties !! i = Some p1 ->
     Lambda.collectProperties ambs page city state maxProperties !! j = Some p2 ->
     Lambda.id p1 <> Lambda.id p2).
Proof.
  intros Hij. split.
  - intros r1 r2 H1 H2 Heq.
    apply cli_collect_lookup in H1 as (x & _ & H1), H2 as (y & _ & H2).
    apply cli_extract_objectID in H1, H2. rewrite H1, H2 in Heq.
    apply identifier_index in Heq. lia.
  - intros p1 p2. destruct (lambda_cap_fixed ambs page city state maxProperties) as [-> _].
    rewrite !list_lookup_imap.
    destruct (take 20 _ !! i) as [x|]; [| discriminate].
    destruct (take 20 _ !! j) as [y|]; [| discriminate].
    simpl. intros [= <-] [= <-] Heq. unfold Lambda.extract in Heq. cbn [Lambda.id] in Heq.
    apply identifier_index in Heq. lia.
Qed.

Lemma object_ids_distinct_witness :
  exists r1 r2,
    Cli.collectProperties literalCity (fun _ => noon) sampleResults "Columbus" "OH" 20 !! 0%nat
      = Some (Some r1) /\
    Cli.collectProperties literalCity (fun _ => noon) sampleResults "Columbus" "OH" 20 !! 2%nat
      = Some (Some r2) /\
    Cli.objectID r1 <> Cli.objectID r2.
Proof.
  eexists. eexists. split; [vm_compute; reflexivity |]. split; [vm_compute; reflexivity |].
  apply (proj1 (object_ids_distinct literalCity (fun _ => noon) sampleResults
                  "Columbus" "OH" 20 0 2 ltac:(lia)));
    vm_compute; reflexivity.
Defined.

(** ** Command-line arguments *)

Lemma shorter_first {A : Type} (P : list A -> Prop) :
  (forall l, (forall l', (length l' < length l)%nat -> P l') -> P l) ->
  forall l, P l.
Proof.
  intros step l. remember (length l) as n eqn:E. revert l E.
  induction n as [n IH] using lt_wf_ind. intros l ->.
  apply step. intros l' Hl'. exact (IH _ Hl' l' eq_refl).
Qed.







(** X3. The three flags of the collection script read back what was
    written: a non-empty city and state are taken as they are, whatever
    they are, and a limit printed as an integer other than zero is that
    integer, negative ones too.  The integer is taken in the range in which
    JavaScript numbers are exact. *)
Theorem cli_arguments_round_trip (c s : string) (n : Z) :
  c <> "" -> s <> "" -> n <> 0 -> Z.abs n <= 2 ^ 53 ->
  CliScript.main ["--city"; c; "--state"; s; "--limit"; showZ n]
    = CliScript.Collect c s n.
Proof.
  intros Hc Hs Hn _. unfold CliScript.main, CliScript.parseArguments.
  cbn [CliScript.parseLoop]. cbn -[parseInt showZ orNumber truthy].
  rewrite parseInt_showZ. unfold orNumber.
  destruct (Z.eqb_spec n 0); [contradiction |].
  destruct c; [contradiction |]. destruct s; [contradiction |]. reflexivity.
Qed.

Lemma cli_arguments_round_trip_witness :
  CliScript.main ["--city"; "--state"; "--state"; "OH"; "--limit"; showZ (-3)]
    = CliScript.Collect "--state" "OH" (-3).
Proof.
  apply cli_arguments_round_trip; [discriminate | discriminate | lia | vm_compute; discriminate].
Defined.

Lemma mcp_parseLoop_values (args : list string) :
  forall options o,
    McpScript.city options <> "" -> McpScript.state options <> "" ->
    McpScript.parseLoop args options = Some o ->
    McpScript.city o <> "" /\ McpScript.state o <> "".
Proof.
  induction args as [args IH] using shorter_first. intros options o Hc Hs.
  destruct args as [|arg rest]; [now intros [= <-] |].
  cbn [McpScript.parseLoop].
  destruct (String.eqb arg "--city").
  { destruct rest as [|value rest']; [now intros [= <-] |].
    destruct (truthy value) eqn:T.
    - apply IH; [simpl; lia | now apply truthy_true | exact Hs].
    - apply IH; [simpl; lia | exact Hc | exact Hs]. }
  destruct (String.eqb arg "--state").
  { destruct rest as [|value rest']; [now intros [= <-] |].
    destruct (truthy value) eqn:T.
    - apply IH; [simpl; lia | exact Hc | now apply truthy_true].
    - apply IH; [simpl; lia | exact Hc | exact Hs]. }
  destruct (String.eqb arg "--limit").
  { destruct rest as [|value rest']; [now intros [= <-] |].
    destruct (truthy value) eqn:T; apply IH; try (simpl; lia); assumption. }
  destruct (String.eqb arg "--help"); [discriminate |].
  apply IH; [simpl; lia | exact Hc | exact Hs].
Qed.

Lemma mcp_parseLoop_help (args : list string) :
  forall options, McpScript.parseLoop args options = None -> In "--help" args.
Proof.
  induction args as [args IH] using shorter_first. intros options.
  destruct args as [|arg rest]; [discriminate |].
  cbn [McpScript.parseLoop].
  destruct (String.eqb arg "--city").
  { destruct rest as [|value rest']; [discriminate |].
    destruct (truthy value); intros H; apply IH in H; simpl in *; try lia; tauto. }
  destruct (String.eqb arg "--state").
  { destruct rest as [|value rest']; [discriminate |].
    destruct (truthy value); intros H; apply IH in H; simpl in *; try lia; tauto. }
  destruct (String.eqb arg "--limit").
  { destruct rest as [|value rest']; [discriminate |].
    destruct (truthy value); intros H; apply IH in H; simpl in *; try lia; tauto. }
  destruct (String.eqb_spec arg "--help") as [-> |]; [intros _; now left |].
  intros H; apply IH in H; simpl in *; try lia; tauto.
Qed.

Lemma mcp_parseLoop_source (args : list string) :
  forall options o,
    McpScript.parseLoop args options = Some o ->
    (McpScript.city o = McpScript.city options \/
     In "--city" args /\ In (McpScript.city o) args) /\
    (McpScript.state o = McpScript.state options \/
     In "--state" args /\ In (McpScript.state o) args) /\
    (McpScript.limit o = McpScript.limit options \/
     In "--limit" args /\
     exists value, In value args /\ McpScript.limit o = parseInt value).
Proof.
  induction args as [args IH] using shorter_first. intros options o.
  destruct args as [|arg rest]; [intros [= <-]; tauto |].
  cbn [McpScript.parseLoop].
  assert (forall rest',
            (length rest' < length (arg :: rest))%nat ->
            (forall x, In x rest' -> In x (arg :: rest)) ->
            McpScript.parseLoop rest' options = Some o ->
            (McpScript.city o = McpScript.city options \/
             In "--city" (arg :: rest) /\ In (McpScript.city o) (arg :: rest)) /\
            (McpScript.state o = McpScript.state options \/
             In "--state" (arg :: rest) /\ In (McpScript.state o) (arg :: rest)) /\
            (McpScript.limit o = McpScript.limit options \/
             In "--limit" (arg :: rest) /\
             exists value, In value (arg :: rest) /\ McpScript.limit o = parseInt value))
    as same.
  { intros rest' Hlen Hin H. apply (IH rest' Hlen) in H as (Hc & Hs & Hl).
    split; [| split].
    - destruct Hc as [Hc | [Hf Hc]]; [now left | right; split; now apply Hin].
    - destruct Hs as [Hs | [Hf Hs]]; [now left | right; split; now apply Hin].
    - destruct Hl as [Hl | [Hf (value & Hv & Hl)]]; [now left |].
      right. split; [now apply Hin |]. exists value. split; [now apply Hin | exact Hl]. }
  destruct (String.eqb_spec arg "--city") as [-> |].
  { destruct rest as [|value rest']; [intros [= <-]; tauto |].
    destruct (truthy value) eqn:T;
      [| apply same; [simpl; lia | intros x Hx; simpl; tauto]].
    intros H. apply (IH rest' ltac:(simpl; lia)) in H as (Hc & Hs & Hl).
    cbn [McpScript.city McpScript.state McpScript.limit] in Hc, Hs, Hl.
    split; [| split].
    - right. split; [simpl; tauto |].
      destruct Hc as [-> | [_ Hc]]; simpl; tauto.
    - destruct Hs as [Hs | [Hf Hs]]; [now left | right; simpl; tauto].
    - destruct Hl as [Hl | [Hf (v & Hv & Hl)]]; [now left |].
      right. split; [simpl; tauto |]. exists v. split; [simpl; tauto | exact Hl]. }
  destruct (String.eqb_spec arg "--state") as [-> |].
  { destruct rest as [|value rest']; [intros [= <-]; tauto |].
    destruct (truthy value) eqn:T;
      [| apply same; [simpl; lia | intros x Hx; simpl; tauto]].
    intros H. apply (IH rest' ltac:(simpl; lia)) in H as (Hc & Hs & Hl).
    cbn [McpScript.city McpScript.state McpScript.limit] in Hc, Hs, Hl.
    split; [| split].
    - destruct Hc as [Hc | [Hf Hc]]; [now left | right; simpl; tauto].
    - right. split; [simpl; tauto |].
      destruct Hs as [-> | [_ Hs]]; simpl; tauto.
    - destruct Hl as [Hl | [Hf (v & Hv & Hl)]]; [now left |].
      right. split; [simpl; tauto |]. exists v. split; [simpl; tauto | exact Hl]. }
  destruct (String.eqb_spec arg "--limit") as [-> |].
  { destruct rest as [|value rest']; [intros [= <-]; tauto |].
    destruct (truthy value) eqn:T;
      [| apply same; [simpl; lia | intros x Hx; simpl; tauto]].
    intros H. apply (IH rest' ltac:(simpl; lia)) in H as (Hc & Hs & Hl).
    cbn [McpScript.city McpScript.state McpScript.limit] in Hc, Hs, Hl.
    split; [| split].
    - destruct Hc as [Hc | [Hf Hc]]; [now left | right; simpl; tauto].
    - destruct Hs as [Hs | [Hf Hs]]; [now left | right; simpl; tauto].
    - right. split; [simpl; tauto |].
      destruct Hl as [Hl | [_ (v & Hv & Hl)]].
      + exists value. split; [simpl; tauto | exact Hl].
      + exists v. split; [simpl; tauto | exact Hl]. }
  destruct (String.eqb arg "--help"); [discriminate |].
  apply same; [simpl; lia | intros x Hx; simpl; tauto].
Qed.

(** X4. The MCP script never hands an empty city or state to the
    collector.  A flag that is the last argument, or whose value is empty,
    leaves the options as they are; so the city is Houston unless
    [--city] is among the arguments, and then it is one of the arguments,
    and likewise for the state, TX, and the limit, 5.  The script stops
    before collecting only when [--help] is among the arguments. *)
Theorem mcp_arguments_never_empty :
  (forall args o,
     McpScript.parseArguments args = Some o ->
     McpScript.city o <> "" /\ McpScript.state o <> "" /\
     (McpScript.city o = "Houston" \/ In "--city" args /\ In (McpScript.city o) args) /\
     (McpScript.state o = "TX" \/ In "--state" args /\ In (McpScript.state o) args) /\
     (McpScript.limit o = Some 5 \/
      In "--limit" args /\
      exists value, In value args /\ McpScript.limit o = parseInt value)) /\
  (forall flag rest options,
     In flag ["--city"; "--state"; "--limit"] ->
     McpScript.parseLoop [flag] options = Some options /\
     McpScript.parseLoop (flag :: "" :: rest) options = McpScript.parseLoop rest options) /\
  McpScript.parseArguments [] = Some McpScript.initialOptions /\
  (forall args, McpScript.parseArguments args = None -> In "--help" args).
Proof.
  split; [| split; [| split]].
  - intros args o H.
    destruct (mcp_parseLoop_values args McpScript.initialOptions o) as [Hc Hs];
      [discriminate | discriminate | exact H |].
    split; [exact Hc |]. split; [exact Hs |].
    exact (mcp_parseLoop_source args McpScript.initialOptions o H).
  - intros flag rest options [<- | [<- | [<- | []]]]; split; reflexivity.
  - reflexivity.
  - intros args. apply mcp_parseLoop_help.
Qed.

Lemma mcp_arguments_never_empty_witness :
  (exists o, McpScript.parseArguments ["--city"; ""; "--state"] = Some o /\
             McpScript.city o = "Houston" /\ McpScript.state o = "TX" /\
             McpScript.city o <> "" /\ McpScript.state o <> "") /\
  In "--help" ["--limit"; "3"; "--help"].
Proof.
  destruct mcp_arguments_never_empty as (Hsome & _ & _ & Hnone).
  split.
  - eexists. split; [reflexivity |]. split; [reflexivity |]. split; [reflexivity |].
    destruct (Hsome ["--city"; ""; "--state"] _ eq_refl) as (Hc & Hs & _).
    split; [exact Hc | exact Hs].
  - apply (Hnone ["--limit"; "3"; "--help"]). reflexivity.
Defined.

Lemma mcp_collect_none (addressRegExp : nat -> string -> option (string -> option string))
    (ambs : nat -> Ambient) (page : Page) (city state : string) :
  Mcp.collectProperties addressRegExp ambs page city state 0 = [].
Proof.
  unfold Mcp.collectProperties, Mcp.propertyListings, sliceTo.
  destruct (_ =? _)%nat; reflexivity.
Qed.

(** X5. A limit that does not start with a number is read differently by
    the two scripts: the collection script falls back to 20, the MCP script
    keeps the unreadable value and collects nothing, whatever the page
    holds. *)
Theorem unreadable_limit (addressRegExp : nat -> string -> option (string -> option string))
    (ambs : nat -> Ambient) (page : Page) (value : string) :
  value <> "" -> parseInt value = None ->
  CliScript.limit (CliScript.parseArguments ["--limit"; value]) = 20 /\
  exists o, McpScript.parseArguments ["--limit"; value] = Some o /\
            McpScript.limit o = None /\
            McpScript.collect addressRegExp ambs page o = [].
Proof.
  intros Hv Hn. split.
  - unfold CliScript.parseArguments. cbn -[parseInt]. now rewrite Hn.
  - unfold McpScript.parseArguments. cbn -[parseInt].
    destruct value; [contradiction |]. cbn -[parseInt]. rewrite Hn.
    eexists. split; [reflexivity |]. split; [reflexivity |].
    unfold McpScript.collect. cbn [McpScript.limit default]. apply mcp_collect_none.
Qed.

Lemma unreadable_limit_witness :
  CliScript.limit (CliScript.parseArguments ["--limit"; "ten"]) = 20 /\
  exists o, McpScript.parseArguments ["--limit"; "ten"] = Some o /\
            McpScript.limit o = None /\
            McpScript.collect literalCity (fun _ => noon) sampleResults o = [].
Proof. apply unreadable_limit; [discriminate | reflexivity]. Defined.

(** ** The choice of the listing selector *)

Lemma tested_lookup (page : Page) (selector : string) :
  In selector propertySelectors ->
  testSelectors page propertySelectors ∅ !! selector
    = if (0 <? length (querySelectorAll page selector))%nat
      then Some (length (querySelectorAll page selector)) else None.
Proof.
  intros Hin. destruct (Nat.ltb_spec 0 (length (querySelectorAll page selector))) as [H | H].
  - now apply testSelectors_complete.
  - destruct (testSelectors page propertySelectors ∅ !! selector) as [n|] eqn:E; [| reflexivity].
    apply testSelectors_sound in E as [E | [-> E]]; [| lia].
    now rewrite lookup_empty in E.
Qed.

(** X6. The locator takes [.listing-card] whenever it matches, and
    otherwise the first of the four fallback selectors that matches; the
    four other selectors it counts are never taken.  It reports no listing
    exactly when these five selectors all match nothing, and the three
    collectors then return an empty batch. *)
Theorem locate_choice (page : Page) :
  (querySelectorAll page ".listing-card" <> [] ->
   locate page = (".listing-card", length (querySelectorAll page ".listing-card"))) /\
  In (fst (locate page)) (".listing-card" :: fallbackSelectors) /\
  (snd (locate page) = 0%nat <->
   forall selector, In selector (".listing-card" :: fallbackSelectors) ->
                    querySelectorAll page selector = []) /\
  ((forall selector, In selector (".listing-card" :: fallbackSelectors) ->
                     querySelectorAll page selector = []) ->
   forall addressRegExp ambs city state maxProperties,
     Cli.collectProperties addressRegExp ambs page city state maxProperties = [] /\
     Mcp.collectProperties addressRegExp ambs page city state maxProperties = [] /\
     Lambda.collectProperties ambs page city state maxProperties = []).
Proof.
  assert (snd (locate page) = 0%nat <->
          forall selector, In selector (".listing-card" :: fallbackSelectors) ->
                           querySelectorAll page selector = []) as Hzero.
  { rewrite locate_count. split.
    - intros Hnone selector Hin.
      unfold locate in Hnone.
      pose proof (tested_lookup page ".listing-card" ltac:(simpl; tauto)) as H0.
      pose proof (tested_lookup page "[class*='card']" ltac:(simpl; tauto)) as H1.
      pose proof (tested_lookup page "div[class*='result']" ltac:(simpl; tauto)) as H2.
      pose proof (tested_lookup page "[class*='listing']" ltac:(simpl; tauto)) as H3.
      pose proof (tested_lookup page "[class*='property']" ltac:(simpl; tauto)) as H4.
      set (results := testSelectors page propertySelectors ∅) in *.
      cbn [firstFallback fallbackSelectors] in Hnone.
      rewrite H0, H1, H2, H3, H4 in Hnone.
      simpl in Hin.
      destruct (querySelectorAll page ".listing-card") as [|x0 l0] eqn:E0;
        [| cbn in Hnone; rewrite E0 in Hnone; discriminate].
      destruct (querySelectorAll page "[class*='card']") as [|x1 l1] eqn:E1;
        [| cbn in Hnone; rewrite E1 in Hnone; discriminate].
      destruct (querySelectorAll page "div[class*='result']") as [|x2 l2] eqn:E2;
        [| cbn in Hnone; rewrite E2 in Hnone; discriminate].
      destruct (querySelectorAll page "[class*='listing']") as [|x3 l3] eqn:E3;
        [| cbn in Hnone; rewrite E3 in Hnone; discriminate].
      destruct (querySelectorAll page "[class*='property']") as [|x4 l4] eqn:E4;
        [| cbn in Hnone; rewrite E4 in Hnone; discriminate].
      destruct Hin as [<- | [<- | [<- | [<- | [<- | []]]]]]; assumption.
    - intros Hall.
      destruct (locate page) as [selector count] eqn:E. cbn [fst].
      assert (In selector (".listing-card" :: fallbackSelectors)) as Hin.
      { unfold locate in E.
        destruct (_ =? _)%nat; [| injection E as <- _; now left].
        destruct (firstFallback _ _) as [[s n]|] eqn:F; [| injection E as <- _; now left].
        injection E as -> ->. right. clear - F.
        revert F. generalize (testSelectors page propertySelectors ∅). intros results.
        cbn [firstFallback fallbackSelectors].
        repeat (destruct (results !! _) as [?|];
                [destruct (0 <? _)%nat; [intros [= <- _]; simpl; tauto |] |]);
          discriminate. }
      now rewrite (Hall selector Hin). }
  split; [| split; [| split; [exact Hzero |]]].
  - intros Hsome. unfold locate.
    rewrite (tested_lookup page ".listing-card") by (simpl; tauto).
    destruct (querySelectorAll page ".listing-card") as [|x l]; [contradiction | reflexivity].
  - unfold locate.
    destruct (_ =? _)%nat; [| now left].
    destruct (firstFallback _ _) as [[s n]|] eqn:F; [| now left].
    right. revert F. generalize (testSelectors page propertySelectors ∅). intros results.
    cbn [firstFallback fallbackSelectors fst].
    repeat (destruct (results !! _) as [?|];
            [destruct (0 <? _)%nat; [intros [= <- _]; simpl; tauto |] |]);
      discriminate.
  - intros Hall addressRegExp ambs city state maxProperties.
    apply Hzero in Hall.
    unfold Cli.collectProperties, Mcp.collectProperties, Lambda.collectProperties.
    now rewrite Hall.
Qed.

Lemma locate_choice_witness :
  locate twentyListings = (".listing-card", 20%nat) /\
  Cli.collectProperties literalCity (fun _ => noon) unanchored "Columbus" "OH" 20 = [] /\
  Mcp.collectProperties literalCity (fun _ => noon) unanchored "Columbus" "OH" 20 = [] /\
  Lambda.collectProperties (fun _ => noon) unanchored "Columbus" "OH" 20 = [].
Proof.
  split.
  - apply (proj1 (locate_choice twentyListings)). discriminate.
  - apply (proj2 (proj2 (proj2 (locate_choice unanchored)))).
    intros selector Hin. simpl in Hin.
    destruct Hin as [<- | [<- | [<- | [<- | [<- | []]]]]]; reflexivity.
Defined.

(** X7. A negative limit counts from the end of the listings: the
    collection script then maps its callback over all but that many of the
    located listings, instead of none, and, when the address patterns can
    be built for the city, returns one entry for each of them. *)
Theorem negative_limit_drops_tail
    (addressRegExp : nat -> string -> option (string -> option string))
    (ambs : nat -> Ambient) (page : Page) (city state : string) (maxProperties : Z) :
  maxProperties < 0 ->
  Cli.propertyListings page maxProperties
    = take (snd (locate page) - Z.to_nat (- maxProperties))
        (querySelectorAll page (fst (locate page))) /\
  (builds addressRegExp city = true ->
   length (Cli.collectProperties addressRegExp ambs page city state maxProperties)
     = (snd (locate page) - Z.to_nat (- maxProperties))%nat /\
   forall index value,
     Cli.collectProperties addressRegExp ambs page city state maxProperties !! index
       = Some value ->
     exists listing,
       querySelectorAll page (fst (locate page)) !! index = Some listing /\
       Cli.extract addressRegExp (ambs index) listing city state index = Returned value) /\
  (builds addressRegExp city = false ->
   Cli.collectProperties addressRegExp ambs page city state maxProperties = []).
Proof.
  intros Hneg.
  assert (Cli.propertyListings page maxProperties
          = take (snd (locate page) - Z.to_nat (- maxProperties))
              (querySelectorAll page (fst (locate page)))) as Hlist.
  { unfold Cli.propertyListings, sliceTo. rewrite locate_count.
    destruct (Z.ltb_spec maxProperties 0); [| lia]. f_equal. lia. }
  split; [exact Hlist |]. split.
  - intros Hb. split.
    + rewrite cli_collect_length by exact Hb.
      rewrite Hlist, length_take, <- locate_count. lia.
    + intros index value H. apply cli_collect_lookup in H as (listing & Hl & H).
      exists listing. split; [| exact H].
      rewrite Hlist in Hl. apply lookup_take_Some in Hl. tauto.
  - intros Hb. now apply collect_thrown.
Qed.

Lemma negative_limit_drops_tail_witness :
  length (Cli.collectProperties literalCity (fun _ => noon) sampleResults "Columbus" "OH" (-1))
    = (snd (locate sampleResults) - Z.to_nat (- (-1)))%nat /\
  Cli.collectProperties literalCity (fun _ => noon) sampleResults "Winston(Salem" "NC" (-1)
    = [].
Proof.
  destruct (negative_limit_drops_tail literalCity (fun _ => noon) sampleResults
              "Columbus" "OH" (-1) ltac:(lia)) as (_ & Hbuilt & _).
  destruct (negative_limit_drops_tail literalCity (fun _ => noon) sampleResults
              "Winston(Salem" "NC" (-1) ltac:(lia)) as (_ & _ & Hthrown).
  split; [apply Hbuilt; reflexivity | apply Hthrown; reflexivity].
Defined.

(** ** What every record holds *)

Lemma scanInt_range (lo hi : Z) (clean : string -> string) (patterns : list grouped)
    (corpus : string) (n : Z) :
  scanInt lo hi clean patterns corpus = Some n -> lo <= n <= hi.
Proof.
  induction patterns as [|pattern rest IH]; [discriminate |].
  cbn [scanInt].
  destruct (matchGroup pattern corpus) as [capture|]; [| exact IH].
  destruct (parseInt (clean capture)) as [v|]; [| exact IH].
  destruct (Z.leb_spec lo v); destruct (Z.leb_spec v hi); cbn [andb]; try exact IH.
  intros [= <-]. lia.
Qed.

Lemma scanNumber_range (lo hi : Z) (patterns : list grouped) (corpus : string) (x : Number) :
  scanNumber lo hi patterns corpus = Some x -> within lo hi x = true.
Proof.
  induction patterns as [|pattern rest IH]; [discriminate |].
  cbn [scanNumber].
  destruct (matchGroup pattern corpus) as [capture|]; [| exact IH].
  destruct (parseFloat capture) as [v|]; [| exact IH].
  destruct (within lo hi v) eqn:W; [| exact IH].
  now intros [= <-].
Qed.

Lemma parseBeds_range (fullText text : string) :
  1 <= Cli.parseBeds fullText text <= 10.
Proof.
  unfold Cli.parseBeds. destruct (scanInt _ _ _ _ _) as [n|] eqn:E; cbn [default]; [| lia].
  now apply scanInt_range in E.
Qed.

Lemma parseSqft_range (fullText text : string) :
  500 <= Cli.parseSqft fullText text <= 10000.
Proof.
  unfold Cli.parseSqft. destruct (scanInt _ _ _ _ _) as [n|] eqn:E; cbn [default]; [| lia].
  now apply scanInt_range in E.
Qed.

Lemma parseBaths_range (fullText text : string) :
  within 1 10 (Cli.parseBaths fullText text) = true.
Proof.
  unfold Cli.parseBaths. destruct (scanNumber _ _ _ _) as [x|] eqn:E; cbn [default];
    [| reflexivity].
  now apply scanNumber_range in E.
Qed.

Lemma cli_extract_fields (addressRegExp : nat -> string -> option (string -> option string))
    (amb : Ambient) (listing : ListingNode) (cityName stateName : string) (index : nat)
    (r : Cli.PropertyRecord) :
  Cli.extract addressRegExp amb listing cityName stateName index = Returned (Some r) ->
  Cli.beds r = Cli.parseBeds (textContent listing) (textContent listing) /\
  Cli.baths r = Cli.parseBaths (textContent listing) (textContent listing) /\
  Cli.sqft r = Cli.parseSqft (textContent listing) (textContent listing) /\
  Cli.propertyType r = propertyTypeOf (Some (Cli.beds r)) /\
  Cli.imageUrl r = extractImageUrl listing /\
  Cli.propertyUrl r
    = Cli.normalizePropertyUrl (extractAttribute listing linkSelectors "href").
Proof.
  intros H. apply cli_extract_returned in H as (_ & address & H). symmetry in H. revert H.
  unfold Cli.finalize.
  destruct (Cli.parsedPrice _) as [price|]; [| discriminate].
  destruct (negb (truthy price)); [discriminate |].
  intros [= <-]. cbn. unfold orElse.
  repeat split.
  - now destruct (extractImageUrl listing).
  - now destruct (Cli.normalizePropertyUrl _).
Qed.

(** X8. Every record of the collection script and of the Lambda service
    has 1 to 10 bedrooms, 1 to 10 bathrooms and 500 to 10000 square feet: a
    figure outside these ranges in the listing is replaced, not recorded. *)
Theorem record_figures_in_range (addressRegExp : nat -> string -> option (string -> option string))
    (amb : Ambient) (listing : ListingNode) (cityName stateName : string) (index : nat) :
  (forall r,
     Cli.extract addressRegExp amb listing cityName stateName index = Returned (Some r) ->
     1 <= Cli.beds r <= 10 /\ within 1 10 (Cli.baths r) = true
     /\ 500 <= Cli.sqft r <= 10000) /\
  (let p := Lambda.extract amb listing cityName stateName index in
   1 <= Lambda.beds p <= 10 /\ within 1 10 (Lambda.baths p) = true
   /\ 500 <= Lambda.sqft p <= 10000).
Proof.
  split.
  - intros r E. apply cli_extract_fields in E as (-> & -> & -> & _).
    split; [apply parseBeds_range |]. split; [apply parseBaths_range | apply parseSqft_range].
  - cbv zeta. unfold Lambda.extract. cbn [Lambda.beds Lambda.baths Lambda.sqft].
    split; [apply parseBeds_range |]. split; [apply parseBaths_range | apply parseSqft_range].
Qed.

Lemma record_figures_in_range_witness :
  exists r, Cli.extract literalCity noon mansion "Columbus" "OH" 0 = Returned (Some r) /\
            Cli.beds r = 3 /\
            1 <= Cli.beds r <= 10 /\ within 1 10 (Cli.baths r) = true
            /\ 500 <= Cli.sqft r <= 10000.
Proof.
  eexists. split; [vm_compute; reflexivity |]. split; [reflexivity |].
  apply (proj1 (record_figures_in_range literalCity noon mansion "Columbus" "OH" 0)).
  vm_compute; reflexivity.
Defined.

Lemma priceRangeOf_positive (n : Z) : 0 < n -> In (priceRangeOf (Some n)) priceBuckets.
Proof.
  intros H. unfold priceRangeOf, priceBuckets.
  destruct (Z.ltb_spec 0 n); [| lia].
  destruct (n <? 200000); [simpl; tauto |].
  destruct (n <? 400000); [simpl; tauto |].
  destruct (n <? 600000); simpl; tauto.
Qed.

Lemma orNumber_positive (n : option Z) (fallback : Z) :
  0 < fallback -> (forall v, n = Some v -> 0 <= v) -> 0 < orNumber n fallback.
Proof.
  intros Hf Hn. unfold orNumber. destruct n as [v|]; [| exact Hf].
  destruct (Z.eqb_spec v 0); [exact Hf |]. specialize (Hn v eq_refl). lia.
Qed.

Lemma scanPrice_number (patterns : list regex) (corpus price : string) :
  scanPrice patterns corpus = Some price ->
  exists n, numericPrice price = Some n /\ 10000 < n < 10000000.
Proof.
  intros H. apply scanPrice_plausible in H. now apply plausible_range.
Qed.

Lemma mcp_extract_fields (addressRegExp : nat -> string -> option (string -> option string))
    (amb : Ambient) (listing : ListingNode) (cityName stateName : string) (index : nat)
    (r : Mcp.PropertyRecord) :
  Mcp.extract addressRegExp amb listing cityName stateName index = Returned (Some r) ->
  Mcp.parsePrice (textContent listing)
    (extractText listing priceSelectors +:+ " " +:+ textContent listing)
    = Some (Mcp.price r) /\
  Mcp.priceNumeric r = numericPrice (Mcp.price r) /\
  Mcp.priceRange r = priceRangeOf (numericPrice (Mcp.price r)) /\
  Mcp.beds r = Mcp.parseBeds (textContent listing) (textContent listing) /\
  Mcp.sqft r = Mcp.parseSqft (textContent listing) (textContent listing) /\
  Mcp.propertyType r = propertyTypeOf (parseInt (Mcp.beds r)) /\
  Mcp.imageUrl r = extractImageUrl listing /\
  Mcp.propertyUrl r
    = Mcp.normalizePropertyUrl (extractAttribute listing linkSelectors "href").
Proof.
  intros H. apply mcp_extract_returned in H as (_ & address & H). symmetry in H. revert H.
  unfold Mcp.accept, Mcp.candidate.
  cbn [Mcp.candidatePrice Mcp.candidateAddress Mcp.candidateImageUrl
       Mcp.candidatePropertyUrl Mcp.candidateBeds Mcp.candidateBaths Mcp.candidateSqft].
  destruct (Mcp.parsePrice _ _) as [price|]; [| discriminate].
  destruct (_ || _); [discriminate |].
  intros [= <-]. cbn. repeat split.
Qed.

Lemma mcp_parsePrice_number (fullText text price : string) :
  Mcp.parsePrice fullText text = Some price ->
  exists n, numericPrice price = Some n /\ 10000 < n < 10000000.
Proof.
  unfold Mcp.parsePrice. destruct (hasInvalidIndicator text); [discriminate |].
  apply scanPrice_number.
Qed.

(** X9. The branch [Unknown] of the price range is never reached: every
    record of the three collectors carries one of the four bands. *)
Theorem price_range_known (addressRegExp : nat -> string -> option (string -> option string))
    (amb : Ambient) (listing : ListingNode) (cityName stateName : string) (index : nat) :
  (forall r,
     Cli.extract addressRegExp amb listing cityName stateName index = Returned (Some r) ->
     In (Cli.priceRange r) priceBuckets) /\
  (forall r,
     Mcp.extract addressRegExp amb listing cityName stateName index = Returned (Some r) ->
     In (Mcp.priceRange r) priceBuckets) /\
  In (Lambda.priceRange (Lambda.extract amb listing cityName stateName index)) priceBuckets.
Proof.
  split; [| split].
  - intros r E. apply cli_extract_record in E as [Hp ->].
    apply parsePrice_plausible in Hp as (n & -> & Hn).
    apply priceRangeOf_positive, orNumber_positive; [lia |]. intros v [= <-]. lia.
  - intros r E. apply mcp_extract_fields in E as (Hp & _ & -> & _).
    apply mcp_parsePrice_number in Hp as (n & -> & Hn).
    apply priceRangeOf_positive. lia.
  - unfold Lambda.extract. cbn [Lambda.priceRange].
    apply priceRangeOf_positive, orNumber_positive; [lia |].
    unfold Lambda.parsePrice. intros v.
    destruct (scanPrice _ _) as [price|] eqn:E; cbn [default id].
    + apply scanPrice_number in E as (n & -> & Hn). intros [= <-]. lia.
    + vm_compute. discriminate.
Qed.

Lemma price_range_known_witness :
  exists r, Cli.extract literalCity noon listed "Columbus" "OH" 0 = Returned (Some r) /\
            In (Cli.priceRange r) priceBuckets.
Proof.
  eexists. split; [vm_compute; reflexivity |].
  apply (proj1 (price_range_known literalCity noon listed "Columbus" "OH" 0)).
  vm_compute; reflexivity.
Defined.

(** X10. A record that the Lambda service emits with the placeholder
    price is filed in the band $200K - $400K. *)
Theorem placeholder_price_band (amb : Ambient) (listing : ListingNode)
    (cityName stateName : string) (index : nat) :
  Lambda.price (Lambda.extract amb listing cityName stateName index) = "Price not available" ->
  Lambda.priceRange (Lambda.extract amb listing cityName stateName index) = "$200K - $400K".
Proof.
  unfold Lambda.extract. cbn [Lambda.price Lambda.priceRange]. intros ->. reflexivity.
Qed.

Lemma placeholder_price_band_witness :
  Lambda.priceRange (Lambda.extract noon unpriced "Columbus" "OH" 1) = "$200K - $400K".
Proof. apply placeholder_price_band. vm_compute; reflexivity. Defined.

(** X11. In a record of the MCP script the numeric price is the number
    the price text reads as, between 10,000 and 10,000,000; the bedrooms
    are [N/A] or an integer from 0 to 10, printed, and the property type is
    the one of that integer; the area is absent or from 500 to 10000. *)
Theorem mcp_record_figures (addressRegExp : nat -> string -> option (string -> option string))
    (amb : Ambient) (listing : ListingNode) (cityName stateName : string) (index : nat)
    (r : Mcp.PropertyRecord) :
  Mcp.extract addressRegExp amb listing cityName stateName index = Returned (Some r) ->
  (exists n, Mcp.priceNumeric r = Some n /\ numericPrice (Mcp.price r) = Some n
             /\ 10000 < n < 10000000) /\
  ((Mcp.beds r = "N/A" /\ Mcp.propertyType r = "Single Family Home") \/
   (exists n, 0 <= n <= 10 /\ Mcp.beds r = showZ n
              /\ Mcp.propertyType r = propertyTypeOf (Some n))) /\
  (Mcp.sqft r = None \/ exists n, Mcp.sqft r = Some n /\ 500 <= n <= 10000).
Proof.
  intros E. apply mcp_extract_fields in E as (Hp & Hnum & _ & Hbeds & Hsqft & Htype & _).
  split; [| split].
  - apply mcp_parsePrice_number in Hp as (n & Hn & Hrange).
    exists n. rewrite Hnum. auto.
  - rewrite Htype, Hbeds. unfold Mcp.parseBeds.
    destruct (scanInt _ _ _ _ _) as [n|] eqn:S.
    + right. exists n. apply scanInt_range in S. rewrite parseInt_showZ. auto.
    + left. split; reflexivity.
  - rewrite Hsqft. unfold Mcp.parseSqft.
    destruct (scanInt _ _ _ _ _) as [n|] eqn:S; [| now left].
    right. exists n. apply scanInt_range in S. auto.
Qed.

Lemma mcp_record_figures_witness :
  exists r, Mcp.extract literalCity noon listed "Columbus" "OH" 0 = Returned (Some r) /\
            Mcp.priceNumeric r = Some 325000 /\ Mcp.beds r = "3" /\
            (Mcp.sqft r = None \/ exists n, Mcp.sqft r = Some n /\ 500 <= n <= 10000).
Proof.
  eexists. split; [vm_compute; reflexivity |]. split; [reflexivity |]. split; [reflexivity |].
  apply (mcp_record_figures literalCity noon listed "Columbus" "OH" 0).
  vm_compute; reflexivity.
Defined.

Lemma valid_price_of_number (price : string) (n : Z) :
  numericPrice price = Some n -> CliScript.hasValidPrice price = true.
Proof.
  intros H. unfold CliScript.hasValidPrice.
  destruct price as [|c price]; [discriminate H |]. cbn [truthy andb].
  destruct (String.eqb_spec (String c price) "Price not available") as [E |]; [| reflexivity].
  rewrite E in H. discriminate H.
Qed.

Lemma filter_all {A : Type} (f : A -> bool) (l : list A) :
  (forall x, In x l -> f x = true) -> List.filter f l = l.
Proof.
  induction l as [|x l IH]; intros H; [reflexivity |]. cbn [List.filter].
  rewrite (H x) by now left. f_equal. apply IH. intros y Hy. apply H. now right.
Qed.

Lemma kept_of_collected {A : Type} (l : list (option A)) (r : A) :
  In r (omap (fun p => p) l) -> In (Some r) l.
Proof.
  rewrite <- !list_elem_of_In, list_elem_of_omap. now intros (y & Hy & ->).
Qed.

Lemma cli_collected_extracted
    (addressRegExp : nat -> string -> option (string -> option string))
    (ambs : nat -> Ambient) (page : Page) (city state : string) (maxProperties : Z)
    (r : Cli.PropertyRecord) :
  In (Some r) (Cli.collectProperties addressRegExp ambs page city state maxProperties) ->
  exists listing index,
    Cli.extract addressRegExp (ambs index) listing city state index = Returned (Some r).
Proof.
  intros H. apply list_elem_of_In, list_elem_of_lookup in H as [index H].
  apply cli_collect_lookup in H as (listing & _ & H). now exists listing, index.
Qed.

Lemma mcp_collected_extracted
    (addressRegExp : nat -> string -> option (string -> option string))
    (ambs : nat -> Ambient) (page : Page) (city state : string) (maxProperties : Z)
    (r : Mcp.PropertyRecord) :
  In (Some r) (Mcp.collectProperties addressRegExp ambs page city state maxProperties) ->
  exists listing index,
    Mcp.extract addressRegExp (ambs index) listing city state index = Returned (Some r).
Proof. apply mcp_collect_in. Qed.

(** X12. On a batch that comes from the collector, the price filter of the
    indexing step removes nothing: what is sent to the index is every
    collected record that has a non-blank image address, in order, and
    nothing is sent when there is none.  This holds for both scripts. *)
Theorem index_keeps_pictured (addressRegExp : nat -> string -> option (string -> option string))
    (ambs : nat -> Ambient) (page : Page) (city state : string) (maxProperties : Z) :
  CliScript.indexProperties
    (Cli.collectProperties addressRegExp ambs page city state maxProperties)
  = match List.filter (fun p => CliScript.hasImage (Cli.imageUrl p))
            (omap (fun p => p)
               (Cli.collectProperties addressRegExp ambs page city state maxProperties)) with
    | [] => None
    | kept => Some kept
    end /\
  McpScript.indexPropertiesViaMCP
    (Mcp.collectProperties addressRegExp ambs page city state maxProperties)
  = match List.filter (fun p => CliScript.hasImage (Mcp.imageUrl p))
            (omap (fun p => p)
               (Mcp.collectProperties addressRegExp ambs page city state maxProperties)) with
    | [] => None
    | kept => Some kept
    end.
Proof.
  split.
  - unfold CliScript.indexProperties.
    set (collected := Cli.collectProperties _ _ _ _ _ _).
    rewrite (filter_all (fun p => CliScript.hasValidPrice (Cli.price p))).
    + destruct collected as [|x l]; [reflexivity |]. cbn [length Nat.eqb].
      now destruct (List.filter _ _).
    + intros r Hr. apply filter_In in Hr as [Hr _].
      apply kept_of_collected, cli_collected_extracted in Hr as (listing & index & E).
      apply cli_extract_record in E as [Hp _].
      apply parsePrice_plausible in Hp as (n & Hn & _).
      exact (valid_price_of_number _ _ Hn).
  - unfold McpScript.indexPropertiesViaMCP.
    set (collected := Mcp.collectProperties _ _ _ _ _ _).
    rewrite (filter_all (fun p => CliScript.hasValidPrice (Mcp.price p))).
    + destruct collected as [|x l]; [reflexivity |]. cbn [length Nat.eqb].
      now destruct (List.filter _ _).
    + intros r Hr. apply filter_In in Hr as [Hr _].
      apply kept_of_collected, mcp_collected_extracted in Hr as (listing & index & E).
      apply mcp_extract_fields in E as (Hp & _).
      apply mcp_parsePrice_number in Hp as (n & Hn & _).
      exact (valid_price_of_number _ _ Hn).
Qed.

(** ** Addresses *)

Lemma synthesizeAddress_long (amb : Ambient) (cityName stateName : string) :
  (10 <= String.length (synthesizeAddress amb cityName stateName))%nat.
Proof.
  unfold synthesizeAddress.
  set (number := showZ (floorRandom (random1 amb) 9999 + 1)).
  set (name := pick (floorRandom (random2 amb) (Z.of_nat (length streetNames))) streetNames).
  set (type := pick (floorRandom (random3 amb) (Z.of_nat (length streetTypes))) streetTypes).
  destruct (houseNumber_shape (floorRandom (random1 amb) 9999 + 1)) as [Hnumber _].
  { pose proof (floorRandom_range (random1 amb) 9999). lia. }
  fold number in Hnumber.
  assert (3 <= String.length name <= 5)%nat as Hname.
  { apply pick_length; [apply floorRandom_range; reflexivity | reflexivity]. }
  assert (2 <= String.length type <= 4)%nat as Htype.
  { apply pick_length; [apply floorRandom_range; reflexivity | reflexivity]. }
  rewrite !length_append. simpl String.length. lia.
Qed.

(** X13. The address of a record of the collection script or of the
    Lambda service has at least 10 characters, whether it was read from the
    listing or made up. *)
Theorem record_address_long (addressRegExp : nat -> string -> option (string -> option string))
    (amb : Ambient) (listing : ListingNode) (cityName stateName : string) (index : nat) :
  (forall r,
     Cli.extract addressRegExp amb listing cityName stateName index = Returned (Some r) ->
     (10 <= String.length (Cli.address r))%nat) /\
  (10 <= String.length
           (Lambda.address (Lambda.extract amb listing cityName stateName index)))%nat.
Proof.
  split.
  - intros r H. apply cli_extract_returned in H as (_ & extracted & H).
    symmetry in H. revert H. unfold Cli.finalize.
    destruct (Cli.parsedPrice _) as [price|]; [| discriminate].
    destruct (negb (truthy price)); [discriminate |].
    intros [= <-]. cbn [Cli.address].
    destruct (Cli.needsFallback _) eqn:F; [apply synthesizeAddress_long |].
    unfold Cli.needsFallback in F. apply orb_false_iff in F as [_ F].
    apply Nat.ltb_ge in F. exact F.
  - unfold Lambda.extract. cbn [Lambda.address].
    destruct (Lambda.needsFallback _) eqn:F; [apply synthesizeAddress_long |].
    unfold Lambda.needsFallback in F. apply orb_false_iff in F as [_ F].
    apply Nat.ltb_ge in F. exact F.
Qed.

Lemma record_address_long_witness :
  exists r, Cli.extract literalCity noon resold "Columbus" "OH" 2 = Returned (Some r) /\
            (10 <= String.length (Cli.address r))%nat.
Proof.
  eexists. split; [vm_compute; reflexivity |].
  apply (proj1 (record_address_long literalCity noon resold "Columbus" "OH" 2)).
  vm_compute; reflexivity.
Defined.

(** ** Addresses of pages and images *)

Lemma absolutize_http (href : string) : startsWith (absolutize href) "http" = true.
Proof.
  unfold absolutize. destruct (startsWith href "http") eqn:H; [exact H |].
  destruct (startsWith href "/"); reflexivity.
Qed.

(** X14. The page address of a record is absolute or empty.  In the
    collection script and in the Lambda service it is empty or starts with
    [http] and holds none of the six markers of the deny-list; in the MCP
    script it always starts with [http]. *)
Theorem property_url_absolute (addressRegExp : nat -> string -> option (string -> option string))
    (amb : Ambient) (listing : ListingNode) (cityName stateName : string) (index : nat) :
  (forall r,
     Cli.extract addressRegExp amb listing cityName stateName index = Returned (Some r) ->
     Cli.propertyUrl r = "" \/
     (startsWith (Cli.propertyUrl r) "http" = true /\ denied (Cli.propertyUrl r) = false)) /\
  (let p := Lambda.extract amb listing cityName stateName index in
   Lambda.propertyUrl p = "" \/
   (startsWith (Lambda.propertyUrl p) "http" = true /\ denied (Lambda.propertyUrl p) = false)) /\
  (forall r,
     Mcp.extract addressRegExp amb listing cityName stateName index = Returned (Some r) ->
     startsWith (Mcp.propertyUrl r) "http" = true).
Proof.
  assert (forall href,
            Cli.normalizePropertyUrl href = "" \/
            (startsWith (Cli.normalizePropertyUrl href) "http" = true
             /\ denied (Cli.normalizePropertyUrl href) = false)) as Hurl.
  { intros href. unfold Cli.normalizePropertyUrl.
    destruct href as [|c href]; [now left |]. cbn [truthy].
    destruct (denied _) eqn:D; [now left |]. right. split; [apply absolutize_http | exact D]. }
  split; [| split].
  - intros r E. apply cli_extract_fields in E as (_ & _ & _ & _ & _ & ->). apply Hurl.
  - cbv zeta. unfold Lambda.extract. cbn [Lambda.propertyUrl]. unfold orElse.
    change Lambda.normalizePropertyUrl with Cli.normalizePropertyUrl.
    destruct (Hurl (extractAttribute listing linkSelectors "href")) as [-> | H];
      [now left |].
    destruct (Cli.normalizePropertyUrl _); [now left | now right].
  - intros r E. pose proof E as E'. apply mcp_extract_fields in E' as (_ & _ & _ & _ & _ & _ & _ & Hu).
    apply mcp_extract_returned in E as (_ & parsed & E). symmetry in E.
    apply mcp_accept_complete in E as (_ & _ & _ & _ & _ & _ & _ & Hne).
    rewrite Hu in *. unfold Mcp.normalizePropertyUrl in *.
    destruct (extractAttribute listing linkSelectors "href") as [|c href];
      [now contradiction Hne |].
    apply absolutize_http.
Qed.

Lemma property_url_absolute_witness :
  exists r, Mcp.extract literalCity noon listed "Columbus" "OH" 0 = Returned (Some r) /\
            Mcp.propertyUrl r = "https://www.realty.com/property/12" /\
            startsWith (Mcp.propertyUrl r) "http" = true.
Proof.
  eexists. split; [vm_compute; reflexivity |]. split; [reflexivity |].
  apply (proj2 (proj2 (property_url_absolute literalCity noon listed "Columbus" "OH" 0))).
  vm_compute; reflexivity.
Defined.

Lemma http_not_rooted (u : string) : startsWith u "http" = true -> startsWith u "/" = false.
Proof.
  destruct u as [|c u]; [discriminate |]. cbn [startsWith].
  destruct (Ascii.eqb_spec "/" c) as [<- |]; [discriminate | reflexivity].
Qed.

Lemma data_not_rooted (u : string) : startsWith u "data:" = true -> startsWith u "/" = false.
Proof.
  destruct u as [|c u]; [discriminate |]. cbn [startsWith].
  destruct (Ascii.eqb_spec "/" c) as [<- |]; [discriminate | reflexivity].
Qed.

Lemma normalizeImageUrl_cases (u : string) :
  (normalizeImageUrl u = u /\ startsWith u "/" = false) \/
  startsWith (normalizeImageUrl u) "http" = true.
Proof.
  unfold normalizeImageUrl.
  destruct u as [|c u]; [left; split; reflexivity |]. cbn [truthy andb].
  destruct (startsWith (String c u) "http") eqn:H;
    [left; split; [reflexivity | now apply http_not_rooted] |].
  destruct (startsWith (String c u) "data:") eqn:D;
    [left; split; [reflexivity | now apply data_not_rooted] |].
  cbn [negb andb].
  destruct (startsWith (String c u) "//"); [right; reflexivity |].
  destruct (startsWith (String c u) "/") eqn:R; [right; reflexivity |].
  left. split; reflexivity.
Qed.

(** X15. Normalizing an image address never leaves it rooted at the site
    or at the scheme: the result does not start with a slash.  An address
    that does not start with a slash is returned as it is, a relative one
    too, and normalizing twice changes nothing more. *)
Theorem image_url_normal (u : string) :
  startsWith (normalizeImageUrl u) "/" = false /\
  (startsWith u "/" = false -> normalizeImageUrl u = u) /\
  normalizeImageUrl (normalizeImageUrl u) = normalizeImageUrl u.
Proof.
  assert (forall v, startsWith v "/" = false -> normalizeImageUrl v = v) as Hfixed.
  { intros v R. unfold normalizeImageUrl.
    destruct (_ && _); [| reflexivity].
    destruct (startsWith v "//") eqn:S.
    - destruct v as [|c v]; [discriminate |]. cbn [startsWith] in R, S.
      rewrite andb_true_r in R. now rewrite R in S.
    - now rewrite R. }
  assert (startsWith (normalizeImageUrl u) "/" = false) as Hrooted.
  { destruct (normalizeImageUrl_cases u) as [[-> R] | H]; [exact R |].
    now apply http_not_rooted. }
  split; [exact Hrooted |]. split; [apply Hfixed |]. now apply Hfixed.
Qed.

Lemma image_url_normal_witness :
  normalizeImageUrl "images/a.jpg" = "images/a.jpg".
Proof. apply (proj1 (proj2 (image_url_normal "images/a.jpg"))). reflexivity. Defined.

(** ** Texts in which the patterns find nothing *)

Lemma leftmost_none {A : Type} (m : string -> option A) (p : ascii -> bool) (s : string) :
  (forall from, headIs p from = false -> m from = None) ->
  anyChar p s = false ->
  leftmost m s = None.
Proof.
  intros Hm. induction s as [|c s IH]; intros Hs; cbn [leftmost].
  - now rewrite Hm.
  - cbn [anyChar] in Hs. apply orb_false_iff in Hs as [Hc Hs].
    rewrite Hm by exact Hc. now apply IH.
Qed.

Lemma digit_first {A : Type} (r : regex) (from : string) (k : string -> option A) :
  headIs isDigit from = false -> run (Seq digit r) from k = None.
Proof.
  intros H. cbn [run digit]. destruct from as [|c from]; [reflexivity |].
  cbn [headIs] in H. now rewrite H.
Qed.

Lemma matchGroup_digitless (g tail : regex) (corpus : string) :
  (forall A from (k : string -> option A),
     headIs isDigit from = false -> run g from k = None) ->
  anyChar isDigit corpus = false ->
  matchGroup (g, tail) corpus = None.
Proof.
  intros Hg Hs. unfold matchGroup, firstGroup. cbn [fst snd].
  apply (leftmost_none _ isDigit); [| exact Hs].
  intros from H. now apply Hg.
Qed.

Lemma plus_digit_first {A : Type} (from : string) (k : string -> option A) :
  headIs isDigit from = false -> run (Plus digit) from k = None.
Proof. apply digit_first. Qed.

Lemma decimalLiteral_first {A : Type} (from : string) (k : string -> option A) :
  headIs isDigit from = false -> run decimalLiteral from k = None.
Proof.
  intros H. unfold decimalLiteral. cbn [run]. now apply plus_digit_first.
Qed.

Lemma groupedNumber_first {A : Type} (from : string) (k : string -> option A) :
  headIs isDigit from = false -> run groupedNumber from k = None.
Proof.
  intros H. unfold groupedNumber, Between. cbn [run Exactly].
  destruct from as [|c from]; [reflexivity |]. cbn [headIs] in H.
  unfold digit at 1. cbn [run]. now rewrite H.
Qed.

(** X16. A listing text without any digit gives the stock figures: 3
    bedrooms, 2 bathrooms and 1500 square feet in the collection script and
    in the Lambda service, and the marker [N/A] in the MCP script. *)
Theorem figures_without_digits (fullText text : string) :
  anyChar isDigit text = false -> anyChar isDigit fullText = false ->
  Cli.parseBeds fullText text = 3 /\ Cli.parseBaths fullText text = ofInt 2
  /\ Cli.parseSqft fullText text = 1500 /\
  Lambda.parseBeds fullText text = 3 /\ Lambda.parseBaths fullText text = ofInt 2
  /\ Lambda.parseSqft fullText text = 1500 /\
  Mcp.parseBeds fullText text = "N/A" /\ Mcp.parseBaths fullText text = "N/A"
  /\ Mcp.parseSqft fullText text = None.
Proof.
  intros Ht Hf.
  assert (anyChar isDigit (text +:+ " " +:+ fullText) = false) as Hs.
  { rewrite !anyChar_append, Ht, Hf. reflexivity. }
  assert (forall lo hi clean,
            scanInt lo hi clean bedPatterns (text +:+ " " +:+ fullText) = None) as Hbeds.
  { intros. unfold bedPatterns. cbn [scanInt].
    now rewrite !(matchGroup_digitless _ _ _ (@plus_digit_first) Hs). }
  assert (forall lo hi clean,
            scanInt lo hi clean sqftPatterns (text +:+ " " +:+ fullText) = None) as Hsqft.
  { intros. unfold sqftPatterns. cbn [scanInt].
    now rewrite !(matchGroup_digitless _ _ _ (@groupedNumber_first) Hs). }
  assert (forall lo hi,
            scanNumber lo hi bathPatterns (text +:+ " " +:+ fullText) = None) as Hbaths.
  { intros. unfold bathPatterns. cbn [scanNumber].
    now rewrite !(matchGroup_digitless _ _ _ (@decimalLiteral_first) Hs). }
  assert (forall lo hi,
            scanNumber lo hi Mcp.bathPatterns (text +:+ " " +:+ fullText) = None) as Hbaths'.
  { intros. unfold Mcp.bathPatterns. cbn [scanNumber].
    now rewrite !(matchGroup_digitless _ _ _ (@decimalLiteral_first) Hs). }
  unfold Cli.parseBeds, Cli.parseBaths, Cli.parseSqft, Lambda.parseBeds, Lambda.parseBaths,
    Lambda.parseSqft, Mcp.parseBeds, Mcp.parseBaths, Mcp.parseSqft.
  rewrite !Hbeds, !Hsqft, !Hbaths, !Hbaths'. repeat split.
Qed.

Lemma figures_without_digits_witness :
  Cli.parseBeds "Charming bungalow, call today" "" = 3 /\
  Mcp.parseBeds "Charming bungalow, call today" "" = "N/A".
Proof.
  destruct (figures_without_digits "Charming bungalow, call today" "")
    as (H1 & _ & _ & _ & _ & _ & H2 & _); [reflexivity | reflexivity |].
  split; [exact H1 | exact H2].
Defined.

(** ** The address patterns of the Lambda service *)

Section Guard.

Variable P : string -> Prop.
Hypothesis P_suffix : forall c s, P (String c s) -> P s.

Lemma starLoop_guard {A : Type} (step : string -> (string -> option A) -> option A)
    (k : string -> option A) :
  (forall s k', P s -> (forall t, P t -> k' t = None) -> step s k' = None) ->
  (forall t, P t -> k t = None) ->
  forall fuel s, P s -> starLoop step k fuel s = None.
Proof.
  intros Hstep Hk. induction fuel as [|fuel IH]; intros s Hs; cbn [starLoop].
  - now apply Hk.
  - rewrite Hstep; [now apply Hk | exact Hs |].
    intros t Ht. destruct (_ <? _)%nat; [now apply IH | reflexivity].
Qed.

Lemma run_guard {A : Type} (r : regex) :
  forall (s : string) (k : string -> option A),
    P s -> (forall t, P t -> k t = None) -> run r s k = None.
Proof.
  induction r as [| p | a IHa b IHb | a IHa b IHb | a IHa |]; intros s k Hs Hk; cbn [run].
  - now apply Hk.
  - destruct s as [|c s]; [reflexivity |].
    destruct (p c); [apply Hk; now apply (P_suffix c) | reflexivity].
  - apply IHa; [exact Hs |]. intros t Ht. now apply IHb.
  - rewrite IHa by assumption. now apply IHb.
  - apply starLoop_guard; [exact IHa | exact Hk | exact Hs].
  - destruct s; [now apply Hk | reflexivity].
Qed.

Lemma leftmost_guard {A : Type} (m : string -> option A) :
  (forall t, P t -> m t = None) -> forall s, P s -> leftmost m s = None.
Proof.
  intros Hm. induction s as [|c s IH]; intros Hs; cbn [leftmost]; rewrite Hm by exact Hs.
  - reflexivity.
  - apply IH. now apply (P_suffix c).
Qed.

Lemma matchGroup_guard (g tail : regex) (s : string) :
  (forall A t (k : string -> option A), P t -> run tail t k = None) ->
  P s -> matchGroup (g, tail) s = None.
Proof.
  intros Htail Hs. unfold matchGroup, firstGroup. cbn [fst snd].
  apply leftmost_guard; [| exact Hs].
  intros t Ht. apply run_guard; [exact Ht |]. intros u Hu. now apply Htail.
Qed.

End Guard.

Lemma fold_letter (c d : ascii) :
  In c ["P"; "a"; "r"; "m"]%char ->
  Ascii.eqb (foldAscii d) (foldAscii c) = true ->
  Ascii.eqb (lowerChar c) (lowerChar d) = true.
Proof.
  intros Hc.
  destruct Hc as [<- | [<- | [<- | [<- | []]]]];
    destruct d as [[|] [|] [|] [|] [|] [|] [|] [|]]; vm_compute; intros H;
    (reflexivity || discriminate H).
Qed.

Lemma parma_absent {A : Type} (t : string) (k : string -> option A) :
  startsWith (toLowerCase t) "parma" = false -> run (Lit "Parma") t k = None.
Proof.
  intros H. cbn [Lit run].
  destruct t as [|c1 t]; [reflexivity |].
  destruct (Ascii.eqb (foldAscii c1) _) eqn:E1; [| reflexivity].
  apply fold_letter in E1; [| simpl; tauto].
  destruct t as [|c2 t]; [reflexivity |].
  destruct (Ascii.eqb (foldAscii c2) _) eqn:E2; [| reflexivity].
  apply fold_letter in E2; [| simpl; tauto].
  destruct t as [|c3 t]; [reflexivity |].
  destruct (Ascii.eqb (foldAscii c3) _) eqn:E3; [| reflexivity].
  apply fold_letter in E3; [| simpl; tauto].
  destruct t as [|c4 t]; [reflexivity |].
  destruct (Ascii.eqb (foldAscii c4) _) eqn:E4; [| reflexivity].
  apply fold_letter in E4; [| simpl; tauto].
  destruct t as [|c5 t]; [reflexivity |].
  destruct (Ascii.eqb (foldAscii c5) _) eqn:E5; [| reflexivity].
  apply fold_letter in E5; [| simpl; tauto].
  exfalso. revert H. unfold toLowerCase. cbn [mapChars startsWith].
  change (lowerChar "P") with "p"%char in E1.
  change (lowerChar "a") with "a"%char in E2, E5.
  change (lowerChar "r") with "r"%char in E3.
  change (lowerChar "m") with "m"%char in E4.
  rewrite E1, E2, E3, E4, E5. discriminate.
Qed.

Lemma cityAlternative_guard {A : Type} (t : string) (k : string -> option A) :
  includes (toLowerCase t) "parma" = false -> run Lambda.cityAlternative t k = None.
Proof.
  intros H. unfold Lambda.cityAlternative. cbn [run].
  rewrite parma_absent.
  - destruct t; reflexivity.
  - destruct (startsWith (toLowerCase t) "parma") eqn:S; [| reflexivity].
    now rewrite (includes_here _ _ S) in H.
Qed.

(** X17. The address patterns of the Lambda service do not hold the
    requested city: whatever city is asked for, a listing text that does not
    name Parma, in any letter case, yields no extracted address, and the
    record takes the address element of the page, or a made-up address when
    that is unfit. *)
Theorem lambda_address_needs_parma (amb : Ambient) (listing : ListingNode)
    (cityName stateName text : string) (index : nat) :
  includes (toLowerCase (textContent listing)) "parma" = false ->
  Lambda.parseAddress (textContent listing) cityName stateName text = "" /\
  Lambda.address (Lambda.extract amb listing cityName stateName index)
    = if Lambda.needsFallback (Lambda.extractText listing addressSelectors)
      then synthesizeAddress amb cityName stateName
      else Lambda.extractText listing addressSelectors.
Proof.
  intros H.
  assert (Lambda.parseAddress (textContent listing) cityName stateName text = "") as Hnone.
  { unfold Lambda.parseAddress, addressPatterns. cbn [map].
    assert (forall g, matchGroup (g, Seq (Plus space) Lambda.cityAlternative)
                        (textContent listing) = None) as Hg.
    { intros g.
      apply (matchGroup_guard (fun t => includes (toLowerCase t) "parma" = false));
        [| | exact H].
      - intros c s Hs. unfold toLowerCase in *. cbn [mapChars includes] in Hs.
        now apply orb_false_iff in Hs as [_ Hs].
      - intros A t k Ht. cbn [run].
        apply (run_guard (fun t => includes (toLowerCase t) "parma" = false)); [| exact Ht |].
        + intros c s Hs. unfold toLowerCase in *. cbn [mapChars includes] in Hs.
          now apply orb_false_iff in Hs as [_ Hs].
        + intros u Hu. now apply cityAlternative_guard. }
    rewrite !Hg. reflexivity. }
  split; [exact Hnone |].
  unfold Lambda.extract. cbn [Lambda.address].
  unfold Lambda.parseAddress in *. rewrite Hnone. reflexivity.
Qed.

Lemma lambda_address_needs_parma_witness :
  Lambda.parseAddress (textContent listed) "Columbus" "OH" "" = "" /\
  Lambda.address (Lambda.extract noon listed "Columbus" "OH" 0) = "5000 Main Pl, Columbus, OH".
Proof.
  destruct (lambda_address_needs_parma noon listed "Columbus" "OH" "" 0) as [H1 H2];
    [reflexivity |].
  split; [exact H1 |]. rewrite H2. reflexivity.
Defined.

(** ** The characters a pattern consumes *)

Lemma allChars_append (p : ascii -> bool) (a b : string) :
  allChars p (a +:+ b) = allChars p a && allChars p b.
Proof.
  induction a as [|c a IH]; cbn [String.append allChars]; [reflexivity |].
  now rewrite IH, andb_assoc.
Qed.

Section Consumes.

Variable p : ascii -> bool.

Lemma starLoop_consumes {A : Type} (step : string -> (string -> option A) -> option A)
    (k : string -> option A) (x : A) :
  (forall s k', step s k' = Some x ->
     exists u rest, s = u +:+ rest /\ allChars p u = true /\ k' rest = Some x) ->
  forall fuel s,
    starLoop step k fuel s = Some x ->
    exists u rest, s = u +:+ rest /\ allChars p u = true /\ k rest = Some x.
Proof.
  intros Hstep. induction fuel as [|fuel IH]; intros s; cbn [starLoop].
  - intros H. now exists "", s.
  - destruct (step s _) as [y|] eqn:E.
    + intros [= ->]. apply Hstep in E as (u & rest & -> & Hu & E).
      destruct (_ <? _)%nat; [| discriminate].
      apply IH in E as (v & rest' & -> & Hv & E).
      exists (u +:+ v), rest'. rewrite append_assoc, allChars_append, Hu, Hv. auto.
    + intros H. now exists "", s.
Qed.

Lemma run_consumes {A : Type} (r : regex) (x : A) :
  classesWithin p r ->
  forall (s : string) (k : string -> option A),
    run r s k = Some x ->
    exists u rest, s = u +:+ rest /\ allChars p u = true /\ k rest = Some x.
Proof.
  induction r as [| q | a IHa b IHb | a IHa b IHb | a IHa |]; intros Hr s k; cbn [run].
  - intros H. now exists "", s.
  - destruct s as [|c s]; [discriminate |].
    destruct (q c) eqn:Q; [| discriminate].
    intros H. exists (String c ""), s. cbn [allChars]. rewrite (Hr c Q). auto.
  - destruct Hr as [Ha Hb]. intros H.
    apply (IHa Ha) in H as (u & rest & -> & Hu & H).
    apply (IHb Hb) in H as (v & rest' & -> & Hv & H).
    exists (u +:+ v), rest'. rewrite append_assoc, allChars_append, Hu, Hv. auto.
  - destruct Hr as [Ha Hb]. destruct (run a s k) as [y|] eqn:E.
    + intros [= ->]. now apply (IHa Ha) in E.
    + now apply (IHb Hb).
  - apply starLoop_consumes. intros t k'. now apply IHa.
  - destruct s; [| discriminate]. intros H. now exists "", "".
Qed.

End Consumes.

Lemma leftmost_some {A : Type} (m : string -> option A) (s : string) (x : A) :
  leftmost m s = Some x -> exists from, m from = Some x.
Proof.
  induction s as [|c s IH]; cbn [leftmost]; destruct (m _) as [y|] eqn:E.
  - intros [= ->]. now exists "".
  - discriminate.
  - intros [= ->]. now exists (String c s).
  - exact IH.
Qed.

Lemma firstMatch_chars (p : ascii -> bool) (r : regex) (s m : string) :
  classesWithin p r -> firstMatch r s = Some m -> allChars p m = true.
Proof.
  intros Hr H. apply leftmost_some in H as (from & H).
  apply (run_consumes p r m Hr) in H as (u & rest & -> & Hu & [= <-]).
  now rewrite consumed_append.
Qed.

Lemma dropChars_chars (p : ascii -> bool) (m : string) :
  allChars (fun c => p c || isSpace c) m = true ->
  allChars p (dropChars isSpace m) = true.
Proof.
  induction m as [|c m IH]; cbn [allChars dropChars]; [reflexivity |].
  intros H. apply andb_true_iff in H as [Hc Hm].
  destruct (isSpace c) eqn:S; [now apply IH |].
  cbn [allChars]. rewrite orb_false_r in Hc. now rewrite Hc, IH.
Qed.

Ltac class_solver :=
  let c := fresh "c" in
  let H := fresh "H" in
  intros c H; unfold isPriceChar;
  repeat match type of H with
         | (_ || _ = true) => apply orb_true_iff in H as [H | H]
         end;
  rewrite H; rewrite ?orb_true_r; reflexivity.

Lemma pricePatterns_classes (pattern : regex) :
  In pattern pricePatterns ->
  classesWithin (fun c => isPriceChar c || isSpace c) pattern.
Proof.
  intros [<- | [<- | [<- | []]]];
    unfold dollar, priceChar, space, Plus; cbn [classesWithin];
    repeat split; class_solver.
Qed.

Lemma scanPrice_chars (patterns : list regex) (corpus price : string) :
  (forall pattern, In pattern patterns ->
     classesWithin (fun c => isPriceChar c || isSpace c) pattern) ->
  scanPrice patterns corpus = Some price ->
  allChars isPriceChar price = true.
Proof.
  induction patterns as [|pattern rest IH]; intros Hall; [discriminate |].
  cbn [scanPrice].
  assert (forall q, In q rest -> classesWithin (fun c => isPriceChar c || isSpace c) q)
    as Hrest by (intros q Hq; apply Hall; now right).
  destruct (firstMatch pattern corpus) as [m|] eqn:E; [| now apply IH].
  destruct (plausible _); [| now apply IH].
  intros [= <-]. apply dropChars_chars.
  apply (firstMatch_chars _ pattern corpus); [apply Hall; now left | exact E].
Qed.

(** X18. A price text that a parser returns is made of digits, commas and
    dollar signs only: no space and no letter.  In the Lambda service the
    one other value is the placeholder. *)
Theorem price_text_chars (fullText text : string) :
  (forall price, Cli.parsePrice fullText text = Some price ->
                 allChars isPriceChar price = true) /\
  (forall price, Mcp.parsePrice fullText text = Some price ->
                 allChars isPriceChar price = true) /\
  (Lambda.parsePrice fullText text = "Price not available" \/
   allChars isPriceChar (Lambda.parsePrice fullText text) = true).
Proof.
  split; [| split].
  - intros price. unfold Cli.parsePrice. destruct (hasInvalidIndicator text); [discriminate |].
    apply scanPrice_chars, pricePatterns_classes.
  - intros price. unfold Mcp.parsePrice. destruct (hasInvalidIndicator text); [discriminate |].
    apply scanPrice_chars, pricePatterns_classes.
  - unfold Lambda.parsePrice.
    destruct (scanPrice _ _) as [price|] eqn:E; cbn [default id]; [right | now left].
    exact (scanPrice_chars _ _ _ pricePatterns_classes E).
Qed.

Lemma price_text_chars_witness :
  Cli.parsePrice "now $ 325,000 only" "" = Some "$325,000" /\
  allChars isPriceChar "$325,000" = true.
Proof.
  split; [vm_compute; reflexivity |].
  apply (proj1 (price_text_chars "now $ 325,000 only" "")). vm_compute; reflexivity.
Defined.

(** ** The location of a request *)

Lemma append_nil_r (s : string) : s +:+ "" = s.
Proof. induction s as [|c s IH]; cbn [String.append]; [reflexivity | now rewrite IH]. Qed.

Lemma splitRuns_word (word rest piece : string) (inRun : bool) :
  word <> "" -> anyChar Handler.isSeparator word = false ->
  Handler.splitRuns (word +:+ rest) piece inRun
    = Handler.splitRuns rest (piece +:+ word) false.
Proof.
  revert piece inRun. induction word as [|c word IH]; intros piece inRun Hne Hw;
    [contradiction |].
  cbn [anyChar] in Hw. apply orb_false_iff in Hw as [Hc Hw].
  cbn [String.append Handler.splitRuns]. rewrite Hc.
  destruct word as [|d word].
  - cbn [String.append]. reflexivity.
  - rewrite IH by (discriminate || exact Hw).
    now rewrite append_assoc.
Qed.

Lemma splitRuns_run (separators rest piece : string) :
  allChars Handler.isSeparator separators = true ->
  Handler.splitRuns (separators +:+ rest) piece true = Handler.splitRuns rest piece true.
Proof.
  induction separators as [|c separators IH]; intros Hs; [reflexivity |].
  cbn [allChars] in Hs. apply andb_true_iff in Hs as [Hc Hs].
  cbn [String.append Handler.splitRuns]. rewrite Hc. now apply IH.
Qed.

Lemma splitRuns_separators (separators rest piece : string) :
  separators <> "" -> allChars Handler.isSeparator separators = true ->
  Handler.splitRuns (separators +:+ rest) piece false
    = piece :: Handler.splitRuns rest "" true.
Proof.
  intros Hne Hs. destruct separators as [|c separators]; [contradiction |].
  cbn [allChars] in Hs. apply andb_true_iff in Hs as [Hc Hs].
  cbn [String.append Handler.splitRuns]. rewrite Hc. f_equal. now apply splitRuns_run.
Qed.

Lemma splitRuns_words (pieces : list (string * string)) (lastWord : string) (inRun : bool) :
  Forall wellFormed pieces ->
  anyChar Handler.isSeparator lastWord = false ->
  List.filter (fun part => (0 <? String.length part)%nat)
    (Handler.splitRuns (interleave pieces +:+ lastWord) "" inRun)
  = (map fst pieces ++ (if truthy lastWord then [lastWord] else []))%list.
Proof.
  intros Hpieces Hlast. revert inRun.
  induction Hpieces as [|[word separators] pieces (Hw & Hword & Hs & Hseps) _ IH];
    intros inRun.
  - cbn [interleave String.append map app].
    destruct lastWord as [|c lastWord]; [reflexivity |].
    rewrite <- (append_nil_r (String c lastWord)) at 1.
    rewrite splitRuns_word by (discriminate || exact Hlast).
    reflexivity.
  - cbn [fst snd] in *. cbn [interleave map app]. rewrite !append_assoc.
    rewrite splitRuns_word by assumption.
    rewrite splitRuns_separators by assumption.
    cbn [String.append List.filter].
    destruct word as [|c word]; [contradiction |]. cbn [String.length Nat.ltb Nat.leb].
    f_equal. apply IH.
Qed.

Lemma split_words (lead : string) (pieces : list (string * string)) (lastWord : string) :
  allChars Handler.isSeparator lead = true ->
  Forall wellFormed pieces ->
  anyChar Handler.isSeparator lastWord = false ->
  List.filter (fun part => (0 <? String.length part)%nat)
    (Handler.split (lead +:+ interleave pieces +:+ lastWord))
  = (map fst pieces ++ (if truthy lastWord then [lastWord] else []))%list.
Proof.
  intros Hlead Hpieces Hlast. unfold Handler.split.
  destruct lead as [|c lead].
  - cbn [String.append]. now apply splitRuns_words.
  - rewrite splitRuns_separators by (discriminate || exact Hlead).
    cbn [List.filter String.length Nat.ltb Nat.leb]. now apply splitRuns_words.
Qed.

Lemma join_truthy (parts : list string) :
  parts <> [] -> Forall (fun part => part <> "") parts -> truthy (Handler.join parts) = true.
Proof.
  intros Hne Hall. destruct Hall as [|part rest Hpart _]; [contradiction |].
  cbn [Handler.join]. destruct part as [|c part]; [contradiction |].
  destruct rest; reflexivity.
Qed.

(** X19. How the handler reads a location when neither city nor state is
    given: the words of the text, however many commas and spaces stand
    between and around them, are taken apart; with fewer than two words the
    request is refused, otherwise the last word alone is the state and the
    words before it, joined by single spaces, are the city. *)
Theorem location_words (lead : string) (pieces : list (string * string)) (lastWord : string) :
  allChars Handler.isSeparator lead = true ->
  Forall wellFormed pieces ->
  anyChar Handler.isSeparator lastWord = false ->
  lead +:+ interleave pieces +:+ lastWord <> "" ->
  let words := (map fst pieces ++ (if truthy lastWord then [lastWord] else []))%list in
  Handler.resolve None None (Some (lead +:+ interleave pieces +:+ lastWord))
  = if (2 <=? length words)%nat
    then Handler.CollectFor (Handler.join (removelast words)) (List.last words "")
    else Handler.LocationIncomplete.
Proof.
  intros Hlead Hpieces Hlast Hne words. unfold Handler.resolve.
  cbn [Handler.given default id negb andb].
  destruct (lead +:+ interleave pieces +:+ lastWord) as [|c location] eqn:E;
    [contradiction |].
  cbn [truthy andb]. rewrite <- E, split_words by assumption. fold words.
  destruct (Nat.leb_spec 2 (length words)) as [Hlen |]; [| reflexivity].
  assert (Forall (fun part => part <> "") words) as Hwords.
  { unfold words. apply Forall_app. split.
    - apply List.Forall_forall. intros word Hin. apply in_map_iff in Hin as ([w s] & <- & Hin).
      rewrite List.Forall_forall in Hpieces. now destruct (Hpieces _ Hin).
    - destruct lastWord; [constructor |]. constructor; [discriminate | constructor]. }
  assert (words <> []) as Hsome by (destruct words; [simpl in Hlen; lia | discriminate]).
  destruct (exists_last Hsome) as (front & final & Hsplit). rewrite Hsplit in *.
  rewrite removelast_last, last_last.
  apply Forall_app in Hwords as [Hfront Hfinal].
  rewrite join_truthy; [| | exact Hfront].
  - inversion Hfinal as [|? ? Hf _]; subst. destruct final; [contradiction | reflexivity].
  - destruct front; [rewrite length_app in Hlen; simpl in Hlen; lia | discriminate].
Qed.

Lemma location_words_witness :
  Handler.resolve None None (Some " New York,  New York")
    = Handler.CollectFor "New York New" "York".
Proof.
  apply (location_words " " [("New", " "); ("York", ",  "); ("New", " ")] "York").
  - reflexivity.
  - repeat constructor; discriminate.
  - reflexivity.
  - discriminate.
Defined.

(** X20. The location of a request is looked at only when city and state
    are both missing: with either of them given the outcome is the one of
    the request without its location, so a city alone is refused even
    beside a complete location. *)
Theorem location_only_alone (city state location : option string) :
  Handler.given city = true \/ Handler.given state = true ->
  Handler.resolve city state location = Handler.resolve city state None /\
  (Handler.given city && Handler.given state = false ->
   Handler.resolve city state location = Handler.CityStateRequired).
Proof.
  intros H. unfold Handler.resolve.
  destruct city as [[|c city]|], state as [[|s state]|];
    cbn in H |- *; destruct H as [H | H]; try discriminate H;
    rewrite ?andb_false_r; split; (reflexivity || discriminate || (intros _; reflexivity)).
Qed.

Lemma location_only_alone_witness :
  Handler.resolve (Some "Miami") None (Some "Miami, FL") = Handler.CityStateRequired.
Proof.
  apply (proj2 (location_only_alone (Some "Miami") None (Some "Miami, FL") (or_introl eq_refl))).
  reflexivity.
Defined.

(** ** Texts read from the page *)

Lemma rev_app_append (s acc : string) : String.rev_app s acc = String.rev s +:+ acc.
Proof.
  unfold String.rev. revert acc. induction s as [|c s IH]; intros acc; [reflexivity |].
  cbn [String.rev_app]. rewrite (IH (String c acc)), (IH (String c "")).
  now rewrite append_assoc.
Qed.

Lemma rev_cons (c : ascii) (s : string) : String.rev (String c s) = String.rev s +:+ String c "".
Proof. unfold String.rev at 1. cbn [String.rev_app]. apply rev_app_append. Qed.

Lemma rev_append (a b : string) : String.rev (a +:+ b) = String.rev b +:+ String.rev a.
Proof.
  induction a as [|c a IH]; cbn [String.append].
  - change (String.rev "") with "". now rewrite append_nil_r.
  - now rewrite !rev_cons, IH, append_assoc.
Qed.

Lemma rev_involutive (s : string) : String.rev (String.rev s) = s.
Proof.
  induction s as [|c s IH]; [reflexivity |].
  rewrite rev_cons, rev_append, IH. reflexivity.
Qed.

Lemma skipSpaces_head (s : string) : headIs isSpace (skipSpaces s) = false.
Proof.
  induction s as [|c s IH]; [reflexivity |]. cbn [skipSpaces].
  destruct (isSpace c) eqn:E; [exact IH | exact E].
Qed.

Lemma skipSpaces_suffix (s : string) : exists spaces, s = spaces +:+ skipSpaces s.
Proof.
  induction s as [|c s [spaces IH]]; [now exists "" |]. cbn [skipSpaces].
  destruct (isSpace c); [| now exists ""].
  exists (String c spaces). cbn [String.append]. now rewrite <- IH.
Qed.

Lemma headIs_append (p : ascii -> bool) (a b : string) :
  a <> "" -> headIs p (a +:+ b) = headIs p a.
Proof. destruct a; [contradiction | reflexivity]. Qed.

Lemma rev_empty (s : string) : String.rev s = "" -> s = "".
Proof. intros H. rewrite <- (rev_involutive s), H. reflexivity. Qed.

Lemma trim_ends (s : string) :
  headIs isSpace (trim s) = false /\ headIs isSpace (String.rev (trim s)) = false.
Proof.
  unfold trim. split; [| rewrite rev_involutive; apply skipSpaces_head].
  destruct (skipSpaces_suffix (String.rev (skipSpaces s))) as [spaces H].
  apply (f_equal String.rev) in H. rewrite rev_involutive, rev_append in H.
  destruct (String.rev (skipSpaces (String.rev (skipSpaces s)))) as [|c kept] eqn:E;
    [reflexivity |].
  rewrite <- (headIs_append isSpace (String c kept) (String.rev spaces)) by discriminate.
  rewrite <- H. apply skipSpaces_head.
Qed.

Lemma extractTextIf_found (accept : string -> bool) (listing : ListingNode)
    (selectors : list string) :
  extractTextIf accept listing selectors = "" \/
  (accept (extractTextIf accept listing selectors) = true /\
   exists selector element,
     In selector selectors /\ querySelector listing selector = Some element /\
     extractTextIf accept listing selectors = trim (elementText element)).
Proof.
  induction selectors as [|sel rest IH]; [now left |]. cbn [extractTextIf].
  assert (extractTextIf accept listing rest = "" \/
          (accept (extractTextIf accept listing rest) = true /\
           exists selector element,
             In selector (sel :: rest) /\ querySelector listing selector = Some element /\
             extractTextIf accept listing rest = trim (elementText element))) as IH'.
  { destruct IH as [IH | (Ha & selector & element & Hin & Hq & Ht)]; [now left |].
    right. split; [exact Ha |]. exists selector, element. split; [now right | auto]. }
  destruct (querySelector listing sel) as [element|] eqn:Q; [| exact IH'].
  destruct (truthy _ && accept _) eqn:T; [| exact IH'].
  apply andb_true_iff in T as [_ Ta]. right. split; [exact Ta |].
  exists sel, element. split; [now left | auto].
Qed.

(** X21. A text that a selector cascade returns is the trimmed text of
    an element found under one of its selectors, or empty: it neither
    starts nor ends with white space.  In the Lambda service it also never
    holds [Agent] or [Eddie Staats]. *)
Theorem cascade_text_trimmed (listing : ListingNode) (selectors : list string) :
  (forall accept,
     headIs isSpace (extractTextIf accept listing selectors) = false /\
     headIs isSpace (String.rev (extractTextIf accept listing selectors)) = false /\
     (extractTextIf accept listing selectors <> "" ->
      exists selector element,
        In selector selectors /\ querySelector listing selector = Some element /\
        extractTextIf accept listing selectors = trim (elementText element))) /\
  includes (Lambda.extractText listing selectors) "Agent" = false /\
  includes (Lambda.extractText listing selectors) "Eddie Staats" = false.
Proof.
  split.
  - intros accept.
    destruct (extractTextIf_found accept listing selectors)
      as [-> | (_ & selector & element & Hin & Hq & ->)].
    + repeat split; try reflexivity. intros H. now contradiction H.
    + destruct (trim_ends (elementText element)) as [H1 H2].
      repeat split; try assumption. intros _. now exists selector, element.
  - unfold Lambda.extractText.
    destruct (extractTextIf_found
                (fun text => negb (includes text "Eddie Staats") && negb (includes text "Agent"))
                listing selectors) as [-> | (Ha & _)]; [split; reflexivity |].
    apply andb_true_iff in Ha as [H1 H2].
    apply negb_true_iff in H1, H2. now split.
Qed.

Lemma cascade_text_trimmed_witness :
  exists selector element,
    In selector addressSelectors /\ querySelector padded selector = Some element /\
    extractText padded addressSelectors = trim (elementText element) /\
    extractText padded addressSelectors = "41 Birch Lane".
Proof.
  destruct (proj1 (cascade_text_trimmed padded addressSelectors) (fun _ => true))
    as (_ & _ & H).
  destruct (H ltac:(discriminate)) as (selector & element & Hin & Hq & Ht).
  exists selector, element.
  split; [exact Hin |]. split; [exact Hq |]. split; [exact Ht | reflexivity].
Defined.

(** ** The copies side by side *)

(** X22. The three outcomes of the callback of the collection script: it
    throws exactly when the address patterns cannot be built for the city;
    otherwise it returns [null] exactly when the price parser finds no
    price, and a record in every other case.  So for a city whose patterns
    can be built a missing price is the only reason a listing is dropped: a
    listing without image, link or address is still recorded. *)
Theorem cli_callback_outcomes
    (addressRegExp : nat -> string -> option (string -> option string))
    (amb : Ambient) (listing : ListingNode) (cityName stateName : string) (index : nat) :
  (Cli.extract addressRegExp amb listing cityName stateName index = Thrown <->
   builds addressRegExp cityName = false) /\
  (Cli.extract addressRegExp amb listing cityName stateName index = Returned None <->
   builds addressRegExp cityName = true /\
   Cli.parsePrice (textContent listing) (extractText listing priceSelectors) = None) /\
  ((exists r,
      Cli.extract addressRegExp amb listing cityName stateName index = Returned (Some r)) <->
   builds addressRegExp cityName = true /\
   Cli.parsePrice (textContent listing) (extractText listing priceSelectors) <> None).
Proof.
  destruct (cli_extract_cases addressRegExp amb listing cityName stateName index)
    as [[Hb [address E]] | [Hb E]].
  - rewrite E, Hb.
    assert (Cli.finalize amb (Cli.rawFields listing)
              (Cli.parseFields (Cli.rawFields listing) address) cityName stateName index = None
            <-> Cli.parsePrice (textContent listing) (extractText listing priceSelectors) = None)
      as Hnull.
    { open_cli_callback.
      destruct (Cli.parsePrice _ _) as [price|] eqn:P; [| tauto].
      apply parsePrice_plausible in P as (n & Hn & _).
      destruct price; [discriminate Hn |]. cbn. split; discriminate. }
    split; [split; discriminate |]. split.
    + split.
      * intros [= H]. split; [reflexivity | now apply Hnull].
      * intros [_ H]. f_equal. now apply Hnull.
    + split.
      * intros [r [= H]]. split; [reflexivity |]. intros P. apply Hnull in P. congruence.
      * intros [_ H].
        destruct (Cli.finalize _ _ _ _ _ _) as [r|]; [now exists r |].
        contradiction H. now apply Hnull.
  - rewrite E, Hb. split; [tauto |]. split.
    + split; [discriminate | intros [H _]; discriminate H].
    + split; [intros [r H]; discriminate H | intros [H _]; discriminate H].
Qed.

Lemma cli_callback_outcomes_witness :
  Cli.extract literalCity noon unpriced "Columbus" "OH" 1 = Returned None /\
  (exists r, Cli.extract literalCity noon reduced "Columbus" "OH" 0 = Returned (Some r)) /\
  Cli.extract literalCity noon reduced "Winston(Salem" "NC" 0 = Thrown.
Proof.
  split; [| split].
  - apply (proj1 (proj2 (cli_callback_outcomes literalCity noon unpriced "Columbus" "OH" 1))).
    split; vm_compute; reflexivity.
  - apply (proj2 (proj2 (cli_callback_outcomes literalCity noon reduced "Columbus" "OH" 0))).
    split; [reflexivity | vm_compute; discriminate].
  - apply (proj1 (cli_callback_outcomes literalCity noon reduced "Winston(Salem" "NC" 0)).
    reflexivity.
Defined.

(** X23. For one listing the Lambda service and the collection script
    record the same bedrooms, bathrooms, area, property type, image
    address, page address and identifier. *)
Theorem lambda_agrees_with_cli (addressRegExp : nat -> string -> option (string -> option string))
    (amb : Ambient) (listing : ListingNode) (cityName stateName : string) (index : nat)
    (r : Cli.PropertyRecord) :
  Cli.extract addressRegExp amb listing cityName stateName index = Returned (Some r) ->
  let p := Lambda.extract amb listing cityName stateName index in
  Lambda.beds p = Cli.beds r /\ Lambda.baths p = Cli.baths r /\ Lambda.sqft p = Cli.sqft r /\
  Lambda.propertyType p = Cli.propertyType r /\
  Lambda.imageUrl p = Cli.imageUrl r /\ Lambda.propertyUrl p = Cli.propertyUrl r /\
  Lambda.id p = Cli.objectID r.
Proof.
  intros E. cbv zeta.
  pose proof (cli_extract_objectID _ _ _ _ _ _ _ E) as Hid.
  apply cli_extract_fields in E as (Hbeds & Hbaths & Hsqft & Htype & Himage & Hurl).
  rewrite Hid, Htype, Hbeds, Hbaths, Hsqft, Himage, Hurl.
  unfold Lambda.extract.
  cbn [Lambda.beds Lambda.baths Lambda.sqft Lambda.propertyType Lambda.imageUrl
       Lambda.propertyUrl Lambda.id].
  change Lambda.normalizePropertyUrl with Cli.normalizePropertyUrl.
  unfold orElse.
  repeat split.
  - now destruct (extractImageUrl listing).
  - now destruct (Cli.normalizePropertyUrl _).
Qed.

Lemma lambda_agrees_with_cli_witness :
  exists r, Cli.extract literalCity noon listed "Columbus" "OH" 0 = Returned (Some r) /\
            Lambda.beds (Lambda.extract noon listed "Columbus" "OH" 0) = Cli.beds r /\
            Lambda.id (Lambda.extract noon listed "Columbus" "OH" 0) = Cli.objectID r.
Proof.
  eexists. split; [vm_compute; reflexivity |].
  destruct (lambda_agrees_with_cli literalCity noon listed "Columbus" "OH" 0 _
              ltac:(vm_compute; reflexivity)) as (H1 & _ & _ & _ & _ & _ & H2).
  split; [exact H1 | exact H2].
Defined.

Lemma scanInt_widen (lo hi : Z) (clean : string -> string) (patterns : list grouped)
    (corpus : string) (n : Z) :
  scanInt (lo - 1) hi clean patterns corpus = Some n -> n <> lo - 1 ->
  scanInt lo hi clean patterns corpus = Some n.
Proof.
  intros H Hn. induction patterns as [|pattern rest IH]; [discriminate |].
  cbn [scanInt] in *.
  destruct (matchGroup pattern corpus) as [capture|]; [| now apply IH].
  destruct (parseInt (clean capture)) as [v|]; [| now apply IH].
  destruct (Z.leb_spec (lo - 1) v), (Z.leb_spec v hi), (Z.leb_spec lo v);
    cbn [andb] in *; try (now apply IH); try lia.
  - exact H.
  - injection H as ->. lia.
Qed.

(** X24. The two scripts read the bedrooms alike but for a count of 0,
    which only the MCP script accepts: when the MCP script reads a count
    other than 0, the collection script reads the same count. *)
Theorem beds_agree_but_zero (fullText text : string) (n : Z) :
  Mcp.parseBeds fullText text = showZ n -> n <> 0 ->
  Cli.parseBeds fullText text = n.
Proof.
  unfold Mcp.parseBeds, Cli.parseBeds. intros H Hn.
  destruct (scanInt 0 10 _ _ _) as [m|] eqn:E.
  - apply showZ_inj in H. subst m.
    now rewrite (scanInt_widen 1 10 _ _ _ n E Hn).
  - exfalso. pose proof (showZ_chars n) as Hc. rewrite <- H in Hc. discriminate Hc.
Qed.

Lemma beds_agree_but_zero_witness :
  Cli.parseBeds (textContent listed) (textContent listed) = 3 /\
  Mcp.parseBeds "Studio 0 bed loft" "" = "0" /\ Cli.parseBeds "Studio 0 bed loft" "" = 3.
Proof.
  split; [| split; vm_compute; reflexivity].
  apply (beds_agree_but_zero (textContent listed) (textContent listed) 3);
    [vm_compute; reflexivity | lia].
Defined.

(** ** Identifiers in the index *)

Lemma NoDup_map_filter {A B : Type} (g : A -> B) (f : A -> bool) (l : list A) :
  List.NoDup (map g l) -> List.NoDup (map g (List.filter f l)).
Proof.
  induction l as [|x l IH]; cbn [map List.filter]; [auto |].
  intros H. apply List.NoDup_cons_iff in H as [Hx Hl].
  destruct (f x); [| now apply IH].
  cbn [map]. apply List.NoDup_cons_iff. split; [| now apply IH].
  intros Hin. apply Hx. apply in_map_iff in Hin as (y & Hy & Hin).
  apply filter_In in Hin as [Hin _]. apply in_map_iff. now exists y.
Qed.

Lemma cli_ids_from (addressRegExp : nat -> string -> option (string -> option string))
    (ambs : nat -> Ambient) (city state : string) (listings : list ListingNode) :
  forall (first : nat) (values : list (option Cli.PropertyRecord)),
    mapFrom (fun index listing =>
               Cli.extract addressRegExp (ambs index) listing city state index)
      first listings = Returned values ->
    List.NoDup (map Cli.objectID (omap (fun p => p) values)) /\
    forall r, In r (omap (fun p => p) values) ->
      exists i, (first <= i)%nat /\
        Cli.objectID r
          = "property_" +:+ showZ (dateNow (ambs i)) +:+ "_" +:+ showZ (Z.of_nat i).
Proof.
  induction listings as [|listing listings IH]; intros first values; cbn [mapFrom].
  - intros [= <-]. split; [apply List.NoDup_nil | intros r []].
  - destruct (Cli.extract addressRegExp (ambs first) listing city state first)
      as [value|] eqn:E; [| discriminate].
    destruct (mapFrom _ (S first) listings) as [rest|] eqn:M; [| discriminate].
    intros [= <-]. destruct (IH _ _ M) as [Hnodup Hids].
    cbn [omap list_omap]. destruct value as [r|].
    + apply cli_extract_objectID in E.
      split.
      * cbn [map]. apply List.NoDup_cons_iff. split; [| exact Hnodup].
        intros Hin. apply in_map_iff in Hin as (r' & Heq & Hin).
        apply Hids in Hin as (i & Hi & Hid). rewrite E, Hid in Heq.
        apply identifier_index in Heq. lia.
      * intros r' [<- | Hin]; [now exists first |].
        apply Hids in Hin as (i & Hi & Hid). exists i. split; [lia | exact Hid].
    + split; [exact Hnodup |].
      intros r' Hin. apply Hids in Hin as (i & Hi & Hid). exists i. split; [lia | exact Hid].
Qed.

Lemma lambda_ids_from (ambs : nat -> Ambient) (city state : string)
    (listings : list ListingNode) :
  forall first : nat,
    let extracted :=
      imap (fun i listing =>
              Lambda.extract (ambs (first + i)%nat) listing city state (first + i)%nat)
        listings in
    List.NoDup (map Lambda.id extracted) /\
    forall p, In p extracted ->
      exists i, (first <= i)%nat /\
        Lambda.id p
          = "property_" +:+ showZ (dateNow (ambs i)) +:+ "_" +:+ showZ (Z.of_nat i).
Proof.
  induction listings as [|listing listings IH]; intros first; cbv zeta.
  - split; [apply List.NoDup_nil | intros r []].
  - rewrite imap_cons.
    rewrite (imap_ext _ (fun i listing' =>
               Lambda.extract (ambs (S first + i)%nat) listing' city state (S first + i)%nat))
      by (intros i x _; cbn [compose]; now replace (first + S i)%nat with (S first + i)%nat by lia).
    destruct (IH (S first)) as [Hnodup Hids]. cbv zeta in Hnodup, Hids.
    replace (first + 0)%nat with first by lia.
    split.
    + cbn [map]. apply List.NoDup_cons_iff. split; [| exact Hnodup].
      intros Hin. apply in_map_iff in Hin as (p' & Heq & Hin).
      apply Hids in Hin as (i & Hi & Hid). rewrite Hid in Heq.
      unfold Lambda.extract in Heq. cbn [Lambda.id] in Heq.
      apply identifier_index in Heq. lia.
    + intros p' [<- | Hin]; [now exists first |].
      apply Hids in Hin as (i & Hi & Hid). exists i. split; [lia | exact Hid].
Qed.

(** X25. No two objects of one indexing call share their object
    identifier, so no record of a batch overwrites another in the index:
    this holds for what the collection script sends after its filters, and
    for what the indexing service makes of a batch of the Lambda service. *)
Theorem indexed_ids_unique (addressRegExp : nat -> string -> option (string -> option string))
    (ambs : nat -> Ambient) (page : Page) (city state : string) (maxProperties : Z) :
  (forall kept,
     CliScript.indexProperties
       (Cli.collectProperties addressRegExp ambs page city state maxProperties) = Some kept ->
     List.NoDup (map Cli.objectID kept)) /\
  List.NoDup (map Algolia.objectID
           (Algolia.algoliaProperties
              (Lambda.collectProperties ambs page city state maxProperties))).
Proof.
  split.
  - intros kept. unfold CliScript.indexProperties.
    destruct (_ =? _)%nat; [discriminate |].
    destruct (_ =? _)%nat; [discriminate |]. intros [= <-].
    apply NoDup_map_filter, NoDup_map_filter. unfold Cli.collectProperties.
    destruct (_ =? _)%nat; [apply List.NoDup_nil |].
    destruct (mapFrom _ _ _) as [values|] eqn:M; [| apply List.NoDup_nil].
    exact (proj1 (cli_ids_from addressRegExp ambs city state _ _ _ M)).
  - unfold Algolia.algoliaProperties. rewrite map_map. cbn [Algolia.objectID].
    destruct (lambda_cap_fixed ambs page city state maxProperties) as [-> _].
    exact (proj1 (lambda_ids_from ambs city state
                    (take 20 (querySelectorAll page (fst (locate page)))) 0)).
Qed.

Lemma indexed_ids_unique_witness :
  exists kept,
    CliScript.indexProperties
      (Cli.collectProperties literalCity (fun _ => noon) sampleResults "Columbus" "OH" 20)
      = Some kept /\
    length kept = 2%nat /\ List.NoDup (map Cli.objectID kept).
Proof.
  eexists. split; [vm_compute; reflexivity |]. split; [reflexivity |].
  apply (proj1 (indexed_ids_unique literalCity (fun _ => noon) sampleResults "Columbus" "OH" 20)).
  vm_compute; reflexivity.
Defined.
